(** * Omie order lookup: a shallow embedding of [backend/server.py]

    The development follows the source top-down: Python values and the
    few built-ins the server relies on, the records client
    ([call_omie_api]), customer resolution and order retrieval
    ([encontrar_pedidos_cliente]) and the question pipeline
    ([responder_pergunta_sobre_pedidos]).

    Conventions.
    - A Python [str] is a Rocq [string]; each character stands for the
      code point of the same number (0 to 255).
    - Values decoded from JSON are the type [json]; numbers are kept by
      their exact value ([Z] for [int], [Q] for a finite [float]).  The
      floats that are not finite ([inf] and [nan], which the decoder
      reads off [1e400], [Infinity] or [NaN]) are not represented: what
      is proved about the end of the page loop is stated for the page
      count the first page announces, a finite number here.
    - A Python call either returns or raises: [result].
    - The remote services are oracles passed as arguments: an [api] for
      the records API, an [ia] for the language model.
    - Every f-string the tools return is one constructor of [message] or
      [resposta], carrying the interpolated values. *)

From Stdlib Require Import ZArith QArith Qround List String Ascii Bool Lia.
From Stdlib Require Import Permutation Sorted OrderedTypeEx.
Import ListNotations.

Local Open Scope string_scope.
Local Open Scope Z_scope.

(** ** Exceptions and the result of a call *)

Inductive exn : Type :=
| AttributeError   (* [.get] or [.lower] on a value that has no such method *)
| TypeError.       (* iterating, slicing or ordering a value that cannot be *)

Inductive result (A : Type) : Type :=
| Ok (a : A)
| Raise (e : exn).

Arguments Ok {A} a.
Arguments Raise {A} e.

Definition bind {A B : Type} (r : result A) (k : A -> result B) : result B :=
  match r with
  | Ok a => k a
  | Raise e => Raise e
  end.

Notation "x <- c ;; k" := (bind c (fun x => k))
  (at level 61, c at next level, right associativity).

Fixpoint mapM {A B : Type} (f : A -> result B) (l : list A) : result (list B) :=
  match l with
  | [] => Ok []
  | x :: xs => y <- f x ;; ys <- mapM f xs ;; Ok (y :: ys)
  end.

(** ** Python strings *)

Module PyStr.

Definition code (c : ascii) : nat := nat_of_ascii c.

(** [str.isdigit] on one character: the decimal digits and the three
    superscript digits below code point 256. *)
Definition isdigit (c : ascii) : bool :=
  let n := code c in
  ((48 <=? n) && (n <=? 57) || (n =? 178) || (n =? 179) || (n =? 185))%nat.

(** [str.isspace] on one character, the set [str.strip] removes. *)
Definition isspace (c : ascii) : bool :=
  let n := code c in
  ((9 <=? n) && (n <=? 13) || (28 <=? n) && (n <=? 32)
   || (n =? 133) || (n =? 160))%nat.

Definition lower_char (c : ascii) : ascii :=
  let n := code c in
  if ((65 <=? n) && (n <=? 90)
      || (192 <=? n) && (n <=? 222) && negb (n =? 215))%nat
  then ascii_of_nat (n + 32) else c.

Fixpoint filter (p : ascii -> bool) (s : string) : string :=
  match s with
  | EmptyString => EmptyString
  | String c s' => if p c then String c (filter p s') else filter p s'
  end.

Fixpoint all (p : ascii -> bool) (s : string) : bool :=
  match s with
  | EmptyString => true
  | String c s' => p c && all p s'
  end.

Definition is_empty (s : string) : bool :=
  match s with EmptyString => true | _ => false end.

(** [''.join(filter(str.isdigit, s))] for a string [s]. *)
Definition digits (s : string) : string := filter isdigit s.

(** [str.isdigit(s)] for a whole string: non-empty and all digits. *)
Definition all_digits (s : string) : bool := negb (is_empty s) && all isdigit s.

Fixpoint lower (s : string) : string :=
  match s with
  | EmptyString => EmptyString
  | String c s' => String (lower_char c) (lower s')
  end.

Fixpoint lstrip (s : string) : string :=
  match s with
  | EmptyString => EmptyString
  | String c s' => if isspace c then lstrip s' else s
  end.

Fixpoint rstrip (s : string) : string :=
  match s with
  | EmptyString => EmptyString
  | String c s' =>
      match rstrip s' with
      | EmptyString => if isspace c then EmptyString else String c EmptyString
      | r => String c r
      end
  end.

Definition strip (s : string) : string := rstrip (lstrip s).

Definition startswith (p s : string) : bool := String.prefix p s.

(** [needle in hay] for two strings. *)
Fixpoint contains (needle hay : string) : bool :=
  String.prefix needle hay ||
  match hay with
  | EmptyString => false
  | String _ hay' => contains needle hay'
  end.

(** [s[a:-b]]: from index [a] up to [b] characters before the end. *)
Definition slice (a b : nat) (s : string) : string :=
  String.substring a (String.length s - b - a) s.

Fixpoint join (l : list string) : string :=
  match l with
  | [] => EmptyString
  | s :: l' => s ++ join l'
  end.

End PyStr.

(** ** JSON values as Python objects *)

#[warnings="-register-all"]
Inductive json : Type :=
| JNull
| JBool (b : bool)
| JInt (z : Z)
| JFloat (q : Q)
| JStr (s : string)
| JArr (l : list json)
| JObj (d : list (string * json)).

Definition dict : Type := list (string * json).

Fixpoint dict_get (k : string) (d : dict) : option json :=
  match d with
  | [] => None
  | (k', v) :: d' => if String.eqb k k' then Some v else dict_get k d'
  end.

(** [bool(v)] *)
Definition truthy (v : json) : bool :=
  match v with
  | JNull => false
  | JBool b => b
  | JInt z => negb (z =? 0)
  | JFloat q => negb (Qeq_bool q 0)
  | JStr s => negb (PyStr.is_empty s)
  | JArr l => match l with [] => false | _ => true end
  | JObj d => match d with [] => false | _ => true end
  end.

(** [v.get(k, default)]: only a dict has the method. *)
Definition py_get (v : json) (k : string) (default : json) : result json :=
  match v with
  | JObj d => Ok (match dict_get k d with Some x => x | None => default end)
  | _ => Raise AttributeError
  end.

(** [v.lower()]: only a string has the method. *)
Definition py_lower (v : json) : result string :=
  match v with
  | JStr s => Ok (PyStr.lower s)
  | _ => Raise AttributeError
  end.

(** The numeric value of a [bool], [int] or [float]. *)
Definition as_number (v : json) : option Q :=
  match v with
  | JBool b => Some (if b then 1%Q else 0%Q)
  | JInt z => Some (inject_Z z)
  | JFloat q => Some q
  | _ => None
  end.

(** [n <= v] and [n > v] for an [int] [n]. *)
Definition int_le (n : Z) (v : json) : result bool :=
  match as_number v with
  | Some q => Ok (Qle_bool (inject_Z n) q)
  | None => Raise TypeError
  end.

Definition int_gt (n : Z) (v : json) : result bool :=
  match as_number v with
  | Some q => Ok (negb (Qle_bool (inject_Z n) q))
  | None => Raise TypeError
  end.

(** [a == b]; it never raises. *)
Fixpoint py_eq (a b : json) {struct a} : bool :=
  match a, b with
  | JNull, JNull => true
  | JStr s, JStr t => String.eqb s t
  | JArr l, JArr m =>
      (fix go (l m : list json) {struct l} : bool :=
         match l, m with
         | [], [] => true
         | x :: l', y :: m' => py_eq x y && go l' m'
         | _, _ => false
         end) l m
  | JObj d, JObj e =>
      (List.length d =? List.length e)%nat &&
      (fix go (d : dict) {struct d} : bool :=
         match d with
         | [] => true
         | (k, v) :: d' =>
             match dict_get k e with
             | Some w => py_eq v w && go d'
             | None => false
             end
         end) d
  | _, _ =>
      match as_number a, as_number b with
      | Some p, Some q => Qeq_bool p q
      | _, _ => false
      end
  end.

(** [a < b]: numbers by value, strings by code points, lists
    lexicographically; any other pair raises. *)
Fixpoint py_lt (a b : json) {struct a} : result bool :=
  match a, b with
  | JStr s, JStr t => Ok (String.ltb s t)
  | JArr l, JArr m =>
      (fix go (l m : list json) {struct l} : result bool :=
         match l, m with
         | [], [] => Ok false
         | [], _ :: _ => Ok true
         | _ :: _, [] => Ok false
         | x :: l', y :: m' => if py_eq x y then go l' m' else py_lt x y
         end) l m
  | _, _ =>
      match as_number a, as_number b with
      | Some p, Some q => Ok (negb (Qle_bool q p))
      | _, _ => Raise TypeError
      end
  end.

(** [''.join(filter(str.isdigit, v))]: [filter] iterates [v] and applies
    [str.isdigit] to each element, so a string is filtered by character,
    a list of strings or a dict (its keys) by element, and anything else
    raises. *)
Definition digits_of (v : json) : result string :=
  match v with
  | JStr s => Ok (PyStr.digits s)
  | JArr l =>
      ss <- mapM (fun x => match x with
                           | JStr s => Ok s
                           | _ => Raise TypeError
                           end) l ;;
      Ok (PyStr.join (List.filter PyStr.all_digits ss))
  | JObj d => Ok (PyStr.join (List.filter PyStr.all_digits (List.map fst d)))
  | _ => Raise TypeError
  end.

(** Iterating a value ([for x in v], [sorted(v)]): a list yields its
    elements, a string its characters, a dict its keys. *)
Fixpoint chars (s : string) : list json :=
  match s with
  | EmptyString => []
  | String c s' => JStr (String c EmptyString) :: chars s'
  end.

Definition py_iter (v : json) : result (list json) :=
  match v with
  | JArr l => Ok l
  | JStr s => Ok (chars s)
  | JObj d => Ok (List.map (fun kv => JStr (fst kv)) d)
  | _ => Raise TypeError
  end.

(** [v[:3]]; slicing a dict raises as well (a [KeyError] on the newest
    interpreters, which is recorded here as [TypeError] too). *)
Definition py_slice3 (v : json) : result json :=
  match v with
  | JArr l => Ok (JArr (firstn 3 l))
  | JStr s => Ok (JStr (String.substring 0 3 s))
  | _ => Raise TypeError
  end.

(** A dict built by a comprehension, with keys of any hashable value: a
    key seen again keeps its first position and takes the new value. *)
Definition hashable (v : json) : bool :=
  match v with
  | JArr _ | JObj _ => false
  | _ => true
  end.

Fixpoint kv_set (k v : json) (d : list (json * json)) : list (json * json) :=
  match d with
  | [] => [(k, v)]
  | (k', v') :: d' =>
      if py_eq k k' then (k', v) :: d' else (k', v') :: kv_set k v d'
  end.

(** ** Messages returned by [encontrar_pedidos_cliente]

    One constructor per string of the source, in source order. *)

Inductive message : Type :=
| MsgSemParametro                                    (* line 102 *)
| MsgErroBuscarCliente (pagina : Z) (detalhe : json) (* line 150 *)
| MsgMultiplosCnpj (cnpj_cpf : json)                 (* line 165 *)
| MsgNaoEncontradoPrimeiraPagina                     (* line 180 *)
| MsgMultiplosNomes (quantos : nat) (nome : json)    (* line 201 *)
| MsgNaoEncontrado                                   (* line 205 *)
| MsgErroBuscarPedidos (detalhe : json)              (* line 223 *)
| MsgNenhumPedido (customer_id : json)               (* line 229 *)
| MsgNenhumProcessado (customer_id : json).          (* line 280 *)

(** [List[Dict[str, Any]] | str] *)
Inductive retorno : Type :=
| Pedidos (formatted_orders : list json)
| Mensagem (m : message).

(** ** RecordsClient: [call_omie_api] *)

(** What one POST to the records API can do, as the [try] of
    [call_omie_api] sees it. *)
Inductive http_outcome : Type :=
| RequestError (msg : string)               (* [httpx.RequestError] *)
| OtherError                                (* any other exception *)
| StatusError (status : Z) (text : string)  (* [raise_for_status] raised *)
| Response (status : Z) (text : string) (body : option json).
    (* [body] is [response.json()], [None] for a [JSONDecodeError] *)

(** The records API: endpoint path, call name and parameter list. *)
Definition api : Type := string -> string -> json -> http_outcome.

Definition error_object (status_code message : json) : json :=
  JObj [("error", JBool true); ("status_code", status_code);
        ("message", message)].

(** Lines 64-71, inside the [try]. *)
Definition check_fault (status : Z) (response_json : json) : result json :=
  faultstring <- py_get response_json "faultstring" JNull ;;
  fault <- (if truthy faultstring then Ok true
            else faultcode <- py_get response_json "faultcode" JNull ;;
                 Ok (truthy faultcode)) ;;
  if (fault : bool) then
    msg <- py_get response_json "faultstring"
             (JStr "Erro desconhecido da Omie") ;;
    Ok (error_object (JInt status) msg)
  else Ok response_json.

Definition call_omie_api (post : api) (endpoint_path call_name : string)
    (params : json) : json :=
  match post endpoint_path call_name params with
  | Response status _ (Some response_json) =>
      match check_fault status response_json with
      | Ok r => r
      | Raise _ =>
          error_object JNull (JStr "Erro inesperado no processamento da API")
      end
  | StatusError status text => error_object (JInt status) (JStr text)
  | RequestError msg => error_object JNull (JStr msg)
  | Response status _ None =>
      error_object (JInt status)
        (JStr "Falha ao decodificar a resposta da API Omie")
  | OtherError =>
      error_object JNull (JStr "Erro inesperado no processamento da API")
  end.

(** ** CustomerResolver: lines 105-205 of [encontrar_pedidos_cliente] *)

(** The three search hints.  The tool surface passes a string or [None];
    [responder_pergunta_sobre_pedidos] passes whatever the decoded reply
    holds, hence [json]. *)
Record hints : Type := mkHints {
  cnpj_cpf : json;
  nome_fantasia : json;
  cidade : json
}.

(** Line 106: [''.join(filter(str.isdigit, cnpj_cpf)) if cnpj_cpf else None] *)
Definition normalize_input (cnpj_cpf : json) : result (option string) :=
  if truthy cnpj_cpf then s <- digits_of cnpj_cpf ;; Ok (Some s) else Ok None.

(** Truth value of [normalized_input_cnpj_cpf]. *)
Definition has_cnpj (normalized : option string) : bool :=
  match normalized with
  | Some s => negb (PyStr.is_empty s)
  | None => false
  end.

(** Lines 125-131. *)
Definition cliente_filter (h : hints) (normalized : option string) : dict :=
  match normalized with
  | Some s =>
      if negb (PyStr.is_empty s) then [("cnpj_cpf", JStr s)]
      else if truthy (nome_fantasia h) then [("nome_fantasia", nome_fantasia h)]
      else if truthy (cidade h) then [("cidade", cidade h)]
      else []
  | None =>
      if truthy (nome_fantasia h) then [("nome_fantasia", nome_fantasia h)]
      else if truthy (cidade h) then [("cidade", cidade h)]
      else []
  end.

(** Lines 140-145. *)
Definition listar_clientes_params (current_page : Z) (filtro : dict) : json :=
  JArr [JObj [("pagina", JInt current_page);
              ("registros_por_pagina", JInt 50);
              ("apenas_importado_api", JStr "N");
              ("clientesFiltro", JObj filtro)]].

(** Line 147: the response to the request for one page. *)
Definition listar_clientes (post : api) (h : hints)
    (normalized : option string) (current_page : Z) : json :=
  call_omie_api post "/geral/clientes/" "ListarClientes"
    (listar_clientes_params current_page (cliente_filter h normalized)).

(** The local variables of the pagination loop (lines 111-115). *)
Record scan_state : Type := mkScan {
  current_page : Z;
  total_pages : json;
  customer_id : json;
  found_customer_details : json;
  possible_matches_by_name : list json
}.

Definition scan_init : scan_state := mkScan 1 (JInt 1) JNull JNull [].

Definition set_total (st : scan_state) (t : json) : scan_state :=
  mkScan (current_page st) t (customer_id st) (found_customer_details st)
    (possible_matches_by_name st).

Definition set_found (st : scan_state) (rec id : json) : scan_state :=
  mkScan (current_page st) (total_pages st) id rec
    (possible_matches_by_name st).

Definition add_match (st : scan_state) (rec : json) : scan_state :=
  mkScan (current_page st) (total_pages st) (customer_id st)
    (found_customer_details st) (possible_matches_by_name st ++ [rec]).

Definition next_page (st : scan_state) : scan_state :=
  mkScan (current_page st + 1) (total_pages st) (customer_id st)
    (found_customer_details st) (possible_matches_by_name st).

(** How the [for] over one page ends: it runs out or breaks ([ForDone]),
    or the function returns from inside it. *)
Inductive for_outcome : Type :=
| ForDone (st : scan_state)
| ForReturn (m : message).

(** Line 163: [normalized_input_cnpj_cpf and api_cnpj_cpf == ...] *)
Definition cnpj_hit (normalized : option string) (api_cnpj_cpf : string) : bool :=
  match normalized with
  | Some s => negb (PyStr.is_empty s) && String.eqb api_cnpj_cpf s
  | None => false
  end.

(** Lines 159-173. *)
Fixpoint for_clientes (h : hints) (normalized : option string)
    (clientes : list json) (st : scan_state) : result for_outcome :=
  match clientes with
  | [] => Ok (ForDone st)
  | cliente_in_list :: rest =>
      c <- py_get cliente_in_list "cnpj_cpf" (JStr "") ;;
      api_cnpj_cpf <- digits_of c ;;
      api_nome_fantasia <- py_get cliente_in_list "nome_fantasia" (JStr "") ;;
      if cnpj_hit normalized api_cnpj_cpf then
        if truthy (found_customer_details st)
        then Ok (ForReturn (MsgMultiplosCnpj (cnpj_cpf h)))
        else
          id <- py_get cliente_in_list "codigo_cliente_omie" JNull ;;
          Ok (ForDone (set_found st cliente_in_list id))
      else if truthy (nome_fantasia h) && negb (has_cnpj normalized) then
        a <- py_lower (nome_fantasia h) ;;
        b <- py_lower api_nome_fantasia ;;
        if PyStr.contains a b
        then for_clientes h normalized rest (add_match st cliente_in_list)
        else for_clientes h normalized rest st
      else for_clientes h normalized rest st
  end.

(** How one turn of the [while] ends once the page has arrived. *)
Inductive step_outcome : Type :=
| StepNext (st : scan_state)
| StepBreak (st : scan_state)
| StepReturn (m : message).

(** Lines 149-184, given the response to the current page. *)
Definition page_step (h : hints) (normalized : option string)
    (st : scan_state) (cliente_response : json) : result step_outcome :=
  err <- py_get cliente_response "error" JNull ;;
  if truthy err then
    msg <- py_get cliente_response "message" (JStr "Erro desconhecido na API") ;;
    Ok (StepReturn (MsgErroBuscarCliente (current_page st) msg))
  else
    t <- (if current_page st =? 1
          then py_get cliente_response "total_de_paginas" (JInt 1)
          else Ok (total_pages st)) ;;
    let st := set_total st t in
    clientes <- py_get cliente_response "clientes_cadastro" JNull ;;
    r <- (if truthy clientes
          then l <- py_iter clientes ;; for_clientes h normalized l st
          else Ok (ForDone st)) ;;
    match r with
    | ForReturn m => Ok (StepReturn m)
    | ForDone st =>
        if truthy clientes && truthy (customer_id st) then Ok (StepBreak st)
        else if negb (truthy clientes) && (current_page st =? 1)
                && py_eq (total_pages st) (JInt 1)
        then Ok (StepReturn MsgNaoEncontradoPrimeiraPagina)
        else
          let st := next_page st in
          _ <- int_gt (current_page st) (total_pages st) ;;
          Ok (StepNext st)
    end.

(** How the pagination loop ends. *)
Inductive scan_outcome : Type :=
| ScanDone (st : scan_state)
| ScanReturn (m : message)
| ScanRaise (e : exn).

(** Lines 117-184: the [while].  [fuel] bounds the number of turns and
    [None] means it ran out; the list is the pages requested, in order. *)
Fixpoint paginate (fuel : nat) (post : api) (h : hints)
    (normalized : option string) (st : scan_state)
    : option (list Z * scan_outcome) :=
  match fuel with
  | O => None
  | S fuel' =>
      match int_le (current_page st) (total_pages st) with
      | Raise e => Some ([], ScanRaise e)
      | Ok false => Some ([], ScanDone st)
      | Ok true =>
          if truthy (customer_id st) then Some ([], ScanDone st)
          else
            let p := current_page st in
            match page_step h normalized st (listar_clientes post h normalized p) with
            | Raise e => Some ([p], ScanRaise e)
            | Ok (StepReturn m) => Some ([p], ScanReturn m)
            | Ok (StepBreak st') => Some ([p], ScanDone st')
            | Ok (StepNext st') =>
                match paginate fuel' post h normalized st' with
                | Some (ps, o) => Some (p :: ps, o)
                | None => None
                end
            end
      end
  end.

(** Line 195: [{match.get("nome_fantasia"): match for match in ...}] *)
Fixpoint unique_names_from (acc : list (json * json)) (matches : list json)
    : result (list (json * json)) :=
  match matches with
  | [] => Ok acc
  | m :: rest =>
      k <- py_get m "nome_fantasia" JNull ;;
      if hashable k then unique_names_from (kv_set k m acc) rest
      else Raise TypeError
  end.

Definition unique_names (matches : list json) : result (list (json * json)) :=
  unique_names_from [] matches.

(** The outcome of resolution: the customer id with the record it came
    from, or the message returned instead. *)
Inductive resolution : Type :=
| Resolvido (customer_id found_customer_details : json)
| Falha (m : message).

(** Lines 188-201: the name matches, once the loop is over. *)
Definition by_name (h : hints) (st : scan_state) : result (message + scan_state) :=
  if negb (truthy (customer_id st))
     && negb (Nat.eqb (List.length (possible_matches_by_name st)) 0)
  then
    match possible_matches_by_name st with
    | [m] =>
        id <- py_get m "codigo_cliente_omie" JNull ;;
        Ok (inr (set_found st m id))
    | _ =>
        u <- unique_names (possible_matches_by_name st) ;;
        match u with
        | [(_, m)] =>
            id <- py_get m "codigo_cliente_omie" JNull ;;
            Ok (inr (set_found st m id))
        | _ => Ok (inl (MsgMultiplosNomes (List.length u) (nome_fantasia h)))
        end
    end
  else Ok (inr st).

(** Lines 188-205. *)
Definition validate_found (h : hints) (st : scan_state) : result resolution :=
  r <- by_name h st ;;
  match r with
  | inl m => Ok (Falha m)
  | inr st =>
      if negb (truthy (customer_id st))
         || negb (truthy (found_customer_details st))
      then Ok (Falha MsgNaoEncontrado)
      else Ok (Resolvido (customer_id st) (found_customer_details st))
  end.

(** Lines 105-205: the pages requested and the resolution. *)
Definition encontrar_id_cliente (fuel : nat) (post : api) (h : hints)
    : option (list Z * result resolution) :=
  match normalize_input (cnpj_cpf h) with
  | Raise e => Some ([], Raise e)
  | Ok normalized =>
      match paginate fuel post h normalized scan_init with
      | None => None
      | Some (ps, ScanRaise e) => Some (ps, Raise e)
      | Some (ps, ScanReturn m) => Some (ps, Ok (Falha m))
      | Some (ps, ScanDone st) => Some (ps, validate_found h st)
      end
  end.

(** ** OrderRetriever: lines 209-282 of [encontrar_pedidos_cliente] *)

(** Lines 211-216. *)
Definition listar_pedidos_params (customer_id : json) : json :=
  JArr [JObj [("pagina", JInt 1);
              ("registros_por_pagina", JInt 50);
              ("apenas_importado_api", JStr "N");
              ("filtrar_por_cliente", customer_id)]].

(** Line 245: the sort key of one order. *)
Definition chave_pedido (p : json) : result json :=
  cabecalho <- py_get p "cabecalho" (JObj []) ;;
  py_get cabecalho "numero_pedido" (JStr "0").

(** [sorted(..., key=..., reverse=True)]: every key is computed first,
    then the list is sorted with [<] on the keys, larger keys first and
    equal keys in their original order.  The sort is written as an
    insertion sort; an exception raised by a comparison ends it. *)
Fixpoint insert_desc (kx : json * json) (l : list (json * json))
    : result (list (json * json)) :=
  match l with
  | [] => Ok [kx]
  | ky :: l' =>
      b <- py_lt (fst kx) (fst ky) ;;
      if (b : bool) then r <- insert_desc kx l' ;; Ok (ky :: r)
      else Ok (kx :: l)
  end.

Fixpoint sort_desc (l : list (json * json)) : result (list (json * json)) :=
  match l with
  | [] => Ok []
  | kx :: l' => s <- sort_desc l' ;; insert_desc kx s
  end.

Definition with_key (p : json) : result (json * json) :=
  k <- chave_pedido p ;; Ok (k, p).

Definition sorted_by_numero_pedido (pedidos : json) : result (list json) :=
  l <- py_iter pedidos ;;
  keyed <- mapM with_key l ;;
  s <- sort_desc keyed ;;
  Ok (List.map snd s).

(** Lines 242-250: the [try] around the sort. *)
Definition pedidos_ordenados (pedidos_venda_produto : json) : json :=
  match sorted_by_numero_pedido pedidos_venda_produto with
  | Ok l => JArr l
  | Raise _ => pedidos_venda_produto
  end.

(** Lines 262-268. *)
Definition formatar_item (item_detail : json) : result json :=
  produto_info <- py_get item_detail "produto" (JObj []) ;;
  descricao <- py_get produto_info "descricao" (JStr "N/A") ;;
  quantidade <- py_get produto_info "quantidade" (JInt 0) ;;
  valor_unitario <- py_get produto_info "valor_unitario" (JFloat 0) ;;
  valor_total <- py_get produto_info "valor_total" (JFloat 0) ;;
  Ok (JObj [("descricao_produto", descricao);
            ("quantidade", quantidade);
            ("valor_unitario", valor_unitario);
            ("valor_total_item", valor_total)]).

(** Lines 258-276. *)
Definition formatar_pedido (order : json) : result json :=
  cabecalho <- py_get order "cabecalho" (JObj []) ;;
  total_pedido_info <- py_get order "total_pedido" (JObj []) ;;
  det <- py_get order "det" (JArr []) ;;
  items <- py_iter det ;;
  itens_list <- mapM formatar_item items ;;
  numero_pedido <- py_get cabecalho "numero_pedido" (JStr "N/A") ;;
  data_previsao <- py_get cabecalho "data_previsao" (JStr "N/A") ;;
  etapa <- py_get cabecalho "etapa" (JStr "N/A") ;;
  valor_total_pedido <- py_get total_pedido_info "valor_total_pedido" (JFloat 0) ;;
  Ok (JObj [("numero_pedido", numero_pedido);
            ("data_previsao", data_previsao);
            ("etapa_pedido", etapa);
            ("valor_total_pedido", valor_total_pedido);
            ("itens", JArr itens_list)]).

(** Lines 231-282: sort, keep three, format. *)
Definition processar_pedidos (customer_id pedidos_venda_produto : json)
    : result retorno :=
  recent_orders <- py_slice3 (pedidos_ordenados pedidos_venda_produto) ;;
  l <- py_iter recent_orders ;;
  formatted_orders <- mapM formatar_pedido l ;;
  match formatted_orders with
  | [] => Ok (Mensagem (MsgNenhumProcessado customer_id))
  | _ => Ok (Pedidos formatted_orders)
  end.

(** Lines 209-282. *)
Definition encontrar_pedidos (post : api) (customer_id : json) : result retorno :=
  let pedidos_response :=
    call_omie_api post "/produtos/pedido/" "ListarPedidos"
      (listar_pedidos_params customer_id) in
  err <- py_get pedidos_response "error" JNull ;;
  if truthy err then
    msg <- py_get pedidos_response "message" (JStr "Erro desconhecido na API") ;;
    Ok (Mensagem (MsgErroBuscarPedidos msg))
  else
    pedidos_venda_produto <- py_get pedidos_response "pedido_venda_produto" JNull ;;
    if negb (truthy pedidos_venda_produto)
    then Ok (Mensagem (MsgNenhumPedido customer_id))
    else processar_pedidos customer_id pedidos_venda_produto.

(** ** The first tool: [encontrar_pedidos_cliente] (lines 88-282) *)

Definition encontrar_pedidos_cliente (fuel : nat) (post : api) (h : hints)
    : option (list Z * result retorno) :=
  if negb (truthy (cnpj_cpf h) || truthy (nome_fantasia h) || truthy (cidade h))
  then Some ([], Ok (Mensagem MsgSemParametro))
  else
    match encontrar_id_cliente fuel post h with
    | None => None
    | Some (ps, Raise e) => Some (ps, Raise e)
    | Some (ps, Ok (Falha m)) => Some (ps, Ok (Mensagem m))
    | Some (ps, Ok (Resolvido customer_id _)) =>
        Some (ps, encontrar_pedidos post customer_id)
    end.

(** ** The second tool: [responder_pergunta_sobre_pedidos] (lines 286-401) *)

(** The two prompts, by the values interpolated in them. *)
Inductive prompt : Type :=
| PromptAnalise (pergunta_usuario : string)
| PromptResposta (pergunta_usuario : string) (pergunta_especifica : json)
    (pedidos_data : list json).

(** The language model: whether [genai.GenerativeModel] could be built,
    and the text of the reply to a prompt ([None] when the call, or
    reading the reply's text, raises). *)
Record ia : Type := mkIA {
  model_ok : bool;
  generate_content : prompt -> option string
}.

(** The strings the tool returns, in source order. *)
Inductive resposta : Type :=
| RespIAIndisponivel                      (* line 302 *)
| RespNaoEntendi                          (* line 344 *)
| RespErroAnalise                         (* line 347 *)
| RespForaDeEscopo                        (* line 350 *)
| RespFaltaIdentificador                  (* line 358 *)
| RespNaoConsegui (detalhes : message)    (* line 370 *)
| RespSemPedidos (h : hints)              (* line 373 *)
| RespTexto (resposta_formatada : string) (* line 398 *)
| RespErroRespostaFinal.                  (* line 401 *)

(** Lines 331-336: the text handed to [json.loads]. *)
Definition json_text (raw_response_text : string) : string :=
  let s := PyStr.strip raw_response_text in
  if PyStr.startswith "```json" s then PyStr.strip (PyStr.slice 7 3 s)
  else if PyStr.startswith "```" s then PyStr.strip (PyStr.slice 3 3 s)
  else s.

Section Responder.

(** [json.loads], from the standard library of the interpreter: [None]
    is a [JSONDecodeError]. *)
Variable json_loads : string -> option json.

(** Line 338. *)
Definition dados_interpretados (raw_response_text : string) : option json :=
  json_loads (json_text raw_response_text).

(** Lines 349-401, once the analysis reply is decoded. *)
Definition responder_com_dados (fuel : nat) (post : api) (m : ia)
    (pergunta_usuario : string) (dados : json) : option (result resposta) :=
  match py_get dados "sobre_pedidos" JNull with
  | Raise e => Some (Raise e)
  | Ok sobre_pedidos =>
      if negb (truthy sobre_pedidos) then Some (Ok RespForaDeEscopo)
      else
        match (c <- py_get dados "cnpj_cpf" JNull ;;
               n <- py_get dados "nome_fantasia" JNull ;;
               ci <- py_get dados "cidade" JNull ;;
               pe <- py_get dados "pergunta_especifica" JNull ;;
               Ok (mkHints c n ci, pe)) with
        | Raise e => Some (Raise e)
        | Ok (h, pergunta_especifica) =>
            if negb (truthy (cnpj_cpf h) || truthy (nome_fantasia h)
                     || truthy (cidade h))
            then Some (Ok RespFaltaIdentificador)
            else
              match encontrar_pedidos_cliente fuel post h with
              | None => None
              | Some (_, Raise e) => Some (Raise e)
              | Some (_, Ok (Mensagem msg)) => Some (Ok (RespNaoConsegui msg))
              | Some (_, Ok (Pedidos [])) => Some (Ok (RespSemPedidos h))
              | Some (_, Ok (Pedidos pedidos_data)) =>
                  match generate_content m
                          (PromptResposta pergunta_usuario pergunta_especifica
                             pedidos_data) with
                  | Some resposta_formatada =>
                      Some (Ok (RespTexto resposta_formatada))
                  | None => Some (Ok RespErroRespostaFinal)
                  end
              end
        end
  end.

Definition responder_pergunta_sobre_pedidos (fuel : nat) (post : api)
    (m : ia) (pergunta_usuario : string) : option (result resposta) :=
  if negb (model_ok m) then Some (Ok RespIAIndisponivel)
  else
    match generate_content m (PromptAnalise pergunta_usuario) with
    | None => Some (Ok RespErroAnalise)
    | Some raw_response_text =>
        match dados_interpretados raw_response_text with
        | None => Some (Ok RespNaoEntendi)
        | Some dados =>
            responder_com_dados fuel post m pergunta_usuario dados
        end
    end.

End Responder.

(** ** Vocabulary of the statements *)


(** The display name of a directory record. *)
Definition nome_de (c : json) : json :=
  match py_get c "nome_fantasia" JNull with
  | Ok v => v
  | Raise _ => JNull
  end.

(** The normalized tax id of a directory record (line 160). *)
Definition api_cnpj_cpf (c : json) : result string :=
  v <- py_get c "cnpj_cpf" (JStr "") ;; digits_of v.

(** A directory record as the data model has it: an object whose tax id
    and display name, when present, are strings. *)
Definition is_str_or_absent (k : string) (d : dict) : bool :=
  match dict_get k d with
  | None | Some (JStr _) => true
  | _ => false
  end.

Definition cliente_ok (c : json) : bool :=
  match c with
  | JObj d => is_str_or_absent "cnpj_cpf" d && is_str_or_absent "nome_fantasia" d
  | _ => false
  end.

(** The records of a page, when it holds a list (none when the field is
    absent or null). *)
Definition clientes_de (cliente_response : json) : option (list json) :=
  match py_get cliente_response "clientes_cadastro" JNull with
  | Ok (JArr l) => Some l
  | Ok JNull => Some []
  | _ => None
  end.

Definition is_error (response : json) : bool :=
  match py_get response "error" JNull with
  | Ok v => truthy v
  | Raise _ => false
  end.

(** A page of the directory as the data model has it: an error object,
    or records that are [cliente_ok]. *)
Definition pagina_ok (cliente_response : json) : bool :=
  is_error cliente_response ||
  match clientes_de cliente_response with
  | Some l => forallb cliente_ok l
  | None => false
  end.

(** The page count announced by the first page (line 153), and the
    number of pages it lets the loop request. *)
Definition total_de_paginas (first_response : json) : json :=
  match py_get first_response "total_de_paginas" (JInt 1) with
  | Ok v => v
  | Raise _ => JInt 1
  end.

Definition page_bound (first_response : json) : Z :=
  match as_number (total_de_paginas first_response) with
  | Some q => Z.max 1 (Qfloor q)
  | None => 1
  end.

(** The first page announces a number of pages (or none), unless it is
    an error object. *)
Definition total_ok (first_response : json) : bool :=
  is_error first_response ||
  match as_number (total_de_paginas first_response) with
  | Some _ => true
  | None => false
  end.

(** The customer id of a directory record (lines 168, 192, 199). *)
Definition codigo_de (c : json) : json :=
  match py_get c "codigo_cliente_omie" JNull with
  | Ok v => v
  | Raise _ => JNull
  end.

(** The display name of a record as a string. *)
Definition nome_str (c : json) : string :=
  match nome_de c with
  | JStr s => s
  | _ => EmptyString
  end.

(** A record the tax-id test reads and passes over. *)
Definition misses (normalized : option string) (c : json) : bool :=
  match api_cnpj_cpf c with
  | Ok s => negb (cnpj_hit normalized s)
  | Raise _ => false
  end.

(** The first record of a list whose tax id is the one looked for, the
    records before it being passed over. *)
Fixpoint find_hit (normalized : option string) (l : list json) : option json :=
  match l with
  | [] => None
  | c :: l' =>
      match api_cnpj_cpf c with
      | Ok s => if cnpj_hit normalized s then Some c else find_hit normalized l'
      | Raise _ => None
      end
  end.

Definition first_hit (normalized : option string) (cliente_response : json)
    : option json :=
  match clientes_de cliente_response with
  | Some l => find_hit normalized l
  | None => None
  end.

(** A page without error on which no record has the tax id looked for. *)
Definition miss_page (normalized : option string) (cliente_response : json)
    : bool :=
  negb (is_error cliente_response) &&
  match clientes_de cliente_response with
  | Some l => forallb (misses normalized) l
  | None => false
  end.

(** The name hint is absent or a string. *)
Definition nome_hint_ok (h : hints) : bool :=
  match nome_fantasia h with
  | JStr _ | JNull => true
  | _ => false
  end.

(** The state of the loop with more name matches. *)
Definition add_matches (st : scan_state) (l : list json) : scan_state :=
  mkScan (current_page st) (total_pages st) (customer_id st)
    (found_customer_details st) (possible_matches_by_name st ++ l).

(** A record whose display name is a string. *)
Definition named (c : json) : Prop :=
  exists s, py_get c "nome_fantasia" JNull = Ok (JStr s).

(** The pages [1 .. n]. *)
Definition pages_upto (n : nat) : list Z := List.map Z.of_nat (seq 1 n).

(** The display-name test of line 171 for the name hint [a]. *)
Definition name_matches (a : string) (c : json) : bool :=
  PyStr.contains (PyStr.lower a) (PyStr.lower (nome_str c)).

(** The records of a page, none when the field is absent, null or not a
    list. *)
Definition records (cliente_response : json) : list json :=
  match clientes_de cliente_response with
  | Some l => l
  | None => []
  end.

(** A page without error whose records are those of the data model. *)
Definition good_page (cliente_response : json) : bool :=
  negb (is_error cliente_response) &&
  match clientes_de cliente_response with
  | Some l => forallb cliente_ok l
  | None => false
  end.

(** The records, over pages [1 .. n], whose display name contains the
    hint [a], in scan order. *)
Definition directory_matches (page : Z -> json) (a : string) (n : nat)
    : list json :=
  flat_map (fun p => List.filter (name_matches a) (records (page p)))
    (pages_upto n).

(** Two responses that differ at most in the page count they report. *)
Definition agree_off_total (r1 r2 : json) : Prop :=
  forall k default, k <> "total_de_paginas" ->
    py_get r1 k default = py_get r2 k default.

(** The sort key of an order when it is a string, as the records API
    sends it. *)
Definition chave_str (p : json) : option string :=
  match chave_pedido p with
  | Ok (JStr s) => Some s
  | _ => None
  end.

(** [a] may come before [b] in descending order of the keys. *)
Definition chave_ge (a b : json) : Prop :=
  match chave_str a, chave_str b with
  | Some s, Some t => String.ltb s t = false
  | _, _ => False
  end.

Definition same_chave (s : string) (p : json) : bool :=
  match chave_str p with
  | Some t => String.eqb s t
  | None => false
  end.

(** A pair of the keyed list of the sort whose key is the string key of
    its order; the order of the keys and the test of a key, on pairs. *)
Definition keyed_ok (kx : json * json) : Prop :=
  exists s, fst kx = JStr s /\ chave_str (snd kx) = Some s.

Definition keyed_ge (kx ky : json * json) : Prop :=
  chave_ge (snd kx) (snd ky).

Definition keyed_has (s : string) (kx : json * json) : bool :=
  same_chave s (snd kx).

(** A JSON value that is not an object. *)
Definition not_object (v : json) : Prop :=
  match v with
  | JObj _ => False
  | _ => True
  end.

(** The fault test of line 68 on a decoded object. *)
Definition fault_flag (d : dict) : bool :=
  truthy (match dict_get "faultstring" d with Some x => x | None => JNull end)
  || truthy (match dict_get "faultcode" d with Some x => x | None => JNull end).


(** What [processar_pedidos] returns once the orders are in the order
    [l']: the first three, formatted. *)
Definition first_three_formatted (customer_id : json) (l' : list json)
    : result retorno :=
  formatted_orders <- mapM formatar_pedido (firstn 3 l') ;;
  match formatted_orders with
  | [] => Ok (Mensagem (MsgNenhumProcessado customer_id))
  | _ => Ok (Pedidos formatted_orders)
  end.

(** The [clientes_cadastro] field of a response (line 156). *)
Definition clientes_cadastro_de (cliente_response : json) : json :=
  match py_get cliente_response "clientes_cadastro" JNull with
  | Ok v => v
  | Raise _ => JNull
  end.

(** The [message] field of an error object, as lines 150 and 223 read it. *)
Definition message_de (response : json) : json :=
  match py_get response "message" (JStr "Erro desconhecido na API") with
  | Ok v => v
  | Raise _ => JNull
  end.

(** No search hint is given (line 101). *)
Definition no_hint (h : hints) : bool :=
  negb (truthy (cnpj_cpf h) || truthy (nome_fantasia h) || truthy (cidade h)).

(** The [pedido_venda_produto] field of a response (line 226). *)
Definition pedido_venda_produto_de (pedidos_response : json) : json :=
  match py_get pedidos_response "pedido_venda_produto" JNull with
  | Ok v => v
  | Raise _ => JNull
  end.

(** The response to the request for the orders of a customer (line 218). *)
Definition listar_pedidos (post : api) (customer_id : json) : json :=
  call_omie_api post "/produtos/pedido/" "ListarPedidos"
    (listar_pedidos_params customer_id).

(** An order as the data model has it: an object whose [cabecalho] and
    [total_pedido], when present, are objects, and whose [det], when
    present, is a list of objects whose [produto], when present, is an
    object. *)
Definition is_obj_or_absent (k : string) (d : dict) : bool :=
  match dict_get k d with
  | None | Some (JObj _) => true
  | _ => false
  end.

Definition item_ok (item_detail : json) : bool :=
  match item_detail with
  | JObj d => is_obj_or_absent "produto" d
  | _ => false
  end.

Definition pedido_ok (order : json) : bool :=
  match order with
  | JObj d =>
      is_obj_or_absent "cabecalho" d && is_obj_or_absent "total_pedido" d &&
      match dict_get "det" d with
      | None => true
      | Some (JArr l) => forallb item_ok l
      | _ => false
      end
  | _ => false
  end.

(** The items of an order, none when [det] is absent. *)
Definition det_de (order : json) : list json :=
  match py_get order "det" (JArr []) with
  | Ok (JArr l) => l
  | _ => []
  end.

(** The field [k] of the group [grupo] of an order or item, [default]
    when the group or the field is absent. *)
Definition campo (v : json) (grupo k : string) (default : json) : json :=
  match py_get v grupo (JObj []) with
  | Ok g =>
      match py_get g k default with
      | Ok x => x
      | Raise _ => default
      end
  | Raise _ => default
  end.

(** The formatted item and order, field by field. *)
Definition item_formatado (item_detail : json) : json :=
  JObj [("descricao_produto", campo item_detail "produto" "descricao" (JStr "N/A"));
        ("quantidade", campo item_detail "produto" "quantidade" (JInt 0));
        ("valor_unitario", campo item_detail "produto" "valor_unitario" (JFloat 0));
        ("valor_total_item", campo item_detail "produto" "valor_total" (JFloat 0))].

Definition pedido_formatado (order : json) : json :=
  JObj [("numero_pedido", campo order "cabecalho" "numero_pedido" (JStr "N/A"));
        ("data_previsao", campo order "cabecalho" "data_previsao" (JStr "N/A"));
        ("etapa_pedido", campo order "cabecalho" "etapa" (JStr "N/A"));
        ("valor_total_pedido",
         campo order "total_pedido" "valor_total_pedido" (JFloat 0));
        ("itens", JArr (List.map item_formatado (det_de order)))].

(** The hints the second tool reads off the decoded analysis
    (lines 352-354). *)
Definition hints_de (dados : json) : hints :=
  match py_get dados "cnpj_cpf" JNull, py_get dados "nome_fantasia" JNull,
        py_get dados "cidade" JNull with
  | Ok c, Ok n, Ok ci => mkHints c n ci
  | _, _, _ => mkHints JNull JNull JNull
  end.

(** The replies given before the first tool is called. *)
Definition sem_consulta (r : resposta) : bool :=
  match r with
  | RespIAIndisponivel | RespNaoEntendi | RespErroAnalise
  | RespForaDeEscopo | RespFaltaIdentificador => true
  | _ => false
  end.

(** A response to the orders request as the data model has it: an error
    object, no orders, or a list of orders that are [pedido_ok]. *)
Definition pedidos_ok (pedidos_response : json) : bool :=
  is_error pedidos_response ||
  negb (truthy (pedido_venda_produto_de pedidos_response)) ||
  match pedido_venda_produto_de pedidos_response with
  | JArr l => forallb pedido_ok l
  | _ => false
  end.

(** A JSON object. *)
Definition is_object (v : json) : Prop := exists d, v = JObj d.

(** ** Sample data *)

Module Exemplos.

Definition cliente (id : Z) (cnpj nome : string) : json :=
  JObj [("codigo_cliente_omie", JInt id); ("cnpj_cpf", JStr cnpj);
        ("nome_fantasia", JStr nome)].

Definition pagina (total : Z) (clientes : list json) : json :=
  JObj [("total_de_paginas", JInt total); ("clientes_cadastro", JArr clientes)].

Definition pedido (numero : string) : json :=
  JObj [("cabecalho", JObj [("numero_pedido", JStr numero)])].

Definition pedidos (l : list json) : json :=
  JObj [("pedido_venda_produto", JArr l)].

Definition pagina_of (params : json) : Z :=
  match params with
  | JArr [JObj d] =>
      match dict_get "pagina" d with
      | Some (JInt p) => p
      | _ => 0
      end
  | _ => 0
  end.

(** A records API that serves the given directory pages and, to every
    other call, the given body. *)
Definition servir (paginas : list json) (outro : json) : api :=
  fun endpoint _ params =>
    if String.eqb endpoint "/geral/clientes/" then
      match nth_error paginas (Z.to_nat (pagina_of params - 1)) with
      | Some p => Response 200 "" (Some p)
      | None => Response 200 "" (Some (JObj []))
      end
    else Response 200 "" (Some outro).


(** A records API that answers every call with the same body. *)
Definition constante (body : json) : api :=
  fun _ _ _ => Response 200 "" (Some body).

(** A directory with the same records on every page, page [p]
    announcing [f p] pages. *)
Definition com_totais (f : Z -> Z) (clientes : list json) : api :=
  fun _ _ params =>
    Response 200 "" (Some (pagina (f (pagina_of params)) clientes)).

(** A decoder that knows a few texts only. *)
Definition decodificar (s : string) : option json :=
  if String.eqb s "[]" then Some (JArr [])
  else if String.eqb s "{}" then Some (JObj [])
  else None.

(** A model that answers every prompt with the same text. *)
Definition responde (texto : string) : ia := mkIA true (fun _ => Some texto).

(** The formatted form of [pedido numero]. *)
Definition formatado (numero : string) : json :=
  JObj [("numero_pedido", JStr numero); ("data_previsao", JStr "N/A");
        ("etapa_pedido", JStr "N/A"); ("valor_total_pedido", JFloat 0);
        ("itens", JArr [])].

(** A records API whose every request fails in transport. *)
Definition fora_do_ar (msg : string) : api := fun _ _ _ => RequestError msg.

(** A decoder that reads the same analysis off every text. *)
Definition sempre (dados : json) : string -> option json := fun _ => Some dados.

End Exemplos.

(** * Properties *)

(** ** RecordsClient *)

Lemma py_get_ok (v : json) (k : string) (dflt r : json) :
  py_get v k dflt = Ok r -> exists d, v = JObj d.
Proof. destruct v; simpl; try discriminate. intros _. now exists d. Qed.

Lemma check_fault_dict (status : Z) (body r : json) :
  check_fault status body = Ok r -> exists d, r = JObj d.
Proof.
  unfold check_fault. destruct body; simpl; try discriminate.
  destruct (truthy _); simpl.
  - intros H. injection H as <-. unfold error_object. eauto.
  - destruct (truthy _); intros H; injection H as <-; unfold error_object; eauto.
Qed.

(** [call_omie_api] always returns a dict. *)
Lemma call_omie_api_dict (post : api) (e c : string) (p : json) :
  exists d, call_omie_api post e c p = JObj d.
Proof.
  unfold call_omie_api. destruct (post e c p) as [msg| |st tx|st tx [b|]];
    try (unfold error_object; eauto).
  destruct (check_fault st b) eqn:E.
  - eapply check_fault_dict; eauto.
  - unfold error_object; eauto.
Qed.

Lemma check_fault_obj (status : Z) (d : dict) :
  check_fault status (JObj d) =
  Ok (if fault_flag d
      then error_object (JInt status)
             (match dict_get "faultstring" d with
              | Some x => x
              | None => JStr "Erro desconhecido da Omie"
              end)
      else JObj d).
Proof.
  unfold check_fault, fault_flag. simpl.
  destruct (truthy _); simpl; [reflexivity|].
  destruct (truthy _); reflexivity.
Qed.

(** C9, as amended: a response that passed the status check and whose
    body is an object is turned into the error object exactly when the
    value under [faultstring] or under [faultcode] is truthy; the message
    is then the [faultstring] value, or the fixed text when that key is
    absent, and the status code is the one of the response, whatever it
    is.  With both values absent or falsy the body is the result. *)
Theorem fault_in_band_by_truth (post : api) (e c : string) (p : json)
    (status : Z) (text : string) (d : dict) :
  post e c p = Response status text (Some (JObj d)) ->
  call_omie_api post e c p =
  if fault_flag d
  then error_object (JInt status)
         (match dict_get "faultstring" d with
          | Some x => x
          | None => JStr "Erro desconhecido da Omie"
          end)
  else JObj d.
Proof.
  intros H. unfold call_omie_api. rewrite H, check_fault_obj. reflexivity.
Qed.

Lemma fault_in_band_by_truth_witness :
  call_omie_api
    (fun _ _ _ => Response 200 "" (Some (JObj [("faultcode", JStr "SOAP-ENV:Client-101")])))
    "/geral/clientes/" "ListarClientes" (JArr [])
  = error_object (JInt 200) (JStr "Erro desconhecido da Omie").
Proof.
  exact (fault_in_band_by_truth
           (fun _ _ _ => Response 200 "" (Some (JObj [("faultcode", JStr "SOAP-ENV:Client-101")])))
           "/geral/clientes/" "ListarClientes" (JArr []) 200 ""
           [("faultcode", JStr "SOAP-ENV:Client-101")] eq_refl).
Defined.

(** C9, as stated, fails: a body that holds the key [faultstring] with
    an empty string is returned as the payload. *)
Lemma fault_key_present_but_falsy :
  let body := JObj [("faultstring", JStr ""); ("clientes_cadastro", JArr [])] in
  let post : api := fun _ _ _ => Response 200 "" (Some body) in
  dict_get "faultstring" [("faultstring", JStr ""); ("clientes_cadastro", JArr [])]
    <> None /\
  call_omie_api post "/geral/clientes/" "ListarClientes" (JArr []) = body /\
  py_get (call_omie_api post "/geral/clientes/" "ListarClientes" (JArr []))
    "error" JNull = Ok JNull.
Proof. simpl. repeat split. discriminate. Qed.

(** ** QuestionInterpreter: the fence around the reply *)

Section Strings.

Import PyStr.

Lemma append_assoc (a b c : string) : ((a ++ b) ++ c = a ++ (b ++ c))%string.
Proof. induction a; simpl; congruence. Qed.

Lemma append_empty_r (a : string) : (a ++ "")%string = a.
Proof. induction a; simpl; congruence. Qed.

Lemma length_append (a b : string) :
  String.length (a ++ b) = (String.length a + String.length b)%nat.
Proof. induction a; simpl; congruence. Qed.

Lemma substring_skip (a s : string) (m : nat) :
  String.substring (String.length a) m (a ++ s) = String.substring 0 m s.
Proof. induction a; simpl; auto. Qed.

Lemma substring_take (b t : string) :
  String.substring 0 (String.length b) (b ++ t) = b.
Proof.
  induction b; simpl.
  - destruct t; reflexivity.
  - now rewrite IHb.
Qed.

(** [(a ++ body ++ z)[len a : - len z] = body] *)
Lemma slice_middle (a body z : string) :
  slice (String.length a) (String.length z) (a ++ body ++ z) = body.
Proof.
  unfold slice. rewrite !length_append, substring_skip.
  replace (String.length a + (String.length body + String.length z)
           - String.length z - String.length a)%nat
    with (String.length body) by lia.
  apply substring_take.
Qed.




Lemma rstrip_keeps (s t : string) :
  rstrip t <> "" -> rstrip (s ++ t) = (s ++ rstrip t)%string.
Proof.
  intros Ht. induction s; simpl; auto.
  rewrite IHs. destruct (s ++ rstrip t)%string eqn:E; auto.
  destruct s; simpl in E; [contradiction | discriminate].
Qed.




Lemma prefix_cons (a c : ascii) (p s : string) :
  String.prefix (String a p) (String c s)
  = if ascii_dec a c then String.prefix p s else false.
Proof. reflexivity. Qed.

Lemma prefix_app (p s : string) : String.prefix p (p ++ s) = true.
Proof.
  induction p as [|a p IH]; [destruct s; reflexivity|].
  cbn [append]. rewrite prefix_cons.
  destruct (ascii_dec a a); [exact IH | congruence].
Qed.








End Strings.




(** ** CustomerResolver: one page *)

Lemma bind_ok {A B : Type} (r : result A) (k : A -> result B) (b : B) :
  bind r k = Ok b -> exists a, r = Ok a /\ k a = Ok b.
Proof. destruct r; simpl; [eauto | discriminate]. Qed.

Ltac bind_inv H :=
  let a := fresh "a" in
  let Ha := fresh "Ha" in
  apply bind_ok in H; destruct H as (a & Ha & H).

Lemma add_matches_nil (st : scan_state) : add_matches st [] = st.
Proof. destruct st. unfold add_matches. simpl. now rewrite app_nil_r. Qed.

Lemma add_matches_cons (st : scan_state) (c : json) (l : list json) :
  add_matches (add_match st c) l = add_matches st (c :: l).
Proof. unfold add_matches, add_match. simpl. now rewrite <- app_assoc. Qed.

Lemma cnpj_hit_without (normalized : option string) (s : string) :
  has_cnpj normalized = false -> cnpj_hit normalized s = false.
Proof.
  destruct normalized as [n|]; simpl; auto. intros H.
  apply negb_false_iff in H. now rewrite H.
Qed.

Lemma contains_empty (a : string) :
  PyStr.is_empty a = false -> PyStr.contains a "" = false.
Proof. destruct a; simpl; [discriminate | reflexivity]. Qed.

(** The [for] never touches the page counters. *)
Lemma for_clientes_pages (h : hints) (normalized : option string)
    (l : list json) : forall st st',
  for_clientes h normalized l st = Ok (ForDone st') ->
  current_page st' = current_page st /\ total_pages st' = total_pages st.
Proof.
  induction l as [|c l IH]; simpl; intros st st' H.
  - injection H as <-. auto.
  - bind_inv H. bind_inv H. bind_inv H.
    destruct (cnpj_hit normalized a0).
    + destruct (truthy (found_customer_details st)); [discriminate|].
      bind_inv H. injection H as <-. auto.
    + destruct (truthy (nome_fantasia h) && negb (has_cnpj normalized)).
      * bind_inv H. bind_inv H.
        destruct (PyStr.contains a2 a3); apply IH in H; simpl in H; exact H.
      * now apply IH in H.
Qed.

(** Without a tax id to look for, the [for] only collects records whose
    display name is a string, and none when there is no name hint. *)
Lemma for_clientes_collects (h : hints) (normalized : option string)
    (l : list json) : forall st o,
  has_cnpj normalized = false ->
  for_clientes h normalized l st = Ok o ->
  exists extra,
    o = ForDone (add_matches st extra) /\ Forall named extra /\
    (truthy (nome_fantasia h) = false -> extra = []).
Proof.
  induction l as [|c l IH]; simpl; intros st o Hn H.
  - injection H as <-. exists []. rewrite add_matches_nil. auto.
  - bind_inv H. bind_inv H. bind_inv H.
    rewrite (cnpj_hit_without _ _ Hn) in H. rewrite Hn in H.
    destruct (truthy (nome_fantasia h)) eqn:Ht; simpl in H.
    + bind_inv H. bind_inv H.
      destruct (PyStr.contains a2 a3) eqn:Hc.
      * apply IH in H; auto. destruct H as (extra & -> & Hx & _).
        exists (c :: extra). rewrite add_matches_cons. split; [reflexivity|].
        split; [|discriminate]. constructor; [|assumption].
        destruct c; try discriminate Ha. simpl in Ha1. injection Ha1 as <-.
        unfold named. simpl.
        destruct (dict_get "nome_fantasia" d) as [v|] eqn:Hd.
        -- destruct v; try discriminate Ha3. eauto.
        -- simpl in Ha3. injection Ha3 as <-.
           destruct (nome_fantasia h); try discriminate Ha2.
           simpl in Ha2. injection Ha2 as <-. simpl in Ht.
           destruct s; [discriminate Ht|]. discriminate Hc.
      * now apply IH in H.
    + now apply IH in H.
Qed.


Lemma int_gt_number (n : Z) (v : json) (b : bool) :
  int_gt n v = Ok b -> exists q, as_number v = Some q.
Proof. unfold int_gt. destruct (as_number v); [eauto | discriminate]. Qed.

(** A turn that goes on to the next page: the page counter moves by
    one, and the page count is the one of the first page; it is a
    number. *)
Lemma page_step_next (h : hints) (normalized : option string)
    (st st' : scan_state) (r : json) :
  page_step h normalized st r = Ok (StepNext st') ->
  current_page st' = current_page st + 1 /\
  total_pages st' =
    (if current_page st =? 1 then total_de_paginas r else total_pages st) /\
  exists q, as_number (total_pages st') = Some q.
Proof.
  unfold page_step, total_de_paginas. intros H.
  destruct r; try discriminate H. simpl in H.
  destruct (truthy _) in H; [discriminate|].
  set (t := if current_page st =? 1 then _ else _).
  assert (Ht : (if current_page st =? 1
                then Ok match dict_get "total_de_paginas" d with
                        | Some x => x | None => JInt 1 end
                else Ok (total_pages st)) = Ok t).
  { subst t. simpl. destruct (current_page st =? 1); reflexivity. }
  rewrite Ht in H. simpl in H. bind_inv H.
  assert (Hp : forall st2, a = ForDone st2 ->
               current_page st2 = current_page st /\ total_pages st2 = t).
  { intros st2 ->. destruct (truthy _) in Ha.
    - bind_inv Ha. now apply for_clientes_pages in Ha.
    - injection Ha as <-. auto. }
  destruct a as [st2|m]; [|discriminate].
  destruct (Hp st2 eq_refl) as [Hc Hq].
  destruct (_ && truthy (customer_id st2)); [discriminate|].
  destruct (_ && _ && _); [discriminate|].
  bind_inv H. injection H as <-. simpl. rewrite Hc, Hq.
  apply int_gt_number in Ha0. simpl in Ha0. rewrite Hq in Ha0. auto.
Qed.

(** A turn that breaks out of the loop has a customer id. *)
Lemma page_step_break (h : hints) (normalized : option string)
    (st st' : scan_state) (r : json) :
  page_step h normalized st r = Ok (StepBreak st') ->
  truthy (customer_id st') = true.
Proof.
  unfold page_step. intros H. bind_inv H.
  destruct (truthy a); [bind_inv H; discriminate|].
  bind_inv H. bind_inv H. bind_inv H.
  destruct a2 as [st2|m]; [|discriminate].
  destruct (truthy a1 && truthy (customer_id st2)) eqn:E.
  - injection H as <-. now apply andb_true_iff in E.
  - destruct (_ && _ && _); [discriminate|]. bind_inv H. discriminate.
Qed.

(** Without a tax id to look for, a turn returns one of two messages or
    goes on with the same customer id, having collected records whose
    display name is a string. *)
Lemma page_step_collects (h : hints) (normalized : option string)
    (st : scan_state) (r : json) (o : step_outcome) :
  has_cnpj normalized = false ->
  truthy (customer_id st) = false ->
  page_step h normalized st r = Ok o ->
  (exists pg msg, o = StepReturn (MsgErroBuscarCliente pg msg)) \/
  o = StepReturn MsgNaoEncontradoPrimeiraPagina \/
  (exists st' extra,
     o = StepNext st' /\ customer_id st' = customer_id st /\
     found_customer_details st' = found_customer_details st /\
     possible_matches_by_name st' = (possible_matches_by_name st ++ extra)%list /\
     Forall named extra /\ (truthy (nome_fantasia h) = false -> extra = [])).
Proof.
  intros Hn Hc. unfold page_step. intros H. bind_inv H.
  destruct (truthy a); [bind_inv H; injection H as <-; eauto|].
  bind_inv H. bind_inv H. bind_inv H.
  assert (Hx : exists extra, a2 = ForDone (add_matches (set_total st a0) extra)
               /\ Forall named extra
               /\ (truthy (nome_fantasia h) = false -> extra = [])).
  { destruct (truthy a1).
    - bind_inv Ha2. eapply for_clientes_collects; eauto.
    - injection Ha2 as <-. exists []. now rewrite add_matches_nil. }
  destruct Hx as (extra & -> & Hx & He). simpl in H. rewrite Hc in H.
  rewrite andb_false_r in H.
  destruct (_ && _ && _); [injection H as <-; auto|].
  bind_inv H. injection H as <-. right. right.
  eexists _, extra. split; [reflexivity|]. simpl. auto.
Qed.

Lemma pagina_ok_obj (r : json) : pagina_ok r = true -> exists d, r = JObj d.
Proof.
  unfold pagina_ok, is_error, clientes_de. destruct r; simpl; try discriminate.
  eauto.
Qed.


(** ** CustomerResolver: the pagination loop *)

Lemma Qle_bool_floor (n : Z) (q : Q) :
  Qle_bool (inject_Z n) q = true <-> n <= Qfloor q.
Proof.
  rewrite Qle_bool_iff. split; intros H.
  - apply Qfloor_resp_le in H. now rewrite Qfloor_Z in H.
  - apply Qle_trans with (inject_Z (Qfloor q)).
    + now rewrite <- Zle_Qle.
    + apply Qfloor_le.
Qed.

Lemma Qle_bool_floor_false (n : Z) (q : Q) :
  Qle_bool (inject_Z n) q = false <-> Qfloor q < n.
Proof.
  destruct (Qle_bool (inject_Z n) q) eqn:E.
  - apply Qle_bool_floor in E. split; [discriminate | lia].
  - split; [|reflexivity]. intros _.
    destruct (Z_lt_le_dec (Qfloor q) n) as [|Hle]; [assumption|].
    apply Qle_bool_floor in Hle. congruence.
Qed.

(** More fuel does not change a result. *)
Lemma paginate_more_fuel (post : api) (h : hints) (normalized : option string)
    (fuel : nat) : forall st r,
  paginate fuel post h normalized st = Some r ->
  forall fuel', (fuel <= fuel')%nat ->
  paginate fuel' post h normalized st = Some r.
Proof.
  induction fuel as [|fuel IH]; intros st r H fuel' Hle; [discriminate|].
  destruct fuel' as [|fuel']; [lia|]. simpl in *.
  destruct (int_le _ _) as [[]|]; auto.
  destruct (truthy (customer_id st)); auto.
  destruct (page_step _ _ _ _) as [[st'|st'|m]|]; auto.
  destruct (paginate fuel post h normalized st') as [[ps o]|] eqn:E; [|discriminate].
  rewrite (IH st' (ps, o) E fuel') by lia. assumption.
Qed.

(** The pages requested are consecutive, from the current one. *)
Lemma paginate_consecutive (post : api) (h : hints)
    (normalized : option string) (fuel : nat) : forall st ps o,
  paginate fuel post h normalized st = Some (ps, o) ->
  ps = List.map (fun i => current_page st + Z.of_nat i) (seq 0 (List.length ps)).
Proof.
  induction fuel as [|fuel IH]; intros st ps o H; [discriminate|].
  simpl in H.
  destruct (int_le _ _) as [[]|]; try (injection H as <- <-; reflexivity).
  destruct (truthy (customer_id st)); try (injection H as <- <-; reflexivity).
  destruct (page_step _ _ _ _) as [[st'|st'|m]|] eqn:E;
    try (injection H as <- <-; simpl; f_equal; lia).
  destruct (paginate fuel post h normalized st') as [[ps' o']|] eqn:E';
    [|discriminate].
  injection H as <- <-. apply IH in E'. apply page_step_next in E as (Hc & _).
  simpl. f_equal; [lia|]. rewrite E' at 1. rewrite <- seq_shift, map_map.
  apply map_ext. intros i. lia.
Qed.

(** After the first page, the last page requested is at most the
    integer part of the page count, and it is exactly that when the loop
    ends because its condition fails. *)
Lemma paginate_bounded (post : api) (h : hints) (normalized : option string)
    (fuel : nat) : forall st ps o q,
  1 < current_page st ->
  as_number (total_pages st) = Some q ->
  paginate fuel post h normalized st = Some (ps, o) ->
  current_page st + Z.of_nat (List.length ps)
    <= Z.max (current_page st) (Qfloor q + 1) /\
  (forall st', o = ScanDone st' -> truthy (customer_id st') = false ->
     current_page st + Z.of_nat (List.length ps)
     = Z.max (current_page st) (Qfloor q + 1)).
Proof.
  induction fuel as [|fuel IH]; intros st ps o q Hcur Hq H; [discriminate|].
  simpl in H. unfold int_le in H. rewrite Hq in H.
  destruct (Qle_bool _ q) eqn:Ele.
  - apply Qle_bool_floor in Ele.
    destruct (truthy (customer_id st)) eqn:Ecid.
    { injection H as <- <-. simpl. split; [lia|].
      intros st' E. injection E as <-. congruence. }
    destruct (page_step _ _ _ _) as [[st'|st'|m]|] eqn:E.
    + destruct (paginate fuel post h normalized st') as [[ps' o']|] eqn:E';
        [|discriminate].
      injection H as <- <-. apply page_step_next in E as (Hc & Ht & _).
      replace (current_page st =? 1) with false in Ht
        by (symmetry; apply Z.eqb_neq; lia).
      rewrite <- Ht in Hq.
      destruct (IH st' ps' o' q ltac:(lia) Hq E') as [Hb He].
      simpl List.length. split.
      * lia.
      * intros st2 E2 Hc2. specialize (He st2 E2 Hc2). lia.
    + injection H as <- <-. simpl. split; [lia|].
      intros st2 E2 Hc2. injection E2 as <-.
      apply page_step_break in E. congruence.
    + injection H as <- <-. simpl. split; [lia | discriminate].
    + injection H as <- <-. simpl. split; [lia | discriminate].
  - apply Qle_bool_floor_false in Ele. injection H as <- <-. simpl.
    split; [lia|]. intros; lia.
Qed.

(** The same from the start of the loop, against [page_bound] of the
    first response. *)
Lemma paginate_page_bound (post : api) (h : hints) (normalized : option string)
    (fuel : nat) (ps : list Z) (o : scan_outcome) :
  paginate fuel post h normalized scan_init = Some (ps, o) ->
  (1 <= List.length ps)%nat /\
  Z.of_nat (List.length ps) <= page_bound (listar_clientes post h normalized 1) /\
  (forall st', o = ScanDone st' -> truthy (customer_id st') = false ->
     Z.of_nat (List.length ps)
     = page_bound (listar_clientes post h normalized 1)).
Proof.
  destruct fuel as [|fuel]; [discriminate|]. simpl.
  set (r := listar_clientes post h normalized 1).
  assert (Hpb : 1 <= page_bound r).
  { unfold page_bound. destruct (as_number _); lia. }
  destruct (page_step _ _ _ _) as [[st'|st'|m]|] eqn:E.
  - destruct (paginate fuel post h normalized st') as [[ps' o']|] eqn:E';
      [|discriminate].
    intros H. injection H as <- <-.
    apply page_step_next in E as (Hc & Ht & q & Hq). simpl in Hc, Ht.
    destruct (paginate_bounded post h normalized fuel st' ps' o' q
                ltac:(lia) Hq E') as [Hb He].
    unfold page_bound. rewrite <- Ht, Hq. simpl List.length.
    split; [lia|]. split; [lia|].
    intros st2 E2 Hc2. specialize (He st2 E2 Hc2). lia.
  - intros H. injection H as <- <-. simpl. split; [lia|]. split; [lia|].
    intros st2 E2 Hc2. injection E2 as <-. apply page_step_break in E. congruence.
  - intros H. injection H as <- <-. simpl. split; [lia|]. split; [lia|]. discriminate.
  - intros H. injection H as <- <-. simpl. split; [lia|]. split; [lia|]. discriminate.
Qed.

(** The loop ends: after the first page, the fuel needed is bounded by
    the pages left. *)
Lemma paginate_ends_from (post : api) (h : hints) (normalized : option string)
    (fuel : nat) : forall st q,
  1 < current_page st ->
  as_number (total_pages st) = Some q ->
  (Z.to_nat (Qfloor q + 1 - current_page st) < fuel)%nat ->
  exists r, paginate fuel post h normalized st = Some r.
Proof.
  induction fuel as [|fuel IH]; intros st q Hcur Hq Hf; [lia|].
  simpl. unfold int_le. rewrite Hq.
  destruct (Qle_bool _ q) eqn:Ele; [|eauto].
  apply Qle_bool_floor in Ele.
  destruct (truthy (customer_id st)); [eauto|].
  destruct (page_step _ _ _ _) as [[st'|st'|m]|] eqn:E; eauto.
  apply page_step_next in E as (Hc & Ht & _).
  replace (current_page st =? 1) with false in Ht
    by (symmetry; apply Z.eqb_neq; lia).
  rewrite <- Ht in Hq.
  destruct (IH st' q ltac:(lia) Hq ltac:(lia)) as [[ps o] ->]. eauto.
Qed.

(** The loop ends, whatever the records API answers. *)
Lemma paginate_ends (post : api) (h : hints) (normalized : option string)
    (fuel : nat) :
  (Z.to_nat (page_bound (listar_clientes post h normalized 1)) < fuel)%nat ->
  exists r, paginate fuel post h normalized scan_init = Some r.
Proof.
  destruct fuel as [|fuel]; [lia|]. intros Hf. simpl.
  set (r := listar_clientes post h normalized 1) in *.
  destruct (page_step _ _ _ _) as [[st'|st'|m]|] eqn:E; eauto.
  apply page_step_next in E as (Hc & Ht & q & Hq). simpl in Hc, Ht.
  unfold page_bound in Hf. rewrite <- Ht, Hq in Hf.
  destruct (paginate_ends_from post h normalized fuel st' q ltac:(lia) Hq
              ltac:(lia)) as [[ps o] ->]. eauto.
Qed.

(** Without a tax id to look for, the loop never finds a customer id: it
    returns one of two messages, raises, or ends with the records it
    collected by name (none without a name hint). *)
Lemma paginate_collects (post : api) (h : hints) (normalized : option string)
    (fuel : nat) : forall st ps o,
  has_cnpj normalized = false ->
  truthy (customer_id st) = false ->
  Forall named (possible_matches_by_name st) ->
  paginate fuel post h normalized st = Some (ps, o) ->
  match o with
  | ScanDone st' =>
      customer_id st' = customer_id st /\
      found_customer_details st' = found_customer_details st /\
      Forall named (possible_matches_by_name st') /\
      (truthy (nome_fantasia h) = false ->
       possible_matches_by_name st' = possible_matches_by_name st)
  | ScanReturn m =>
      (exists pg msg, m = MsgErroBuscarCliente pg msg) \/
      m = MsgNaoEncontradoPrimeiraPagina
  | ScanRaise _ => True
  end.
Proof.
  induction fuel as [|fuel IH]; intros st ps o Hn Hc Hm H; [discriminate|].
  simpl in H. rewrite Hc in H.
  destruct (int_le _ _) as [[]|]; try (injection H as <- <-; auto).
  destruct (page_step _ _ _ _) as [so|] eqn:E; [|injection H as <- <-; auto].
  destruct (page_step_collects h normalized st _ so Hn Hc E)
    as [(pg & msg & ->)|[->|(st' & extra & -> & H1 & H2 & H3 & H4 & H5)]].
  - injection H as <- <-. eauto.
  - injection H as <- <-. eauto.
  - destruct (paginate fuel post h normalized st') as [[ps' o']|] eqn:E';
      [|discriminate].
    injection H as <- <-.
    assert (Hm' : Forall named (possible_matches_by_name st')).
    { rewrite H3. apply Forall_app. auto. }
    specialize (IH st' ps' o' Hn ltac:(congruence) Hm' E').
    destruct o'; auto.
    destruct IH as (I1 & I2 & I3 & I4). repeat split; try congruence.
    intros Ht. rewrite (I4 Ht), H3, (H5 Ht). apply app_nil_r.
Qed.



(** A page after the first is read through [error], [message] and
    [clientes_cadastro] only. *)
Lemma page_step_ignores_total (h : hints) (normalized : option string)
    (st : scan_state) (r1 r2 : json) :
  current_page st <> 1 -> agree_off_total r1 r2 ->
  page_step h normalized st r1 = page_step h normalized st r2.
Proof.
  intros Hc Ha. unfold page_step.
  rewrite (Ha "error" JNull) by discriminate.
  rewrite (Ha "message" (JStr "Erro desconhecido na API")) by discriminate.
  rewrite (Ha "clientes_cadastro" JNull) by discriminate.
  replace (current_page st =? 1) with false by (symmetry; now apply Z.eqb_neq).
  reflexivity.
Qed.

Lemma paginate_ignores_later_totals (post1 post2 : api) (h : hints)
    (normalized : option string) (fuel : nat) : forall st,
  1 < current_page st ->
  (forall p, 1 < p -> agree_off_total (listar_clientes post1 h normalized p)
                        (listar_clientes post2 h normalized p)) ->
  paginate fuel post1 h normalized st = paginate fuel post2 h normalized st.
Proof.
  induction fuel as [|fuel IH]; intros st Hcur Ha; [reflexivity|].
  simpl. destruct (int_le _ _) as [[]|]; auto.
  destruct (truthy (customer_id st)); auto.
  rewrite (page_step_ignores_total h normalized st _ _ ltac:(lia)
             (Ha (current_page st) Hcur)).
  destruct (page_step _ _ _ _) as [[st'|st'|m]|] eqn:E; auto.
  apply page_step_next in E as (Hc & _).
  rewrite (IH st' ltac:(lia) Ha). reflexivity.
Qed.

Lemma pages_upto_consecutive (n : nat) :
  List.map (fun i => 1 + Z.of_nat i) (seq 0 n) = pages_upto n.
Proof.
  unfold pages_upto. rewrite <- seq_shift, map_map.
  apply map_ext. intros i. lia.
Qed.

(** C6: the loop ends; the pages it requests are 1, 2, ... up to at most
    the page count announced by the first page (1 when it announces
    none), and exactly up to it when the loop ends on its own condition;
    a directory whose later pages announce other page counts gives the
    same run of the loop: same pages requested, same outcome. *)
Theorem total_pages_fixed_by_first_page (fuel : nat) (post1 post2 : api)
    (h : hints) (normalized : option string) :
  listar_clientes post1 h normalized 1 = listar_clientes post2 h normalized 1 ->
  (forall p, 1 < p ->
     agree_off_total (listar_clientes post1 h normalized p)
       (listar_clientes post2 h normalized p)) ->
  ((Z.to_nat (page_bound (listar_clientes post1 h normalized 1)) < fuel)%nat ->
   exists ps o, paginate fuel post1 h normalized scan_init = Some (ps, o)) /\
  (forall ps o,
     paginate fuel post1 h normalized scan_init = Some (ps, o) ->
     paginate fuel post2 h normalized scan_init = Some (ps, o) /\
     ps = pages_upto (List.length ps) /\
     (1 <= List.length ps)%nat /\
     Z.of_nat (List.length ps)
       <= page_bound (listar_clientes post1 h normalized 1) /\
     (forall st, o = ScanDone st -> truthy (customer_id st) = false ->
        Z.of_nat (List.length ps)
        = page_bound (listar_clientes post1 h normalized 1))).
Proof.
  intros H1 Hp. split.
  { intros Hf. destruct (paginate_ends post1 h normalized fuel Hf) as [[ps o] E].
    eauto. }
  intros ps o H. split.
  - rewrite <- H. destruct fuel as [|fuel]; [discriminate|]. simpl.
    rewrite <- H1.
    destruct (page_step _ _ _ _) as [[st'|st'|m]|] eqn:E; auto.
    apply page_step_next in E as (Hc & _). simpl in Hc.
    now rewrite (paginate_ignores_later_totals post1 post2 h normalized fuel st'
                   ltac:(lia) Hp).
  - split.
    + rewrite <- pages_upto_consecutive.
      apply (paginate_consecutive post1 h normalized fuel scan_init ps o H).
    + now apply paginate_page_bound with (fuel := fuel).
Qed.

(** ** CustomerResolver: after the loop *)

Lemma named_nome (c : json) :
  named c -> py_get c "nome_fantasia" JNull = Ok (JStr (nome_str c)).
Proof.
  intros [s Hs]. unfold nome_str, nome_de. now rewrite Hs.
Qed.

Lemma kv_set_keys (n : string) (v : json) (acc : list (json * json)) :
  forall ka, List.map fst acc = List.map JStr ka ->
  exists ku,
    List.map fst (kv_set (JStr n) v acc) = List.map JStr ku /\
    (NoDup ka -> NoDup ku) /\
    (forall x, In x ku <-> In x ka \/ x = n).
Proof.
  induction acc as [|[k w] acc IH]; intros ka Hk.
  - destruct ka; [|discriminate]. exists [n]. simpl. split; [reflexivity|].
    split; [intros _; constructor; [tauto | constructor]|].
    intros x. intuition.
  - destruct ka as [|a ka]; [discriminate|]. simpl in Hk.
    injection Hk as -> Hk. simpl.
    destruct (String.eqb_spec n a) as [->|Hne].
    + exists (a :: ka). simpl. rewrite Hk. split; [reflexivity|].
      split; [auto|]. intros x. intuition.
    + destruct (IH ka Hk) as (ku & E & Hnd & Hin).
      exists (a :: ku). simpl. rewrite E. split; [reflexivity|]. split.
      * intros Hd. inversion Hd as [|? ? Hna Hd']; subst.
        constructor; [|auto]. rewrite Hin. intros [?|?]; congruence.
      * intros x. rewrite Hin. intuition.
Qed.

(** The dict of line 195 has one key per distinct display name. *)
Lemma unique_names_keys (l : list json) : forall acc ka,
  List.map fst acc = List.map JStr ka ->
  Forall named l ->
  exists u ku,
    unique_names_from acc l = Ok u /\
    List.map fst u = List.map JStr ku /\
    (NoDup ka -> NoDup ku) /\
    (forall x, In x ku <-> In x ka \/ In x (List.map nome_str l)).
Proof.
  induction l as [|c l IH]; intros acc ka Hk Hl.
  - exists acc, ka. simpl. intuition.
  - inversion Hl as [|? ? Hc Hl']; subst. simpl.
    rewrite (named_nome c Hc). simpl.
    destruct (kv_set_keys (nome_str c) c acc ka Hk) as (k1 & E1 & N1 & I1).
    destruct (IH _ k1 E1 Hl') as (u & ku & Eu & Ek & Nu & Iu).
    exists u, ku. split; [assumption|]. split; [assumption|].
    split; [auto|]. intros x. rewrite Iu, I1. intuition.
Qed.

Lemma unique_names_count (l : list json) :
  Forall named l ->
  exists u, unique_names l = Ok u /\
    List.length u = List.length (nodup string_dec (List.map nome_str l)).
Proof.
  intros Hl.
  destruct (unique_names_keys l [] [] eq_refl Hl) as (u & ku & Eu & Ek & Nu & Iu).
  exists u. split; [assumption|].
  rewrite <- (length_map fst u), Ek, length_map.
  apply Permutation_length, NoDup_Permutation.
  - apply Nu. constructor.
  - apply NoDup_nodup.
  - intros x. rewrite Iu, nodup_In. simpl. tauto.
Qed.

(** When the loop of a search by name alone (no tax id to look for) ends
    having collected records with two or more distinct display names, the
    tool returns the message about several customers, and the number in
    that message is the number of distinct display names. *)
Lemma ambiguous_name_from_collected (fuel : nat) (post : api) (h : hints)
    (normalized : option string) (ps : list Z) (st : scan_state) :
  normalize_input (cnpj_cpf h) = Ok normalized ->
  has_cnpj normalized = false ->
  truthy (nome_fantasia h) = true ->
  paginate fuel post h normalized scan_init = Some (ps, ScanDone st) ->
  (2 <= List.length
          (nodup string_dec (List.map nome_str (possible_matches_by_name st))))%nat ->
  encontrar_pedidos_cliente fuel post h
  = Some (ps, Ok (Mensagem
       (MsgMultiplosNomes
          (List.length
             (nodup string_dec
                (List.map nome_str (possible_matches_by_name st))))
          (nome_fantasia h)))).
Proof.
  intros Hn Hc Ht Hp H2.
  destruct (paginate_collects post h normalized fuel scan_init ps (ScanDone st)
              Hc eq_refl (Forall_nil _) Hp) as (Hid & _ & Hm & _).
  simpl in Hid.
  unfold encontrar_pedidos_cliente, encontrar_id_cliente.
  rewrite Ht, orb_true_r, Hn, Hp. simpl.
  unfold validate_found, by_name. rewrite Hid. simpl.
  destruct (unique_names_count _ Hm) as (u & Eu & Lu).
  remember (List.length
              (nodup string_dec
                 (List.map nome_str (possible_matches_by_name st)))) as n eqn:En.
  destruct (possible_matches_by_name st) as [|m1 [|m2 ms]].
  - simpl in En. lia.
  - simpl in En. lia.
  - cbn [List.length Nat.eqb negb]. rewrite Eu. simpl.
    destruct u as [|[k1 v1] [|kv u]]; simpl in Lu; try lia.
    rewrite <- Lu. reflexivity.
Qed.


(** ** CustomerResolver: the search by tax id *)

Lemma api_cnpj_cpf_obj (c : json) (s : string) :
  api_cnpj_cpf c = Ok s ->
  exists d, c = JObj d /\
    digits_of (match dict_get "cnpj_cpf" d with
               | Some x => x | None => JStr "" end) = Ok s.
Proof.
  unfold api_cnpj_cpf. destruct c; simpl; try discriminate. eauto.
Qed.

(** Records whose tax id differs are passed over. *)
Lemma for_clientes_misses (h : hints) (normalized : option string)
    (l1 l2 : list json) (st : scan_state) :
  has_cnpj normalized = true ->
  forallb (misses normalized) l1 = true ->
  for_clientes h normalized (l1 ++ l2)%list st = for_clientes h normalized l2 st.
Proof.
  intros Hn. induction l1 as [|c l1 IH]; intros Hl; [reflexivity|].
  simpl in Hl. apply andb_true_iff in Hl as [Hc Hl].
  unfold misses in Hc. destruct (api_cnpj_cpf c) as [s|] eqn:E; [|discriminate].
  apply negb_true_iff in Hc.
  destruct (api_cnpj_cpf_obj c s E) as (d & -> & Hd).
  simpl. rewrite Hd. simpl. rewrite Hc, Hn, andb_false_r. auto.
Qed.

Lemma find_hit_split (normalized : option string) (l : list json) (c : json) :
  find_hit normalized l = Some c ->
  exists l1 l2 s,
    l = (l1 ++ c :: l2)%list /\ forallb (misses normalized) l1 = true /\
    api_cnpj_cpf c = Ok s /\ cnpj_hit normalized s = true.
Proof.
  induction l as [|x l IH]; simpl; [discriminate|].
  destruct (api_cnpj_cpf x) as [s|] eqn:E; [|discriminate].
  destruct (cnpj_hit normalized s) eqn:Eh.
  - intros H. injection H as <-. exists [], l, s. auto.
  - intros H. destruct (IH H) as (l1 & l2 & s' & -> & H1 & H2 & H3).
    exists (x :: l1), l2, s'. simpl. unfold misses at 1. rewrite E, Eh. auto.
Qed.

(** The first record with the tax id looked for is kept, with its id,
    and the [for] stops there. *)
Lemma for_clientes_hit (h : hints) (normalized : option string)
    (l : list json) (c : json) (st : scan_state) :
  has_cnpj normalized = true ->
  find_hit normalized l = Some c ->
  truthy (found_customer_details st) = false ->
  for_clientes h normalized l st
  = Ok (ForDone (set_found st c (codigo_de c))).
Proof.
  intros Hn Hf Hfd.
  destruct (find_hit_split normalized l c Hf) as (l1 & l2 & s & -> & H1 & H2 & H3).
  rewrite for_clientes_misses by assumption.
  destruct (api_cnpj_cpf_obj c s H2) as (d & -> & Hd).
  simpl. rewrite Hd. simpl. rewrite H3, Hfd. reflexivity.
Qed.

Lemma hit_record_truthy (normalized : option string) (c : json) (s : string) :
  api_cnpj_cpf c = Ok s -> cnpj_hit normalized s = true -> truthy c = true.
Proof.
  intros H1 H2. destruct (api_cnpj_cpf_obj c s H1) as (d & -> & Hd).
  destruct d; [|reflexivity]. simpl in Hd. injection Hd as <-.
  destruct normalized as [[|a n]|]; discriminate H2.
Qed.

Lemma py_eq_one (v : json) (q : Q) :
  as_number v = Some q -> py_eq v (JInt 1) = Qeq_bool q 1.
Proof. destruct v; simpl; try discriminate; intros H; now injection H as <-. Qed.

Lemma floor_not_one (q : Q) : 1 < Qfloor q -> Qeq_bool q 1 = false.
Proof.
  intros H. destruct (Qeq_bool q 1) eqn:E; [|reflexivity].
  apply Qeq_bool_iff in E. rewrite E in H. change 1%Q with (inject_Z 1) in H.
  rewrite Qfloor_Z in H. lia.
Qed.

(** A turn on a page that has no record with the tax id. *)
Lemma page_step_miss (h : hints) (normalized : option string)
    (p : Z) (t cid fnd : json) (ms : list json) (r : json) (q : Q) :
  has_cnpj normalized = true ->
  miss_page normalized r = true ->
  truthy cid = false ->
  let t' := if p =? 1 then total_de_paginas r else t in
  as_number t' = Some q -> 1 < Qfloor q ->
  page_step h normalized (mkScan p t cid fnd ms) r
  = Ok (StepNext (mkScan (p + 1) t' cid fnd ms)).
Proof.
  intros Hn Hm Hc t' Hq Hfl. unfold miss_page, is_error, clientes_de in Hm.
  apply andb_true_iff in Hm as [He Hl]. apply negb_true_iff in He.
  destruct r; try discriminate Hl. unfold page_step. simpl in *.
  rewrite He. simpl.
  assert (Et : (if p =? 1
                then Ok match dict_get "total_de_paginas" d with
                        | Some x => x | None => JInt 1 end
                else Ok t) = Ok t').
  { subst t'. unfold total_de_paginas. simpl. destruct (p =? 1); reflexivity. }
  rewrite Et. simpl.
  set (cl := match dict_get "clientes_cadastro" d with
             | Some x => x | None => JNull end) in *.
  assert (Ef : (if truthy cl
                then l <- py_iter cl ;;
                     for_clientes h normalized l (set_total (mkScan p t cid fnd ms) t')
                else Ok (ForDone (set_total (mkScan p t cid fnd ms) t')))
               = Ok (ForDone (mkScan p t' cid fnd ms))).
  { destruct cl; try discriminate Hl; try reflexivity.
    destruct l as [|x l]; [reflexivity|]. simpl truthy. cbv iota.
    simpl py_iter. cbn [bind].
    rewrite <- (app_nil_r (x :: l)), for_clientes_misses by assumption.
    reflexivity. }
  rewrite Ef. simpl. rewrite Hc, andb_false_r.
  rewrite (py_eq_one t' q Hq), (floor_not_one q Hfl), andb_false_r.
  unfold int_gt. simpl. rewrite Hq. reflexivity.
Qed.

(** A turn on a page whose first record with the tax id has a truthy
    customer id. *)
Lemma page_step_hit (h : hints) (normalized : option string)
    (p : Z) (t cid fnd : json) (ms : list json) (r c : json) :
  has_cnpj normalized = true ->
  is_error r = false ->
  first_hit normalized r = Some c ->
  truthy fnd = false ->
  truthy (codigo_de c) = true ->
  let t' := if p =? 1 then total_de_paginas r else t in
  page_step h normalized (mkScan p t cid fnd ms) r
  = Ok (StepBreak (mkScan p t' (codigo_de c) c ms)).
Proof.
  intros Hn He Hf Hfd Hid t'. unfold first_hit, is_error, clientes_de in *.
  destruct r; try discriminate Hf. unfold page_step. simpl in *.
  rewrite He. simpl.
  assert (Et : (if p =? 1
                then Ok match dict_get "total_de_paginas" d with
                        | Some x => x | None => JInt 1 end
                else Ok t) = Ok t').
  { subst t'. unfold total_de_paginas. simpl. destruct (p =? 1); reflexivity. }
  rewrite Et. simpl.
  set (cl := match dict_get "clientes_cadastro" d with
             | Some x => x | None => JNull end) in *.
  destruct cl; try discriminate Hf.
  destruct l as [|x l]; [discriminate Hf|]. simpl truthy. cbv iota.
  simpl py_iter. cbn [bind].
  rewrite (for_clientes_hit h normalized (x :: l) c
             (set_total (mkScan p t cid fnd ms) t') Hn Hf Hfd).
  simpl. rewrite Hid. reflexivity.
Qed.

Lemma pages_from_cons (p : Z) (m : nat) :
  p :: List.map (fun i => p + 1 + Z.of_nat i) (seq 0 m)
  = List.map (fun i => p + Z.of_nat i) (seq 0 (S m)).
Proof.
  cbn [seq List.map]. f_equal; [lia|].
  rewrite <- seq_shift, map_map. apply map_ext. intros i. lia.
Qed.

(** From a page after the first: [n] pages without the tax id, then the
    page that has it. *)
Lemma paginate_misses_then_hit (post : api) (h : hints)
    (normalized : option string) (c : json) (t : json) (q : Q)
    (ms : list json) (n : nat) : forall p fuel,
  has_cnpj normalized = true ->
  1 < p -> as_number t = Some q ->
  p + Z.of_nat n <= Qfloor q ->
  (forall i, p <= i < p + Z.of_nat n ->
     miss_page normalized (listar_clientes post h normalized i) = true) ->
  is_error (listar_clientes post h normalized (p + Z.of_nat n)) = false ->
  first_hit normalized (listar_clientes post h normalized (p + Z.of_nat n))
    = Some c ->
  truthy (codigo_de c) = true ->
  (n < fuel)%nat ->
  paginate fuel post h normalized (mkScan p t JNull JNull ms)
  = Some (List.map (fun i => p + Z.of_nat i) (seq 0 (S n)),
          ScanDone (mkScan (p + Z.of_nat n) t (codigo_de c) c ms)).
Proof.
  induction n as [|n IH]; intros p fuel Hn Hp Hq Hle Hm He Hf Hid Hfuel;
    (destruct fuel as [|fuel]; [lia|]); cbn [paginate];
    unfold int_le; cbn [current_page total_pages customer_id]; rewrite Hq;
    (replace (Qle_bool (inject_Z p) q) with true
       by (symmetry; apply Qle_bool_floor; lia)); cbn [truthy].
  - rewrite Z.add_0_r in *.
    rewrite (page_step_hit h normalized p t JNull JNull ms _ c Hn He Hf eq_refl Hid).
    replace (p =? 1) with false by (symmetry; apply Z.eqb_neq; lia).
    cbn [seq List.map Z.of_nat]. now rewrite Z.add_0_r.
  - assert (Hstep : page_step h normalized (mkScan p t JNull JNull ms)
                      (listar_clientes post h normalized p)
                    = Ok (StepNext (mkScan (p + 1) t JNull JNull ms))).
    { pose proof (page_step_miss h normalized p t JNull JNull ms
                    (listar_clientes post h normalized p) q Hn
                    (Hm p ltac:(lia)) eq_refl) as X.
      cbv zeta in X.
      replace (p =? 1) with false in X by (symmetry; apply Z.eqb_neq; lia).
      apply X; [assumption | lia]. }
    rewrite Hstep.
    rewrite (IH (p + 1) fuel Hn ltac:(lia) Hq ltac:(lia)); try lia.
    + rewrite pages_from_cons.
      replace (p + 1 + Z.of_nat n) with (p + Z.of_nat (S n)) by lia.
      reflexivity.
    + intros i Hi. apply Hm. lia.
    + replace (p + 1 + Z.of_nat n) with (p + Z.of_nat (S n)) by lia. assumption.
    + replace (p + 1 + Z.of_nat n) with (p + Z.of_nat (S n)) by lia. assumption.
    + assumption.
Qed.

Lemma validate_found_hit (h : hints) (p : Z) (t c : json) (ms : list json)
    (normalized : option string) (s : string) :
  api_cnpj_cpf c = Ok s -> cnpj_hit normalized s = true ->
  truthy (codigo_de c) = true ->
  validate_found h (mkScan p t (codigo_de c) c ms)
  = Ok (Resolvido (codigo_de c) c).
Proof.
  intros H1 H2 Hid. unfold validate_found, by_name. simpl.
  rewrite Hid. simpl. rewrite Hid, (hit_record_truthy normalized c s H1 H2).
  reflexivity.
Qed.

(** C4, as amended: when the tax-id hint has a digit, the pages before
    page [k] come without error and hold no record with that tax id,
    page [k] comes without error and its first record with that tax id
    carries a truthy customer id, and [k] is within the page count
    announced by the first page, resolution succeeds with that record
    and the pages requested are exactly 1 to [k]. *)
Theorem first_direct_hit_resolves (fuel : nat) (post : api) (h : hints)
    (normalized : option string) (k : nat) (c : json) :
  normalize_input (cnpj_cpf h) = Ok normalized ->
  has_cnpj normalized = true ->
  (1 <= k)%nat ->
  (forall p, 1 <= p < Z.of_nat k ->
     miss_page normalized (listar_clientes post h normalized p) = true) ->
  is_error (listar_clientes post h normalized (Z.of_nat k)) = false ->
  first_hit normalized (listar_clientes post h normalized (Z.of_nat k)) = Some c ->
  truthy (codigo_de c) = true ->
  Z.of_nat k <= page_bound (listar_clientes post h normalized 1) ->
  (k <= fuel)%nat ->
  encontrar_id_cliente fuel post h
  = Some (pages_upto k, Ok (Resolvido (codigo_de c) c)).
Proof.
  intros Hno Hn Hk Hm He Hf Hid Hb Hfuel.
  assert (Hc : exists s, api_cnpj_cpf c = Ok s /\ cnpj_hit normalized s = true).
  { unfold first_hit in Hf. destruct (clientes_de _) as [l|]; [|discriminate].
    destruct (find_hit_split normalized l c Hf) as (_ & _ & s & _ & _ & H1 & H2).
    eauto. }
  destruct Hc as (s & Hs1 & Hs2).
  unfold encontrar_id_cliente. rewrite Hno.
  destruct fuel as [|fuel]; [lia|].
  destruct k as [|[|n]]; [lia| |].
  - change (Z.of_nat 1) with 1 in *.
    cbn [paginate]. change (int_le (current_page scan_init) (total_pages scan_init))
      with (@Ok bool true). cbn iota. cbn [customer_id scan_init truthy].
    change (current_page scan_init) with 1.
    unfold scan_init.
    rewrite (page_step_hit h normalized 1 (JInt 1) JNull JNull [] _ c Hn He Hf
               eq_refl Hid).
    cbn [Z.eqb Pos.eqb].
    rewrite (validate_found_hit h 1 _ c [] normalized s Hs1 Hs2 Hid).
    reflexivity.
  - assert (Hq : exists q, as_number (total_de_paginas
                                        (listar_clientes post h normalized 1))
                           = Some q /\ Z.of_nat (S (S n)) <= Qfloor q).
    { unfold page_bound in Hb. destruct (as_number _) as [q|]; [|lia].
      exists q. split; [reflexivity | lia]. }
    destruct Hq as (q & Hq & Hfl).
    cbn [paginate]. change (int_le (current_page scan_init) (total_pages scan_init))
      with (@Ok bool true). cbn iota. cbn [customer_id scan_init truthy].
    change (current_page scan_init) with 1.
    unfold scan_init.
    pose proof (page_step_miss h normalized 1 (JInt 1) JNull JNull []
                  (listar_clientes post h normalized 1) q Hn
                  (Hm 1 ltac:(lia)) eq_refl) as X.
    cbv zeta in X. cbn [Z.eqb Pos.eqb] in X.
    rewrite (X Hq ltac:(lia)). cbn [Z.add Pos.add].
    rewrite (paginate_misses_then_hit post h normalized c _ q [] n 2 fuel Hn
               ltac:(lia) Hq ltac:(lia)).
    + rewrite (validate_found_hit h _ _ c [] normalized s Hs1 Hs2 Hid).
      f_equal. f_equal.
      change 2 with (1 + 1). rewrite pages_from_cons.
      apply pages_upto_consecutive.
    + intros i Hi. apply Hm. lia.
    + replace (2 + Z.of_nat n) with (Z.of_nat (S (S n))) by lia. assumption.
    + replace (2 + Z.of_nat n) with (Z.of_nat (S (S n))) by lia. assumption.
    + assumption.
    + lia.
Qed.

(** ** OrderRetriever: the sort *)

Lemma ltb_asym (a b : string) : String.ltb a b = true -> String.ltb b a = false.
Proof.
  unfold String.ltb. rewrite (String.compare_antisym b a).
  destruct (String.compare a b); simpl; congruence.
Qed.

Lemma ltb_lt (a b : string) : String.ltb a b = true <-> String_as_OT.lt a b.
Proof.
  rewrite <- String_as_OT.cmp_lt. unfold String_as_OT.cmp, String.ltb.
  destruct (String.compare a b); split; congruence.
Qed.

Lemma ltb_ge (a b : string) :
  String.ltb a b = false -> a = b \/ String_as_OT.lt b a.
Proof.
  unfold String.ltb. destruct (String.compare a b) eqn:E; try discriminate.
  - left. now apply String.compare_eq_iff.
  - right. apply String_as_OT.cmp_lt. unfold String_as_OT.cmp.
    rewrite String.compare_antisym, E. reflexivity.
Qed.

Lemma ltb_irrefl (a : string) : String.ltb a a = false.
Proof.
  destruct (String.ltb a a) eqn:E; [|reflexivity].
  apply ltb_lt in E. apply String_as_OT.lt_not_eq in E. now destruct E.
Qed.

Lemma ltb_ge_trans (a b c : string) :
  String.ltb a b = false -> String.ltb b c = false -> String.ltb a c = false.
Proof.
  intros H1 H2. destruct (String.ltb a c) eqn:E; [|reflexivity].
  apply ltb_lt in E. apply ltb_ge in H1, H2.
  assert (F : String_as_OT.lt a a -> False)
    by (intros F; apply String_as_OT.lt_not_eq in F; now destruct F).
  destruct H1 as [->|H1], H2 as [->|H2].
  - now destruct (F E).
  - destruct (F (String_as_OT.lt_trans _ _ _ E H2)).
  - destruct (F (String_as_OT.lt_trans _ _ _ E H1)).
  - destruct (F (String_as_OT.lt_trans _ _ _ E
                   (String_as_OT.lt_trans _ _ _ H2 H1))).
Qed.

Section SortByKey.

(** Whatever the keys, inserting keeps every element. *)
Lemma insert_desc_perm (kx : json * json) (l r : list (json * json)) :
  insert_desc kx l = Ok r -> Permutation (kx :: l) r.
Proof.
  revert r. induction l as [|ky l IH]; simpl; intros r H.
  - injection H as <-. reflexivity.
  - bind_inv H. destruct a.
    + bind_inv H. injection H as <-.
      rewrite perm_swap. constructor. now apply IH.
    + injection H as <-. reflexivity.
Qed.

Lemma sort_desc_perm (l r : list (json * json)) :
  sort_desc l = Ok r -> Permutation l r.
Proof.
  revert r. induction l as [|kx l IH]; simpl; intros r H.
  - injection H as <-. reflexivity.
  - bind_inv H. apply insert_desc_perm in H.
    rewrite <- H. constructor. now apply IH.
Qed.

Lemma insert_desc_sorted (kx : json * json) (l : list (json * json)) :
  keyed_ok kx -> Forall keyed_ok l ->
  exists r,
    insert_desc kx l = Ok r /\
    (StronglySorted keyed_ge l -> StronglySorted keyed_ge r) /\
    (forall s, List.filter (keyed_has s) r
               = if keyed_has s kx then kx :: List.filter (keyed_has s) l
                 else List.filter (keyed_has s) l).
Proof.
  intros (s & Hs & Hk). induction l as [|ky l IH]; intros Hl.
  - exists [kx]. simpl. split; [reflexivity|]. split.
    + intros _. repeat constructor.
    + intros s'. destruct (keyed_has s' kx); reflexivity.
  - inversion Hl as [|? ? (t & Ht & Hkt) Hl']; subst. simpl.
    rewrite Hs, Ht. simpl. destruct (String.ltb s t) eqn:E.
    + destruct (IH Hl') as (r & Er & Hsr & Hfr). rewrite Er. simpl.
      exists (ky :: r). split; [reflexivity|]. split.
      * intros Hsd. inversion Hsd as [|? ? Hsd' Hall]; subst.
        constructor; [auto|].
        assert (Hp : Permutation (kx :: l) r)
          by (now apply insert_desc_perm).
        eapply Permutation_Forall; [exact Hp|].
        constructor; [|assumption].
        unfold keyed_ge, chave_ge. rewrite Hkt, Hk. now apply ltb_asym.
      * intros s'. simpl. rewrite Hfr.
        unfold keyed_has, same_chave. rewrite Hk, Hkt.
        destruct (String.eqb_spec s' s) as [->|Hne]; [|reflexivity].
        destruct (String.eqb_spec s t) as [->|Hne]; [|reflexivity].
        rewrite ltb_irrefl in E. discriminate.
    + exists (kx :: ky :: l). split; [reflexivity|]. split.
      * intros Hsd. constructor; [assumption|].
        inversion Hsd as [|? ? Hsd' Hall]; subst.
        constructor.
        -- unfold keyed_ge, chave_ge. rewrite Hk, Hkt. assumption.
        -- rewrite Forall_forall in *. intros kz Hz.
           specialize (Hall kz Hz). destruct (Hl' kz Hz) as (u & _ & Hku).
           unfold keyed_ge, chave_ge in *. rewrite Hk, Hku. rewrite Hkt, Hku in Hall.
           now apply ltb_ge_trans with t.
      * intros s'. simpl. destruct (keyed_has s' kx); reflexivity.
Qed.

Lemma sort_desc_sorted (l : list (json * json)) :
  Forall keyed_ok l ->
  exists r,
    sort_desc l = Ok r /\ StronglySorted keyed_ge r /\
    (forall s, List.filter (keyed_has s) r = List.filter (keyed_has s) l).
Proof.
  induction l as [|kx l IH]; intros Hl.
  - exists []. simpl. split; [reflexivity|]. split; [constructor | reflexivity].
  - inversion Hl as [|? ? Hx Hl']; subst.
    destruct (IH Hl') as (r & Er & Sr & Fr). simpl. rewrite Er. simpl.
    assert (Hr : Forall keyed_ok r).
    { eapply Permutation_Forall; [|exact Hl']. now apply sort_desc_perm. }
    destruct (insert_desc_sorted kx r Hx Hr) as (r' & Er' & Sr' & Fr').
    exists r'. split; [assumption|]. split; [auto|].
    intros s. rewrite Fr', Fr. reflexivity.
Qed.

Lemma with_key_snd (l : list json) (keyed : list (json * json)) :
  mapM with_key l = Ok keyed -> List.map snd keyed = l.
Proof.
  revert keyed. induction l as [|p l IH]; simpl; intros keyed H.
  - now injection H as <-.
  - bind_inv H. bind_inv H. injection H as <-.
    unfold with_key in Ha. bind_inv Ha. injection Ha as <-.
    simpl. f_equal. now apply IH.
Qed.

Lemma with_key_wf (l : list json) :
  Forall (fun p => chave_str p <> None) l ->
  exists keyed, mapM with_key l = Ok keyed /\ Forall keyed_ok keyed.
Proof.
  induction l as [|p l IH]; intros Hl.
  - exists []. split; [reflexivity | constructor].
  - inversion Hl as [|? ? Hp Hl']; subst.
    destruct (IH Hl') as (keyed & Ek & Wk). simpl. rewrite Ek.
    unfold with_key at 1. unfold chave_str in Hp.
    destruct (chave_pedido p) as [[]|] eqn:E; try (now destruct Hp).
    simpl. exists ((JStr s, p) :: keyed). split; [reflexivity|].
    constructor; [|assumption]. exists s. simpl. unfold chave_str.
    now rewrite E.
Qed.

Lemma sorted_snd (r : list (json * json)) :
  StronglySorted keyed_ge r -> StronglySorted chave_ge (List.map snd r).
Proof.
  induction 1 as [|kx r Hs IH Hall]; simpl; constructor; [assumption|].
  rewrite Forall_map. exact Hall.
Qed.

Lemma filter_snd (s : string) (r : list (json * json)) :
  List.filter (same_chave s) (List.map snd r)
  = List.map snd (List.filter (keyed_has s) r).
Proof.
  induction r as [|kx r IH]; simpl; [reflexivity|].
  unfold keyed_has at 1. destruct (same_chave s (snd kx)); simpl; now rewrite IH.
Qed.

(** The sort, when it does not raise, permutes the orders. *)
Lemma sorted_by_numero_pedido_perm (l l' : list json) :
  sorted_by_numero_pedido (JArr l) = Ok l' -> Permutation l l'.
Proof.
  unfold sorted_by_numero_pedido. simpl. intros H.
  bind_inv H. bind_inv H. injection H as <-.
  apply with_key_snd in Ha. rewrite <- Ha.
  apply Permutation_map. now apply sort_desc_perm.
Qed.

(** On string keys the sort does not raise, and gives the stable
    descending order. *)
Lemma sorted_by_numero_pedido_strings (l : list json) :
  Forall (fun p => chave_str p <> None) l ->
  exists l',
    sorted_by_numero_pedido (JArr l) = Ok l' /\
    StronglySorted chave_ge l' /\
    (forall s, List.filter (same_chave s) l' = List.filter (same_chave s) l).
Proof.
  intros Hl. destruct (with_key_wf l Hl) as (keyed & Ek & Wk).
  destruct (sort_desc_sorted keyed Wk) as (r & Er & Sr & Fr).
  exists (List.map snd r). unfold sorted_by_numero_pedido. simpl.
  rewrite Ek. simpl. rewrite Er. simpl. split; [reflexivity|].
  split; [now apply sorted_snd|].
  intros s. rewrite filter_snd, Fr, <- filter_snd.
  now rewrite (with_key_snd l keyed Ek).
Qed.

End SortByKey.

(** C7: the sort step gives a list whatever the orders are: the orders
    in descending order of their keys, equal keys in upstream order, when
    the keys are strings, compared by code points ("9" before "10"); the
    upstream list unchanged when the sort raises; the first three of that
    list are then formatted. *)
Theorem sort_step_never_raises (customer_id : json) (l : list json) :
  (exists l',
     pedidos_ordenados (JArr l) = JArr l' /\ Permutation l l' /\
     processar_pedidos customer_id (JArr l)
     = first_three_formatted customer_id l') /\
  (Forall (fun p => chave_str p <> None) l ->
   exists l',
     pedidos_ordenados (JArr l) = JArr l' /\
     StronglySorted chave_ge l' /\
     (forall s, List.filter (same_chave s) l' = List.filter (same_chave s) l)) /\
  (forall e, sorted_by_numero_pedido (JArr l) = Raise e ->
     pedidos_ordenados (JArr l) = JArr l) /\
  pedidos_ordenados (JArr [Exemplos.pedido "10"; Exemplos.pedido "9"])
  = JArr [Exemplos.pedido "9"; Exemplos.pedido "10"].
Proof.
  split; [|split; [|split]].
  - unfold processar_pedidos, pedidos_ordenados.
    destruct (sorted_by_numero_pedido (JArr l)) as [l'|e] eqn:E.
    + exists l'. split; [reflexivity|].
      split; [now apply sorted_by_numero_pedido_perm | reflexivity].
    + exists l. split; [reflexivity|]. split; reflexivity.
  - intros Hl.
    destruct (sorted_by_numero_pedido_strings l Hl) as (l' & E & Hs & Hf).
    exists l'. unfold pedidos_ordenados. rewrite E. auto.
  - intros e E. unfold pedidos_ordenados. now rewrite E.
  - reflexivity.
Qed.

Lemma sort_step_never_raises_witness :
  exists l',
    pedidos_ordenados
      (JArr [Exemplos.pedido "10"; Exemplos.pedido "9"; Exemplos.pedido "100"])
    = JArr l' /\
    StronglySorted chave_ge l' /\
    (forall s, List.filter (same_chave s) l'
               = List.filter (same_chave s)
                   [Exemplos.pedido "10"; Exemplos.pedido "9";
                    Exemplos.pedido "100"]).
Proof.
  apply (proj1 (proj2 (sort_step_never_raises JNull
           [Exemplos.pedido "10"; Exemplos.pedido "9"; Exemplos.pedido "100"]))).
  repeat constructor; discriminate.
Defined.

(** Keys that cannot be compared: the upstream order is kept. *)
Example mixed_keys_keep_upstream_order :
  let l := [Exemplos.pedido "10";
            JObj [("cabecalho", JObj [("numero_pedido", JInt 9)])]] in
  sorted_by_numero_pedido (JArr l) = Raise TypeError /\
  pedidos_ordenados (JArr l) = JArr l.
Proof. split; reflexivity. Qed.

(** ** The tool surface and unhandled exceptions *)

Lemma py_get_not_object (v : json) (k : string) (dflt : json) :
  not_object v -> py_get v k dflt = Raise AttributeError.
Proof. destruct v; simpl; tauto. Qed.

(** C1 fails on the code.  An analysis reply that decodes to a JSON
    value other than an object makes
    [responder_pergunta_sobre_pedidos] raise [AttributeError] at line
    349, outside every [try]; a first directory record whose [cnpj_cpf]
    is null makes [encontrar_pedidos_cliente] raise [TypeError] at line
    160. *)
Theorem unhandled_exception_escapes :
  (forall (json_loads : string -> option json) (fuel : nat) (post : api)
          (m : ia) (pergunta raw : string) (v : json),
     model_ok m = true ->
     generate_content m (PromptAnalise pergunta) = Some raw ->
     json_loads (json_text raw) = Some v ->
     not_object v ->
     responder_pergunta_sobre_pedidos json_loads fuel post m pergunta
     = Some (Raise AttributeError)) /\
  (forall (fuel : nat) (post : api) (h : hints) (normalized : option string)
          (d rec : dict) (rest : list json),
     truthy (cnpj_cpf h) || truthy (nome_fantasia h) || truthy (cidade h) = true ->
     normalize_input (cnpj_cpf h) = Ok normalized ->
     listar_clientes post h normalized 1 = JObj d ->
     is_error (JObj d) = false ->
     dict_get "clientes_cadastro" d = Some (JArr (JObj rec :: rest)) ->
     dict_get "cnpj_cpf" rec = Some JNull ->
     encontrar_pedidos_cliente (S fuel) post h = Some ([1], Raise TypeError)).
Proof.
  split.
  - intros json_loads fuel post m pergunta raw v Hm Hg Hl Hv.
    unfold responder_pergunta_sobre_pedidos, dados_interpretados.
    rewrite Hm, Hg, Hl. simpl. unfold responder_com_dados.
    now rewrite py_get_not_object.
  - intros fuel post h normalized d rec rest Hh Hn Hr He Hc Hk.
    unfold encontrar_pedidos_cliente, encontrar_id_cliente.
    rewrite Hh, Hn. simpl. rewrite Hr.
    unfold page_step. unfold is_error in He. simpl in *. rewrite He. simpl.
    rewrite Hc. simpl. rewrite Hk. reflexivity.
Qed.

Lemma unhandled_exception_escapes_witness :
  responder_pergunta_sobre_pedidos Exemplos.decodificar 3
    (Exemplos.constante (JObj [])) (Exemplos.responde "[]")
    "quais os pedidos do cliente 123?"
  = Some (Raise AttributeError) /\
  encontrar_pedidos_cliente 3
    (Exemplos.constante
       (Exemplos.pagina 1 [JObj [("codigo_cliente_omie", JInt 7);
                                 ("cnpj_cpf", JNull);
                                 ("nome_fantasia", JStr "Alfa")]]))
    (mkHints JNull (JStr "alfa") JNull)
  = Some ([1], Raise TypeError).
Proof.
  split.
  - exact (proj1 unhandled_exception_escapes Exemplos.decodificar 3%nat
             (Exemplos.constante (JObj [])) (Exemplos.responde "[]")
             "quais os pedidos do cliente 123?" "[]" (JArr [])
             eq_refl eq_refl eq_refl I).
  - exact (proj2 unhandled_exception_escapes 2%nat
             (Exemplos.constante
                (Exemplos.pagina 1 [JObj [("codigo_cliente_omie", JInt 7);
                                          ("cnpj_cpf", JNull);
                                          ("nome_fantasia", JStr "Alfa")]]))
             (mkHints JNull (JStr "alfa") JNull) None
             _ _ _ eq_refl eq_refl eq_refl eq_refl eq_refl eq_refl).
Defined.

(** ** Resolution on sample directories *)

(** C2 as stated fails.  Two records with the tax id looked for, on
    one page or on two: the scan stops at the first one (lines 169 and
    176) and resolves to it, no message about several records is
    returned, and the page after the first match is not requested. *)
Theorem duplicate_tax_id_resolves_to_first :
  let h := mkHints (JStr "12.345.678/0001-90") JNull JNull in
  let a := Exemplos.cliente 1 "12.345.678/0001-90" "Alfa" in
  let b := Exemplos.cliente 2 "12345678000190" "Beta" in
  api_cnpj_cpf a = Ok "12345678000190" /\
  api_cnpj_cpf b = Ok "12345678000190" /\
  normalize_input (cnpj_cpf h) = Ok (Some "12345678000190") /\
  encontrar_id_cliente 5
    (Exemplos.servir [Exemplos.pagina 1 [a; b]] (JObj [])) h
  = Some ([1], Ok (Resolvido (JInt 1) a)) /\
  encontrar_id_cliente 5
    (Exemplos.servir [Exemplos.pagina 2 [a]; Exemplos.pagina 2 [b]] (JObj [])) h
  = Some ([1], Ok (Resolvido (JInt 1) a)).
Proof. repeat split; vm_compute; reflexivity. Qed.

(** The message of line 165 on a sample directory: the first match has
    no usable customer id and the next page holds another match. *)
Example duplicate_tax_id_reported_only_without_id :
  let h := mkHints (JStr "123") JNull JNull in
  let a := JObj [("cnpj_cpf", JStr "123")] in
  let b := Exemplos.cliente 2 "123" "Beta" in
  encontrar_id_cliente 5
    (Exemplos.servir [Exemplos.pagina 2 [a]; Exemplos.pagina 2 [b]] (JObj [])) h
  = Some ([1; 2], Ok (Falha (MsgMultiplosCnpj (JStr "123")))).
Proof. vm_compute. reflexivity. Qed.

Lemma last_cons (l : list json) : forall c d : json,
  last (c :: l) d = last l c.
Proof.
  induction l as [|x l IH]; intros c d; [reflexivity|].
  change (last (c :: x :: l) d) with (last (x :: l) d).
  now rewrite (IH x d), (IH x c).
Qed.

(** Line 195 on records that share one display name: the dict holds the
    last of them. *)
Lemma unique_names_same (n : string) (l : list json) : forall v,
  Forall (fun c => py_get c "nome_fantasia" JNull = Ok (JStr n)) l ->
  unique_names_from [(JStr n, v)] l = Ok [(JStr n, last l v)].
Proof.
  induction l as [|c l IH]; intros v Hl; [reflexivity|].
  inversion Hl as [|? ? Hc Hl']; subst. rewrite last_cons.
  cbn [unique_names_from]. rewrite Hc. cbn [bind hashable kv_set py_eq].
  rewrite String.eqb_refl. apply (IH c Hl').
Qed.

Lemma unique_names_from_cons (acc : list (json * json)) (m : json)
    (rest : list json) :
  unique_names_from acc (m :: rest)
  = (k <- py_get m "nome_fantasia" JNull ;;
     if hashable k then unique_names_from (kv_set k m acc) rest
     else Raise TypeError).
Proof. reflexivity. Qed.

(** Several name matches that share one display name: the record used
    is the last one collected. *)
Lemma same_name_picks_last (h : hints) (st : scan_state) (n : string)
    (m1 m2 : json) (rest : list json) :
  possible_matches_by_name st = m1 :: m2 :: rest ->
  truthy (customer_id st) = false ->
  Forall (fun c => py_get c "nome_fantasia" JNull = Ok (JStr n))
    (m1 :: m2 :: rest) ->
  let c := last rest m2 in
  validate_found h st
  = Ok (if truthy (codigo_de c) && truthy c
        then Resolvido (codigo_de c) c
        else Falha MsgNaoEncontrado).
Proof.
  intros Hm Hc Hl c. unfold validate_found, by_name. rewrite Hm, Hc.
  cbn [List.length Nat.eqb negb andb].
  inversion Hl as [|? ? H1 Hl']; subst.
  assert (Eu : unique_names (m1 :: m2 :: rest) = Ok [(JStr n, c)]).
  { unfold unique_names. rewrite unique_names_from_cons, H1.
    cbn [bind hashable kv_set].
    rewrite (unique_names_same n (m2 :: rest) m1 Hl').
    now rewrite last_cons. }
  rewrite Eu. cbn [bind].
  assert (Hobj : exists d, c = JObj d).
  { assert (Hin : Forall (fun c => py_get c "nome_fantasia" JNull = Ok (JStr n))
                    [last rest m2]).
    { constructor; [|constructor]. inversion Hl' as [|? ? H2 Hl'']; subst.
      clear - H2 Hl''. revert m2 H2.
      induction rest as [|x rest IH]; intros m2 H2; [exact H2|].
      inversion Hl'' as [|? ? Hx Hr]; subst.
      rewrite last_cons. now apply IH. }
    inversion Hin as [|? ? Hc' _]; subst. fold c in Hc'.
    now apply py_get_ok in Hc'. }
  destruct Hobj as [d Hd]. unfold codigo_de. rewrite Hd. simpl.
  destruct (truthy match dict_get "codigo_cliente_omie" d with
                   | Some x => x | None => JNull end), d; reflexivity.
Qed.

(** C3 fails on the code.  Two records named "ACME" match the hint
    "acme"; both are collected, in scan order, and the record resolved is
    the second, not the first. *)
Theorem same_name_resolves_to_last_collected :
  let h := mkHints JNull (JStr "acme") JNull in
  let a := Exemplos.cliente 1 "111" "ACME" in
  let b := Exemplos.cliente 2 "222" "ACME" in
  let post := Exemplos.servir [Exemplos.pagina 1 [a; b]] (JObj []) in
  paginate 5 post h None scan_init
  = Some ([1], ScanDone (mkScan 2 (JInt 1) JNull JNull [a; b])) /\
  encontrar_id_cliente 5 post h = Some ([1], Ok (Resolvido (JInt 2) b)).
Proof. split; vm_compute; reflexivity. Qed.

(** C4, as stated, fails: the only record with the tax id has no
    customer id, and resolution ends with the not-found message. *)
Lemma lone_match_without_id_not_found :
  let h := mkHints (JStr "123") JNull JNull in
  let r := JObj [("cnpj_cpf", JStr "123"); ("nome_fantasia", JStr "Alfa")] in
  let post := Exemplos.servir [Exemplos.pagina 1 [r]] (JObj []) in
  first_hit (Some "123") (listar_clientes post h (Some "123") 1) = Some r /\
  encontrar_id_cliente 5 post h = Some ([1], Ok (Falha MsgNaoEncontrado)).
Proof. split; vm_compute; reflexivity. Qed.

(** ** The theorems on sample directories *)

Lemma first_direct_hit_resolves_witness :
  let h := mkHints (JStr "359.489.811-34") JNull JNull in
  let c := Exemplos.cliente 2 "35948981134" "Beta" in
  let post :=
    Exemplos.servir
      [Exemplos.pagina 3 [Exemplos.cliente 1 "111.111.111-11" "Alfa"];
       Exemplos.pagina 3 [c];
       Exemplos.pagina 3 [Exemplos.cliente 3 "222.222.222-22" "Gama"]]
      (JObj []) in
  encontrar_id_cliente 5 post h
  = Some (pages_upto 2, Ok (Resolvido (codigo_de c) c)).
Proof.
  intros h c post.
  apply (first_direct_hit_resolves 5 post h (Some "35948981134") 2 c).
  - reflexivity.
  - reflexivity.
  - lia.
  - intros p Hp. assert (E : p = 1) by lia. rewrite E. reflexivity.
  - reflexivity.
  - reflexivity.
  - reflexivity.
  - vm_compute. discriminate.
  - lia.
Defined.

Lemma total_pages_fixed_by_first_page_witness :
  let h := mkHints JNull (JStr "acme") JNull in
  let cs := [Exemplos.cliente 1 "111" "ACME Norte"] in
  let post1 := Exemplos.com_totais (fun _ => 2) cs in
  let post2 := Exemplos.com_totais (fun p => if p =? 1 then 2 else 9) cs in
  paginate 5 post2 h None scan_init
  = Some ([1; 2],
          ScanDone (mkScan 3 (JInt 2) JNull JNull (cs ++ cs))) /\
  page_bound (listar_clientes post1 h None 1) = 2.
Proof.
  intros h cs post1 post2.
  assert (H1 : listar_clientes post1 h None 1 = listar_clientes post2 h None 1)
    by reflexivity.
  assert (H2 : forall p, 1 < p ->
             agree_off_total (listar_clientes post1 h None p)
               (listar_clientes post2 h None p)).
  { intros p Hp k dflt Hk.
    unfold listar_clientes, call_omie_api, post1, post2, Exemplos.com_totais,
      Exemplos.pagina.
    rewrite !check_fault_obj. simpl.
    apply String.eqb_neq in Hk. rewrite !Hk. reflexivity. }
  destruct (proj2 (total_pages_fixed_by_first_page 5 post1 post2 h None H1 H2)
              [1; 2] (ScanDone (mkScan 3 (JInt 2) JNull JNull (cs ++ cs)))
              eq_refl) as (E & _ & _ & _ & Hb).
  split; [exact E|].
  symmetry. exact (Hb _ eq_refl eq_refl).
Defined.



(** ** CustomerResolver: the search by name *)

Lemma cliente_ok_fields (c : json) :
  cliente_ok c = true ->
  exists d s,
    c = JObj d /\
    digits_of (match dict_get "cnpj_cpf" d with
               | Some x => x | None => JStr "" end) = Ok s /\
    py_lower (match dict_get "nome_fantasia" d with
              | Some x => x | None => JStr "" end)
    = Ok (PyStr.lower (nome_str c)).
Proof.
  destruct c; try discriminate. simpl. intros H.
  apply andb_true_iff in H as [H1 H2]. unfold is_str_or_absent in *.
  unfold nome_str, nome_de. simpl. exists d.
  destruct (dict_get "cnpj_cpf" d) as [[]|]; try discriminate H1;
    destruct (dict_get "nome_fantasia" d) as [[]|]; try discriminate H2;
    simpl; eexists; repeat split; reflexivity.
Qed.

(** With a name hint and no tax id to look for, the [for] collects the
    records whose display name contains the hint, in order. *)
Lemma for_clientes_filter (h : hints) (normalized : option string)
    (a : string) (l : list json) : forall st,
  has_cnpj normalized = false ->
  nome_fantasia h = JStr a -> PyStr.is_empty a = false ->
  forallb cliente_ok l = true ->
  for_clientes h normalized l st
  = Ok (ForDone (add_matches st (List.filter (name_matches a) l))).
Proof.
  induction l as [|c l IH]; intros st Hn Ha He Hl.
  - simpl. now rewrite add_matches_nil.
  - simpl in Hl. apply andb_true_iff in Hl as [Hc Hl].
    destruct (cliente_ok_fields c Hc) as (d & s & -> & Hd & Hw).
    cbn [for_clientes py_get bind]. rewrite Hd. cbn [bind].
    rewrite (cnpj_hit_without _ _ Hn), Hn, Ha. simpl truthy. rewrite He.
    cbn [negb andb py_lower bind]. rewrite Hw. cbn [bind List.filter].
    change (name_matches a (JObj d))
      with (PyStr.contains (PyStr.lower a) (PyStr.lower (nome_str (JObj d)))).
    destruct (PyStr.contains _ _).
    + rewrite IH by assumption. now rewrite add_matches_cons.
    + now apply IH.
Qed.

Lemma good_page_obj (r : json) :
  good_page r = true ->
  exists d, r = JObj d /\
    truthy (match dict_get "error" d with Some x => x | None => JNull end) = false /\
    forallb cliente_ok (records r) = true /\
    (match dict_get "clientes_cadastro" d with Some x => x | None => JNull end
     = JArr (records r) \/
     match dict_get "clientes_cadastro" d with Some x => x | None => JNull end
     = JNull /\ records r = []).
Proof.
  unfold good_page, records, is_error, clientes_de. destruct r; simpl; try discriminate.
  intros H. apply andb_true_iff in H as [H1 H2]. apply negb_true_iff in H1.
  exists d. split; [reflexivity|]. split; [assumption|].
  destruct (match dict_get "clientes_cadastro" d with
            | Some x => x | None => JNull end); try discriminate H2; auto.
Qed.

(** A turn of the search by name on a good page. *)
Lemma page_step_names (h : hints) (normalized : option string) (a : string)
    (p : Z) (t : json) (ms : list json) (r : json) (q : Q) :
  has_cnpj normalized = false ->
  nome_fantasia h = JStr a -> PyStr.is_empty a = false ->
  good_page r = true ->
  let t' := if p =? 1 then total_de_paginas r else t in
  as_number t' = Some q ->
  (p = 1 -> records r = [] -> py_eq t' (JInt 1) = false) ->
  page_step h normalized (mkScan p t JNull JNull ms) r
  = Ok (StepNext (mkScan (p + 1) t' JNull JNull
                    (ms ++ List.filter (name_matches a) (records r)))).
Proof.
  intros Hn Ha He Hg t' Hq H1.
  destruct (good_page_obj r Hg) as (d & -> & Herr & Hok & Hcl).
  unfold page_step. cbn [py_get bind]. rewrite Herr.
  assert (Et : (if current_page (mkScan p t JNull JNull ms) =? 1
                then Ok match dict_get "total_de_paginas" d with
                        | Some x => x | None => JInt 1 end
                else Ok (total_pages (mkScan p t JNull JNull ms))) = Ok t').
  { subst t'. unfold total_de_paginas. simpl. destruct (p =? 1); reflexivity. }
  rewrite Et. cbn [bind].
  set (cl := match dict_get "clientes_cadastro" d with
             | Some x => x | None => JNull end) in *.
  set (rs := records (JObj d)) in *.
  assert (Ef : (if truthy cl
                then l <- py_iter cl ;;
                     for_clientes h normalized l
                       (set_total (mkScan p t JNull JNull ms) t')
                else Ok (ForDone (set_total (mkScan p t JNull JNull ms) t')))
               = Ok (ForDone (mkScan p t' JNull JNull
                                (ms ++ List.filter (name_matches a) rs)))
               /\ truthy cl = negb (Nat.eqb (List.length rs) 0)).
  { destruct Hcl as [E|[E E']]; rewrite E.
    - destruct rs as [|x rs'] eqn:Ers.
      + simpl. now rewrite app_nil_r.
      + simpl truthy. cbv iota. cbn [py_iter bind]. split; [|reflexivity].
        rewrite (for_clientes_filter h normalized a (x :: rs') _ Hn Ha He Hok).
        reflexivity.
    - rewrite E'. simpl. now rewrite app_nil_r. }
  destruct Ef as [Ef Ecl]. rewrite Ef. cbn [bind customer_id truthy].
  rewrite andb_false_r. cbn [current_page total_pages].
  assert (E1 : negb (truthy cl) && (p =? 1) && py_eq t' (JInt 1) = false).
  { destruct (truthy cl) eqn:Etc; [reflexivity|].
    destruct (p =? 1) eqn:Ep; [|reflexivity].
    apply Z.eqb_eq in Ep. simpl. apply H1; [assumption|].
    destruct rs; [reflexivity | discriminate Ecl]. }
  rewrite E1. unfold int_gt. cbn [next_page current_page total_pages].
  rewrite Hq. reflexivity.
Qed.

(** From a page after the first, over the good pages that remain. *)
Lemma paginate_names_from (post : api) (h : hints) (normalized : option string)
    (a : string) (t : json) (q : Q) (n : nat) : forall p fuel ms,
  has_cnpj normalized = false ->
  nome_fantasia h = JStr a -> PyStr.is_empty a = false ->
  1 < p -> as_number t = Some q ->
  p + Z.of_nat n = Z.max p (Qfloor q + 1) ->
  (forall i, p <= i <= Qfloor q ->
     good_page (listar_clientes post h normalized i) = true) ->
  (n < fuel)%nat ->
  paginate fuel post h normalized (mkScan p t JNull JNull ms)
  = Some (List.map (fun i => p + Z.of_nat i) (seq 0 n),
          ScanDone
            (mkScan (p + Z.of_nat n) t JNull JNull
               (ms ++ flat_map
                        (fun i => List.filter (name_matches a)
                                    (records (listar_clientes post h normalized i)))
                        (List.map (fun i => p + Z.of_nat i) (seq 0 n))))).
Proof.
  induction n as [|n IH]; intros p fuel ms Hn Ha He Hp Hq Hpn Hg Hf;
    (destruct fuel as [|fuel]; [lia|]); cbn [paginate];
    unfold int_le; cbn [current_page total_pages customer_id]; rewrite Hq.
  - replace (Qle_bool (inject_Z p) q) with false
      by (symmetry; apply Qle_bool_floor_false; lia).
    cbn [seq List.map flat_map Z.of_nat]. now rewrite Z.add_0_r, app_nil_r.
  - replace (Qle_bool (inject_Z p) q) with true
      by (symmetry; apply Qle_bool_floor; lia).
    cbn [truthy].
    pose proof (page_step_names h normalized a p t ms
                  (listar_clientes post h normalized p) q Hn Ha He
                  (Hg p ltac:(lia))) as X.
    cbv zeta in X.
    replace (p =? 1) with false in X by (symmetry; apply Z.eqb_neq; lia).
    rewrite (X Hq ltac:(lia)).
    rewrite (IH (p + 1) fuel _ Hn Ha He ltac:(lia) Hq ltac:(lia)); try lia.
    + rewrite pages_from_cons.
      replace (p + 1 + Z.of_nat n) with (p + Z.of_nat (S n)) by lia.
      rewrite <- (pages_from_cons p n). cbn [flat_map].
      now rewrite app_assoc.
    + intros i Hi. apply Hg. lia.
Qed.

(** The whole search by name over a directory of good pages: every page
    the first page announces is requested, and the records collected are
    those whose display name contains the hint. *)
Lemma paginate_names (post : api) (h : hints) (normalized : option string)
    (a : string) (q : Q) (fuel : nat) :
  has_cnpj normalized = false ->
  nome_fantasia h = JStr a -> PyStr.is_empty a = false ->
  let page := listar_clientes post h normalized in
  let n := Z.to_nat (page_bound (page 1)) in
  as_number (total_de_paginas (page 1)) = Some q ->
  (forall i, 1 <= i <= page_bound (page 1) -> good_page (page i) = true) ->
  (records (page 1) = [] -> py_eq (total_de_paginas (page 1)) (JInt 1) = false) ->
  (n < fuel)%nat ->
  paginate fuel post h normalized scan_init
  = Some (pages_upto n,
          ScanDone (mkScan (Z.of_nat n + 1) (total_de_paginas (page 1))
                      JNull JNull (directory_matches page a n))).
Proof.
  intros Hn Ha He page n Hq Hg H1 Hf.
  assert (Hb : page_bound (page 1) = Z.max 1 (Qfloor q))
    by (unfold page_bound; now rewrite Hq).
  destruct fuel as [|fuel]; [lia|]. cbn [paginate].
  change (int_le (current_page scan_init) (total_pages scan_init))
    with (@Ok bool true). cbn iota. cbn [customer_id scan_init truthy].
  change (current_page scan_init) with 1. unfold scan_init.
  pose proof (page_step_names h normalized a 1 (JInt 1) []
                (listar_clientes post h normalized 1) q Hn Ha He
                (Hg 1 ltac:(lia))) as X.
  cbv zeta in X. cbn [Z.eqb Pos.eqb] in X.
  rewrite (X Hq (fun _ => H1)). cbn [Z.add Pos.add app].
  rewrite (paginate_names_from post h normalized a _ q (n - 1) 2 fuel _
             Hn Ha He ltac:(lia) Hq); try lia.
  - assert (En : n = S (n - 1)) by lia.
    unfold directory_matches. rewrite <- pages_upto_consecutive.
    rewrite En at 4 6. rewrite <- (pages_from_cons 1 (n - 1)).
    cbn [flat_map]. change (1 + 1) with 2.
    replace (2 + Z.of_nat (n - 1)) with (Z.of_nat n + 1) by lia.
    reflexivity.
  - intros i Hi. apply Hg. lia.
Qed.

(** C5: in a search by name alone over a directory whose pages, as many
    as the first page announces, come without error and hold records of
    the data model, when the records whose display name contains the hint
    have two or more distinct display names, the tool requests every page
    and returns the message about several customers, with the number of
    distinct display names in it. *)
Theorem ambiguous_name_counts_distinct (fuel : nat) (post : api) (h : hints)
    (normalized : option string) (a : string) :
  normalize_input (cnpj_cpf h) = Ok normalized ->
  has_cnpj normalized = false ->
  nome_fantasia h = JStr a -> PyStr.is_empty a = false ->
  let page := listar_clientes post h normalized in
  let n := Z.to_nat (page_bound (page 1)) in
  let names := nodup string_dec
                 (List.map nome_str (directory_matches page a n)) in
  total_ok (page 1) = true ->
  (forall i, 1 <= i <= page_bound (page 1) -> good_page (page i) = true) ->
  (2 <= List.length names)%nat ->
  (n < fuel)%nat ->
  encontrar_pedidos_cliente fuel post h
  = Some (pages_upto n,
          Ok (Mensagem (MsgMultiplosNomes (List.length names) (JStr a)))).
Proof.
  intros Hno Hn Ha He page n names Ht Hg H2 Hf.
  assert (Hb1 : 1 <= page_bound (page 1))
    by (unfold page_bound; destruct (as_number _); lia).
  assert (Hq : exists q, as_number (total_de_paginas (page 1)) = Some q).
  { unfold total_ok in Ht. pose proof (Hg 1 ltac:(lia)) as G.
    unfold good_page in G. apply andb_true_iff in G as [G _].
    apply negb_true_iff in G. rewrite G in Ht. simpl in Ht.
    destruct (as_number _); [eauto | discriminate]. }
  destruct Hq as [q Hq].
  assert (H1 : records (page 1) = [] ->
               py_eq (total_de_paginas (page 1)) (JInt 1) = false).
  { intros Hr. destruct (py_eq _ _) eqn:E; [|reflexivity]. exfalso.
    rewrite (py_eq_one _ q Hq) in E. apply Qeq_bool_iff in E.
    assert (En : n = 1%nat).
    { subst n. unfold page_bound. rewrite Hq, E.
      change 1%Q with (inject_Z 1). now rewrite Qfloor_Z. }
    subst names. rewrite En in H2. unfold directory_matches in H2.
    change (pages_upto 1) with [1] in H2. cbn [flat_map] in H2.
    fold page in H2. rewrite Hr in H2. simpl in H2. lia. }
  pose proof (paginate_names post h normalized a q fuel Hn Ha He Hq Hg H1 Hf)
    as Hp. fold page in Hp. fold n in Hp.
  assert (Htr : truthy (nome_fantasia h) = true)
    by (rewrite Ha; simpl; now rewrite He).
  pose proof (ambiguous_name_from_collected fuel post h normalized _ _
                Hno Hn Htr Hp H2) as R.
  rewrite Ha in R. exact R.
Qed.

Lemma ambiguous_name_counts_distinct_witness :
  let h := mkHints JNull (JStr "acme") JNull in
  let post :=
    Exemplos.servir
      [Exemplos.pagina 2 [Exemplos.cliente 1 "111" "ACME Norte";
                          Exemplos.cliente 2 "222" "Outra"];
       Exemplos.pagina 2 [Exemplos.cliente 3 "333" "Acme Sul";
                          Exemplos.cliente 4 "444" "ACME Norte"]]
      (JObj []) in
  encontrar_pedidos_cliente 5 post h
  = Some ([1; 2], Ok (Mensagem (MsgMultiplosNomes 2 (JStr "acme")))).
Proof.
  intros h post.
  apply (ambiguous_name_counts_distinct 5 post h None "acme").
  - reflexivity.
  - reflexivity.
  - reflexivity.
  - reflexivity.
  - reflexivity.
  - intros i Hi. change (page_bound (listar_clientes post h None 1)) with 2 in Hi.
    assert (E : i = 1 \/ i = 2) by lia. destruct E as [E|E]; rewrite E; reflexivity.
  - vm_compute. repeat constructor.
  - vm_compute. repeat constructor.
Defined.

(** * Further properties *)

(** ** RecordsClient: what the caller sees *)

(** X1: the caller of [call_omie_api] sees no error exactly when the
    request got a response that passed the status check, whose body
    decoded to an object with no truthy [faultstring], [faultcode] or
    [error]; the result is then that body, unchanged.  A transport
    failure, a rejected status, a body that is not JSON or not an object,
    and a fault in the body all come back as error objects. *)
Theorem call_omie_api_success_iff (post : api) (e c : string) (p : json) :
  is_error (call_omie_api post e c p) = false <->
  exists status text d,
    post e c p = Response status text (Some (JObj d)) /\
    fault_flag d = false /\ is_error (JObj d) = false /\
    call_omie_api post e c p = JObj d.
Proof.
  split.
  - unfold call_omie_api.
    destruct (post e c p) as [msg| |st tx|st tx [b|]] eqn:E; try discriminate.
    destruct b; try discriminate. rewrite check_fault_obj.
    destruct (fault_flag d) eqn:F; [discriminate|].
    intros H. exists st, tx, d. auto.
  - intros (st & tx & d & E & F & H & R). now rewrite R.
Qed.

Lemma call_omie_api_success_iff_witness :
  is_error
    (call_omie_api
       (Exemplos.constante (Exemplos.pagina 1 [Exemplos.cliente 1 "111" "Alfa"]))
       "/geral/clientes/" "ListarClientes" (JArr []))
  = false.
Proof.
  apply (proj2 (call_omie_api_success_iff
                  (Exemplos.constante
                     (Exemplos.pagina 1 [Exemplos.cliente 1 "111" "Alfa"]))
                  "/geral/clientes/" "ListarClientes" (JArr []))).
  exists 200, "", [("total_de_paginas", JInt 1);
                   ("clientes_cadastro", JArr [Exemplos.cliente 1 "111" "Alfa"])].
  repeat split.
Defined.

(** ** CustomerResolver: where each message comes from *)

Lemma cnpj_hit_has (normalized : option string) (s : string) :
  cnpj_hit normalized s = true -> has_cnpj normalized = true.
Proof.
  destruct normalized as [n|]; simpl; [|discriminate].
  intros H. now apply andb_true_iff in H.
Qed.

Lemma for_clientes_returns (h : hints) (normalized : option string)
    (l : list json) : forall st m,
  for_clientes h normalized l st = Ok (ForReturn m) ->
  m = MsgMultiplosCnpj (cnpj_cpf h) /\ has_cnpj normalized = true.
Proof.
  induction l as [|c l IH]; simpl; intros st m H; [discriminate|].
  bind_inv H. bind_inv H. bind_inv H.
  destruct (cnpj_hit normalized a0) eqn:Eh.
  - destruct (truthy (found_customer_details st)).
    + injection H as <-. split; [reflexivity|]. now apply cnpj_hit_has in Eh.
    + bind_inv H. discriminate.
  - destruct (truthy (nome_fantasia h) && negb (has_cnpj normalized)).
    + bind_inv H. bind_inv H. destruct (PyStr.contains a2 a3); eauto.
    + eauto.
Qed.

(** The three ways a turn of the loop returns from the function. *)
Lemma page_step_returns (h : hints) (normalized : option string)
    (st : scan_state) (r : json) (m : message) :
  page_step h normalized st r = Ok (StepReturn m) ->
  (is_error r = true /\ m = MsgErroBuscarCliente (current_page st) (message_de r))
  \/ (is_error r = false /\ m = MsgMultiplosCnpj (cnpj_cpf h)
      /\ has_cnpj normalized = true)
  \/ (is_error r = false /\ m = MsgNaoEncontradoPrimeiraPagina
      /\ current_page st = 1
      /\ truthy (clientes_cadastro_de r) = false
      /\ py_eq (total_de_paginas r) (JInt 1) = true).
Proof.
  unfold page_step, is_error, message_de, clientes_cadastro_de, total_de_paginas.
  intros H. destruct r; try discriminate H. simpl in *.
  destruct (truthy match dict_get "error" d with
                   | Some x => x | None => JNull end) eqn:Ee.
  - injection H as <-. auto.
  - right. simpl in H.
    set (t := if current_page st =? 1 then _ else _) in H.
    assert (Ht : exists v, t = Ok v /\
                 (current_page st = 1 ->
                  v = match dict_get "total_de_paginas" d with
                      | Some x => x | None => JInt 1 end)).
    { subst t. destruct (current_page st =? 1) eqn:E1; eexists; split;
        try reflexivity; auto. intros E. apply Z.eqb_neq in E1. contradiction. }
    destruct Ht as (v & Et & Hv). rewrite Et in H. simpl in H.
    bind_inv H. destruct a as [st2|m2].
    + assert (Hp : current_page st2 = current_page st /\ total_pages st2 = v).
      { destruct (truthy _) in Ha.
        - bind_inv Ha. now apply for_clientes_pages in Ha.
        - injection Ha as <-. auto. }
      destruct Hp as [Hc Htp].
      destruct (truthy _ && truthy (customer_id st2)); [discriminate|].
      destruct (negb _ && (current_page st2 =? 1) && _) eqn:E3.
      * injection H as <-. right.
        apply andb_true_iff in E3 as [E3 E5].
        apply andb_true_iff in E3 as [E3 E4].
        apply negb_true_iff in E3. apply Z.eqb_eq in E4.
        rewrite Hc in E4. rewrite Htp, (Hv E4) in E5. auto.
      * bind_inv H. discriminate.
    + injection H as <-. left.
      destruct (truthy _) in Ha; [|discriminate].
      bind_inv Ha. apply for_clientes_returns in Ha. tauto.
Qed.

Lemma last_nonempty (l : list Z) (a d : Z) :
  l <> [] -> last (a :: l) d = last l d.
Proof. destruct l; [congruence | reflexivity]. Qed.

(** A return from inside the loop happens on the last page requested. *)
Lemma paginate_returns (post : api) (h : hints) (normalized : option string)
    (fuel : nat) : forall st ps m,
  paginate fuel post h normalized st = Some (ps, ScanReturn m) ->
  ps <> [] /\
  let p := last ps 0 in
  let r := listar_clientes post h normalized p in
  (is_error r = true /\ m = MsgErroBuscarCliente p (message_de r))
  \/ (is_error r = false /\ m = MsgMultiplosCnpj (cnpj_cpf h)
      /\ has_cnpj normalized = true)
  \/ (is_error r = false /\ m = MsgNaoEncontradoPrimeiraPagina
      /\ p = 1
      /\ truthy (clientes_cadastro_de r) = false
      /\ py_eq (total_de_paginas r) (JInt 1) = true).
Proof.
  induction fuel as [|fuel IH]; intros st ps m H; [discriminate|].
  simpl in H.
  destruct (int_le (current_page st) (total_pages st)) as [[|]|]; try discriminate.
  destruct (truthy (customer_id st)); [discriminate|].
  destruct (page_step h normalized st
              (listar_clientes post h normalized (current_page st)))
    as [[st'|st'|m']|e] eqn:E; try discriminate.
  - destruct (paginate fuel post h normalized st') as [[ps' o']|] eqn:E';
      [|discriminate].
    injection H as <- ->. apply IH in E' as [Hne Hl].
    split; [discriminate|]. now rewrite (last_nonempty _ _ _ Hne).
  - injection H as <- <-. split; [discriminate|]. simpl.
    now apply page_step_returns in E.
Qed.

Lemma last_pages_upto (n : nat) : last (pages_upto (S n)) 0 = Z.of_nat (S n).
Proof.
  unfold pages_upto. rewrite seq_S, map_app. simpl List.map at 2.
  now rewrite last_last.
Qed.

(** The pages requested by a search are [1 .. n] for some [n] that the
    first page's count allows. *)
Lemma paginate_pages (post : api) (h : hints) (normalized : option string)
    (fuel : nat) (ps : list Z) (o : scan_outcome) :
  paginate fuel post h normalized scan_init = Some (ps, o) ->
  exists n, ps = pages_upto (S n) /\
    Z.of_nat (S n) <= page_bound (listar_clientes post h normalized 1).
Proof.
  intros H. pose proof (paginate_consecutive _ _ _ _ _ _ _ H) as Hc.
  pose proof (paginate_page_bound _ _ _ _ _ _ H) as (H1 & H2 & _).
  simpl in Hc. rewrite pages_upto_consecutive in Hc.
  destruct (List.length ps) as [|n]; [lia|]. exists n. now split.
Qed.

(** The messages of the steps after the loop. *)
Lemma unique_names_from_nonempty (l : list json) : forall acc u,
  unique_names_from acc l = Ok u -> (acc <> [] \/ l <> []) -> u <> [].
Proof.
  induction l as [|m l IH]; simpl; intros acc u H Hn.
  - injection H as <-. destruct Hn; congruence.
  - bind_inv H. destruct (hashable a); [|discriminate].
    apply IH in H; [assumption|]. left.
    destruct acc as [|[k v] acc]; simpl; [discriminate|].
    destruct (py_eq a k); discriminate.
Qed.

Lemma by_name_message (h : hints) (st : scan_state) (m : message) :
  by_name h st = Ok (inl m) ->
  exists k, m = MsgMultiplosNomes k (nome_fantasia h) /\ (2 <= k)%nat /\
    truthy (customer_id st) = false /\
    (2 <= List.length (possible_matches_by_name st))%nat.
Proof.
  unfold by_name. destruct (truthy (customer_id st)); [discriminate|].
  destruct (possible_matches_by_name st) as [|m1 [|m2 ms]] eqn:Em;
    simpl; try discriminate.
  - intros H. bind_inv H. discriminate.
  - intros H. bind_inv H.
    destruct a as [|[k1 v1] [|kv2 u]].
    + apply unique_names_from_nonempty in Ha; [contradiction|].
      right. discriminate.
    + bind_inv H. discriminate.
    + injection H as <-. eexists. split; [reflexivity|]. simpl. repeat split; lia.
Qed.

Lemma validate_found_falha (h : hints) (st : scan_state) (m : message) :
  validate_found h st = Ok (Falha m) ->
  m = MsgNaoEncontrado \/
  exists k, m = MsgMultiplosNomes k (nome_fantasia h) /\ (2 <= k)%nat /\
    truthy (customer_id st) = false /\
    (2 <= List.length (possible_matches_by_name st))%nat.
Proof.
  unfold validate_found. intros H. bind_inv H. destruct a as [m'|st'].
  - injection H as <-. right. now apply by_name_message.
  - destruct (_ || _); [|discriminate]. injection H as <-. now left.
Qed.

Lemma validate_found_resolvido (h : hints) (st : scan_state) (id rec : json) :
  validate_found h st = Ok (Resolvido id rec) ->
  truthy id = true /\ truthy rec = true.
Proof.
  unfold validate_found. intros H. bind_inv H. destruct a as [m'|st'];
    [discriminate|].
  destruct (truthy (customer_id st')) eqn:E1; [|discriminate].
  destruct (truthy (found_customer_details st')) eqn:E2; [|discriminate].
  simpl in H. injection H as <- <-. auto.
Qed.

(** A customer id found in the loop comes with its record. *)
Lemma for_clientes_found (h : hints) (normalized : option string)
    (l : list json) : forall st st',
  (truthy (customer_id st) = true -> truthy (found_customer_details st) = true) ->
  for_clientes h normalized l st = Ok (ForDone st') ->
  truthy (customer_id st') = true -> truthy (found_customer_details st') = true.
Proof.
  induction l as [|c l IH]; simpl; intros st st' Hi H.
  - now injection H as <-.
  - bind_inv H. bind_inv H. bind_inv H.
    destruct (cnpj_hit normalized a0) eqn:Eh.
    + destruct (truthy (found_customer_details st)); [discriminate|].
      bind_inv H. injection H as <-. simpl. intros _.
      apply (hit_record_truthy normalized c a0); [|assumption].
      unfold api_cnpj_cpf. now rewrite Ha.
    + destruct (truthy (nome_fantasia h) && negb (has_cnpj normalized)).
      * bind_inv H. bind_inv H.
        destruct (PyStr.contains a2 a3); (eapply IH; [|exact H]); exact Hi.
      * eapply IH; [|exact H]. exact Hi.
Qed.

Lemma page_step_found (h : hints) (normalized : option string)
    (st : scan_state) (r : json) (o : step_outcome) :
  (truthy (customer_id st) = true -> truthy (found_customer_details st) = true) ->
  page_step h normalized st r = Ok o ->
  forall st', o = StepNext st' \/ o = StepBreak st' ->
  truthy (customer_id st') = true -> truthy (found_customer_details st') = true.
Proof.
  unfold page_step. intros Hi H. bind_inv H.
  destruct (truthy a).
  { bind_inv H. injection H as <-. intros st' [E|E]; discriminate E. }
  bind_inv H. bind_inv H. bind_inv H.
  destruct a2 as [st2|m]; [|injection H as <-; intros st' [E|E]; discriminate E].
  assert (Hi2 : truthy (customer_id st2) = true ->
                truthy (found_customer_details st2) = true).
  { destruct (truthy a1).
    - bind_inv Ha2. eapply for_clientes_found; [|exact Ha2]. exact Hi.
    - injection Ha2 as <-. exact Hi. }
  destruct (truthy a1 && truthy (customer_id st2)).
  { injection H as <-. intros st' [E|E]; [discriminate E|].
    now injection E as <-. }
  destruct (negb _ && _ && _).
  { injection H as <-. intros st' [E|E]; discriminate E. }
  bind_inv H. injection H as <-. intros st' [E|E]; [|discriminate E].
  injection E as <-. exact Hi2.
Qed.

Lemma paginate_found (post : api) (h : hints) (normalized : option string)
    (fuel : nat) : forall st ps st',
  (truthy (customer_id st) = true -> truthy (found_customer_details st) = true) ->
  paginate fuel post h normalized st = Some (ps, ScanDone st') ->
  truthy (customer_id st') = true -> truthy (found_customer_details st') = true.
Proof.
  induction fuel as [|fuel IH]; intros st ps st' Hi H; [discriminate|].
  simpl in H.
  destruct (int_le (current_page st) (total_pages st)) as [[|]|];
    [|injection H as <- <-; exact Hi|discriminate].
  destruct (truthy (customer_id st)) eqn:Ec.
  { injection H as <- <-. intros _. now apply Hi. }
  assert (Hi' : truthy (customer_id st) = true ->
                truthy (found_customer_details st) = true).
  { rewrite Ec. discriminate. }
  destruct (page_step h normalized st
              (listar_clientes post h normalized (current_page st)))
    as [[st2|st2|m']|e] eqn:E; try discriminate.
  - destruct (paginate fuel post h normalized st2) as [[ps' o']|] eqn:E';
      [|discriminate].
    injection H as <- ->. eapply IH; [|exact E'].
    eapply page_step_found; eauto.
  - injection H as <- <-. eapply page_step_found; eauto.
Qed.

(** ** OrderRetriever: what is returned *)

Lemma mapM_length {A B : Type} (f : A -> result B) (l : list A) :
  forall r, mapM f l = Ok r -> List.length r = List.length l.
Proof.
  induction l as [|x l IH]; simpl; intros r H.
  - now injection H as <-.
  - bind_inv H. bind_inv H. injection H as <-. simpl. f_equal. now apply IH.
Qed.

(** The processing of a truthy order list succeeds only on a list. *)
Lemma processar_pedidos_ok (customer_id v : json) (r : retorno) :
  truthy v = true ->
  processar_pedidos customer_id v = Ok r ->
  exists up srt l,
    v = JArr up /\ pedidos_ordenados (JArr up) = JArr srt /\
    Permutation up srt /\
    mapM formatar_pedido (firstn 3 srt) = Ok l /\
    r = Pedidos l /\ List.length l = Nat.min 3 (List.length up) /\
    (1 <= List.length l <= 3)%nat.
Proof.
  intros Hv H. destruct v as [| | | |s|up|d]; try discriminate.
  - destruct s as [|c s]; [discriminate|]. cbv in H. discriminate.
  - assert (Hs : exists srt, pedidos_ordenados (JArr up) = JArr srt /\
                             Permutation up srt).
    { unfold pedidos_ordenados.
      destruct (sorted_by_numero_pedido (JArr up)) as [l'|e] eqn:E.
      - exists l'. split; [reflexivity|]. now apply sorted_by_numero_pedido_perm.
      - exists up. split; [reflexivity|]. apply Permutation_refl. }
    destruct Hs as (srt & Es & Hp).
    unfold processar_pedidos in H. rewrite Es in H.
    cbn [py_slice3 py_iter bind] in H. bind_inv H. pose proof (mapM_length _ _ _ Ha) as Hl.
    rewrite length_firstn, <- (Permutation_length Hp) in Hl.
    assert (Hup : (1 <= List.length up)%nat).
    { destruct up; [discriminate|]. simpl. lia. }
    assert (Hr : r = Pedidos a).
    { destruct a; [exfalso; cbn [List.length] in Hl; lia|]. now injection H as <-. }
    exists up, srt, a. repeat split; auto; lia.
  - destruct d as [|[k x] d]; [discriminate|]. cbv in H. discriminate.
Qed.

(** The three ways the orders step answers. *)
Lemma encontrar_pedidos_ok (post : api) (customer_id : json) (r : retorno) :
  encontrar_pedidos post customer_id = Ok r ->
  let resp := listar_pedidos post customer_id in
  (is_error resp = true /\ r = Mensagem (MsgErroBuscarPedidos (message_de resp)))
  \/ (is_error resp = false /\ truthy (pedido_venda_produto_de resp) = false
      /\ r = Mensagem (MsgNenhumPedido customer_id))
  \/ (is_error resp = false /\
      exists up srt l,
        pedido_venda_produto_de resp = JArr up /\
        pedidos_ordenados (JArr up) = JArr srt /\ Permutation up srt /\
        mapM formatar_pedido (firstn 3 srt) = Ok l /\
        r = Pedidos l /\ List.length l = Nat.min 3 (List.length up) /\
        (1 <= List.length l <= 3)%nat).
Proof.
  unfold encontrar_pedidos, listar_pedidos. cbv zeta.
  destruct (call_omie_api_dict post "/produtos/pedido/" "ListarPedidos"
              (listar_pedidos_params customer_id)) as [d ->].
  unfold is_error, message_de, pedido_venda_produto_de. simpl.
  destruct (truthy match dict_get "error" d with
                   | Some x => x | None => JNull end).
  - intros H. injection H as <-. auto.
  - destruct (truthy match dict_get "pedido_venda_produto" d with
                     | Some x => x | None => JNull end) eqn:Et; simpl.
    + intros H. right. right. split; [reflexivity|].
      destruct (processar_pedidos_ok _ _ _ Et H) as (up & srt & l & E & R).
      exists up, srt, l. tauto.
    + intros H. injection H as <-. auto.
Qed.

(** ** The first tool: the ways it answers *)

Lemma encontrar_pedidos_cliente_cases (fuel : nat) (post : api) (h : hints)
    (ps : list Z) (r : retorno) :
  encontrar_pedidos_cliente fuel post h = Some (ps, Ok r) ->
  (no_hint h = true /\ ps = [] /\ r = Mensagem MsgSemParametro) \/
  (no_hint h = false /\
   exists normalized,
     normalize_input (cnpj_cpf h) = Ok normalized /\
     ((exists m, paginate fuel post h normalized scan_init
                 = Some (ps, ScanReturn m) /\ r = Mensagem m) \/
      (exists st, paginate fuel post h normalized scan_init
                  = Some (ps, ScanDone st) /\
         ((exists m, validate_found h st = Ok (Falha m) /\ r = Mensagem m) \/
          (exists id rec, validate_found h st = Ok (Resolvido id rec) /\
                          encontrar_pedidos post id = Ok r))))).
Proof.
  unfold encontrar_pedidos_cliente, encontrar_id_cliente.
  fold (no_hint h). intros H. destruct (no_hint h).
  - injection H as <- <-. auto.
  - right. split; [reflexivity|].
    destruct (normalize_input (cnpj_cpf h)) as [normalized|e]; [|discriminate].
    exists normalized. split; [reflexivity|].
    destruct (paginate fuel post h normalized scan_init) as [[ps' [st|m|e]]|];
      try discriminate.
    + destruct (validate_found h st) as [[id rec|m]|e] eqn:Ev; try discriminate.
      * injection H as <- Hr. right. exists st. split; [reflexivity|].
        right. exists id, rec. auto.
      * injection H as <- <-. right. exists st. split; [reflexivity|].
        left. eauto.
    + injection H as <- <-. left. eauto.
Qed.

Lemma validate_found_of_id (h : hints) (st : scan_state) :
  truthy (customer_id st) = true ->
  truthy (found_customer_details st) = true ->
  validate_found h st
  = Ok (Resolvido (customer_id st) (found_customer_details st)).
Proof.
  intros H1 H2. unfold validate_found, by_name. rewrite H1. simpl.
  now rewrite H1, H2.
Qed.

(** A search that ends without a customer id has requested every page
    the first page announced. *)
Lemma paginate_all_pages (post : api) (h : hints) (normalized : option string)
    (fuel : nat) (ps : list Z) (st : scan_state) :
  paginate fuel post h normalized scan_init = Some (ps, ScanDone st) ->
  truthy (customer_id st) = false ->
  ps = pages_upto (Z.to_nat (page_bound (listar_clientes post h normalized 1))).
Proof.
  intros H Hc. pose proof (paginate_consecutive _ _ _ _ _ _ _ H) as Hp.
  pose proof (paginate_page_bound _ _ _ _ _ _ H) as (_ & _ & H3).
  specialize (H3 st eq_refl Hc). simpl in Hp.
  rewrite pages_upto_consecutive in Hp. rewrite <- H3. rewrite Nat2Z.id. exact Hp.
Qed.

(** X2: the tool answers that a parameter is missing exactly when none
    of the three hints is truthy (absent, null or empty), and it then
    makes no request to the records API. *)
Theorem missing_hints_iff (fuel : nat) (post : api) (h : hints) (ps : list Z) :
  encontrar_pedidos_cliente fuel post h
  = Some (ps, Ok (Mensagem MsgSemParametro))
  <-> no_hint h = true /\ ps = [].
Proof.
  split.
  - intros H. apply encontrar_pedidos_cliente_cases in H
      as [(Hn & Hp & _)|(_ & normalized & _ & [(m & Hm & E)
            |(st & _ & [(m & Hv & E)|(id & rec & _ & He)])])].
    + auto.
    + injection E as <-. apply paginate_returns in Hm as (_ & [(_ & X)|[(_ & X & _)|(_ & X & _)]]);
        discriminate X.
    + injection E as <-. apply validate_found_falha in Hv as [X|(k & X & _)];
        discriminate X.
    + apply encontrar_pedidos_ok in He
        as [(_ & X)|[(_ & _ & X)
            |(_ & up & srt & l & _ & _ & _ & _ & X & _)]];
        discriminate X.
  - intros (Hn & ->). unfold encontrar_pedidos_cliente. fold (no_hint h).
    now rewrite Hn.
Qed.

Lemma missing_hints_iff_witness :
  encontrar_pedidos_cliente 0 (Exemplos.fora_do_ar "sem rede")
    (mkHints JNull (JStr "") JNull)
  = Some ([], Ok (Mensagem MsgSemParametro)).
Proof.
  apply (proj2 (missing_hints_iff 0 (Exemplos.fora_do_ar "sem rede")
                  (mkHints JNull (JStr "") JNull) [])).
  split; reflexivity.
Defined.

(** X3: when the tool reports an error of the customer search, the page
    number in the message is the last page it requested, the pages
    before it were requested in order from 1, the response to that page
    is an error object, and the detail in the message is that object's
    [message]. *)
Theorem directory_error_names_failing_page (fuel : nat) (post : api)
    (h : hints) (ps : list Z) (p : Z) (msg : json) :
  encontrar_pedidos_cliente fuel post h
  = Some (ps, Ok (Mensagem (MsgErroBuscarCliente p msg))) ->
  exists normalized,
    normalize_input (cnpj_cpf h) = Ok normalized /\
    1 <= p <= page_bound (listar_clientes post h normalized 1) /\
    ps = pages_upto (Z.to_nat p) /\
    is_error (listar_clientes post h normalized p) = true /\
    msg = message_de (listar_clientes post h normalized p).
Proof.
  intros H. apply encontrar_pedidos_cliente_cases in H
    as [(_ & _ & X)|(_ & normalized & Hn & [(m & Hm & E)
          |(st & _ & [(m & Hv & E)|(id & rec & _ & He)])])].
  - discriminate X.
  - injection E as <-. exists normalized. split; [assumption|].
    destruct (paginate_pages _ _ _ _ _ _ Hm) as (n & -> & Hb).
    apply paginate_returns in Hm as (_ & Hm). cbv zeta in Hm.
    rewrite last_pages_upto in Hm.
    destruct Hm as [(He & X)|[(_ & X & _)|(_ & X & _)]]; try discriminate X.
    injection X as Xp Xm.
    change (Z.pos (Pos.of_succ_nat n)) with (Z.of_nat (S n)) in *.
    subst p msg. rewrite Nat2Z.id. repeat split; auto; lia.
  - injection E as <-. apply validate_found_falha in Hv as [X|(k & X & _)];
      discriminate X.
  - apply encontrar_pedidos_ok in He
      as [(_ & X)|[(_ & _ & X)
          |(_ & up & srt & l & _ & _ & _ & _ & X & _)]];
      discriminate X.
Qed.

Lemma directory_error_names_failing_page_witness :
  exists normalized,
    normalize_input (JStr "111") = Ok normalized /\
    1 <= 1 <= page_bound
               (listar_clientes (Exemplos.fora_do_ar "sem rede")
                  (mkHints (JStr "111") JNull JNull) normalized 1) /\
    [1] = pages_upto (Z.to_nat 1) /\
    is_error (listar_clientes (Exemplos.fora_do_ar "sem rede")
                (mkHints (JStr "111") JNull JNull) normalized 1) = true /\
    JStr "sem rede"
    = message_de (listar_clientes (Exemplos.fora_do_ar "sem rede")
                    (mkHints (JStr "111") JNull JNull) normalized 1).
Proof.
  apply (directory_error_names_failing_page 2 (Exemplos.fora_do_ar "sem rede")
           (mkHints (JStr "111") JNull JNull) [1] 1 (JStr "sem rede")).
  reflexivity.
Defined.

Lemma page_step_empty_first (h : hints) (normalized : option string) (r : json) :
  is_error r = false ->
  truthy (clientes_cadastro_de r) = false ->
  py_eq (total_de_paginas r) (JInt 1) = true ->
  (exists d, r = JObj d) ->
  page_step h normalized scan_init r
  = Ok (StepReturn MsgNaoEncontradoPrimeiraPagina).
Proof.
  intros He Hc Ht [d ->].
  unfold is_error, clientes_cadastro_de, total_de_paginas in *. simpl in *.
  unfold page_step. simpl. rewrite He. simpl. rewrite Hc. simpl.
  now rewrite Ht.
Qed.

(** X4: with at least one hint, the tool answers that no customer was
    found on the first page exactly when the first page arrives without
    error, its [clientes_cadastro] is absent, null or empty, and the page
    count it announces equals 1 (or is absent); one request is then made. *)
Theorem empty_first_page_iff (fuel : nat) (post : api) (h : hints)
    (normalized : option string) (ps : list Z) :
  no_hint h = false ->
  normalize_input (cnpj_cpf h) = Ok normalized ->
  let r := listar_clientes post h normalized 1 in
  encontrar_pedidos_cliente (S fuel) post h
  = Some (ps, Ok (Mensagem MsgNaoEncontradoPrimeiraPagina))
  <-> ps = [1] /\ is_error r = false /\
      truthy (clientes_cadastro_de r) = false /\
      py_eq (total_de_paginas r) (JInt 1) = true.
Proof.
  intros Hh Hn r. split.
  - intros H. apply encontrar_pedidos_cliente_cases in H
      as [(_ & _ & X)|(_ & normalized' & Hn' & [(m & Hm & E)
            |(st & _ & [(m & Hv & E)|(id & rec & _ & He)])])].
    + discriminate X.
    + injection E as <-. rewrite Hn in Hn'. injection Hn' as <-.
      destruct (paginate_pages _ _ _ _ _ _ Hm) as (n & -> & Hb).
      apply paginate_returns in Hm as (_ & Hm). cbv zeta in Hm.
      rewrite last_pages_upto in Hm.
      destruct Hm as [(_ & X)|[(_ & X & _)|(He & _ & Hp & Hc & Ht)]];
        try discriminate X.
      assert (n = 0%nat) as -> by lia.
      change (Z.of_nat 1) with 1 in *. auto.
    + injection E as <-. apply validate_found_falha in Hv as [X|(k & X & _)];
        discriminate X.
    + apply encontrar_pedidos_ok in He
        as [(_ & X)|[(_ & _ & X)
            |(_ & up & srt & l & _ & _ & _ & _ & X & _)]];
        discriminate X.
  - intros (-> & He & Hc & Ht).
    unfold encontrar_pedidos_cliente, encontrar_id_cliente. fold (no_hint h).
    rewrite Hh, Hn. simpl.
    change (current_page scan_init) with 1.
    change (mkScan 1 (JInt 1) JNull JNull []) with scan_init.
    fold r. rewrite (page_step_empty_first h normalized r He Hc Ht
                       (call_omie_api_dict _ _ _ _)).
    reflexivity.
Qed.

Lemma empty_first_page_iff_witness :
  encontrar_pedidos_cliente 1 (Exemplos.constante (Exemplos.pagina 1 []))
    (mkHints JNull (JStr "Alfa") JNull)
  = Some ([1], Ok (Mensagem MsgNaoEncontradoPrimeiraPagina)).
Proof.
  apply (proj2 (empty_first_page_iff 0 (Exemplos.constante (Exemplos.pagina 1 []))
                  (mkHints JNull (JStr "Alfa") JNull) None [1]
                  eq_refl eq_refl)).
  repeat split.
Defined.

(** X5: the orders the tool returns are between one and three, as many
    as the customer has up to three; they are the formatted first three
    of a reordering of the list the records API sent for a truthy
    customer id. *)
Theorem returned_orders (fuel : nat) (post : api) (h : hints) (ps : list Z)
    (l : list json) :
  encontrar_pedidos_cliente fuel post h = Some (ps, Ok (Pedidos l)) ->
  exists id up srt,
    truthy id = true /\
    pedido_venda_produto_de (listar_pedidos post id) = JArr up /\
    pedidos_ordenados (JArr up) = JArr srt /\ Permutation up srt /\
    mapM formatar_pedido (firstn 3 srt) = Ok l /\
    List.length l = Nat.min 3 (List.length up) /\
    (1 <= List.length l <= 3)%nat.
Proof.
  intros H. apply encontrar_pedidos_cliente_cases in H
    as [(_ & _ & X)|(_ & normalized & Hn & [(m & Hm & E)
          |(st & _ & [(m & Hv & E)|(id & rec & Hv & He)])])];
    try discriminate.
  apply validate_found_resolvido in Hv as [Hid _].
  apply encontrar_pedidos_ok in He
    as [(_ & X)|[(_ & _ & X)|(_ & up & srt & l' & E1 & E2 & E3 & E4 & X & E5 & E6)]];
    try discriminate X.
  injection X as ->. exists id, up, srt. tauto.
Qed.

Lemma returned_orders_witness :
  exists id up srt,
    truthy id = true /\
    pedido_venda_produto_de
      (listar_pedidos
         (Exemplos.servir
            [Exemplos.pagina 1 [Exemplos.cliente 7 "111" "Alfa"]]
            (Exemplos.pedidos
               [Exemplos.pedido "1"; Exemplos.pedido "4"; Exemplos.pedido "2";
                Exemplos.pedido "3"])) id) = JArr up /\
    pedidos_ordenados (JArr up) = JArr srt /\ Permutation up srt /\
    mapM formatar_pedido (firstn 3 srt)
    = Ok [Exemplos.formatado "4"; Exemplos.formatado "3";
          Exemplos.formatado "2"] /\
    List.length [Exemplos.formatado "4"; Exemplos.formatado "3";
                 Exemplos.formatado "2"] = Nat.min 3 (List.length up) /\
    (1 <= List.length [Exemplos.formatado "4"; Exemplos.formatado "3";
                       Exemplos.formatado "2"] <= 3)%nat.
Proof.
  apply (returned_orders 2
           (Exemplos.servir
              [Exemplos.pagina 1 [Exemplos.cliente 7 "111" "Alfa"]]
              (Exemplos.pedidos
                 [Exemplos.pedido "1"; Exemplos.pedido "4"; Exemplos.pedido "2";
                  Exemplos.pedido "3"]))
           (mkHints (JStr "111") JNull JNull) [1]).
  vm_compute. reflexivity.
Defined.

(** X6: the tool never answers that no order was processed: the
    formatting loop runs over a list that is not empty, so the test of
    lines 279-280 cannot succeed. *)
Theorem none_processed_unreachable (fuel : nat) (post : api) (h : hints)
    (ps : list Z) (id : json) :
  encontrar_pedidos_cliente fuel post h
  <> Some (ps, Ok (Mensagem (MsgNenhumProcessado id))).
Proof.
  intros H. apply encontrar_pedidos_cliente_cases in H
    as [(_ & _ & X)|(_ & normalized & _ & [(m & Hm & E)
          |(st & _ & [(m & Hv & E)|(id' & rec & _ & He)])])].
  - discriminate X.
  - injection E as <-. apply paginate_returns in Hm as (_ & [(_ & X)|[(_ & X & _)|(_ & X & _)]]);
      discriminate X.
  - injection E as <-. apply validate_found_falha in Hv as [X|(k & X & _)];
      discriminate X.
  - apply encontrar_pedidos_ok in He
      as [(_ & X)|[(_ & _ & X)
          |(_ & up & srt & l & _ & _ & _ & _ & X & _)]];
      discriminate X.
Qed.

(** X7: the tool answers that the customer was not found, or that
    several names match, only after it has requested every page the
    first page announced; the several-names message quotes the name hint
    as given and counts at least two names. *)
Theorem not_found_after_all_pages (fuel : nat) (post : api) (h : hints)
    (ps : list Z) (m : message) :
  encontrar_pedidos_cliente fuel post h = Some (ps, Ok (Mensagem m)) ->
  m = MsgNaoEncontrado \/ (exists k n, m = MsgMultiplosNomes k n) ->
  exists normalized,
    normalize_input (cnpj_cpf h) = Ok normalized /\
    ps = pages_upto
           (Z.to_nat (page_bound (listar_clientes post h normalized 1))) /\
    (forall k n, m = MsgMultiplosNomes k n ->
       n = nome_fantasia h /\ (2 <= k)%nat).
Proof.
  intros H Hm. apply encontrar_pedidos_cliente_cases in H
    as [(_ & _ & X)|(_ & normalized & Hn & [(m' & Hp & E)
          |(st & Hp & [(m' & Hv & E)|(id' & rec & _ & He)])])].
  - injection X as X. subst m. destruct Hm as [X|(k & n & X)]; discriminate X.
  - injection E as E. subst m'.
    apply paginate_returns in Hp as (_ & [(_ & X)|[(_ & X & _)|(_ & X & _)]]);
      subst m; destruct Hm as [X|(k & n & X)]; discriminate X.
  - injection E as E. subst m'. exists normalized. split; [assumption|].
    assert (Hc : truthy (customer_id st) = false).
    { destruct (truthy (customer_id st)) eqn:Ec; [|reflexivity].
      assert (Hf : truthy (found_customer_details st) = true).
      { apply (paginate_found post h normalized fuel scan_init ps st);
          [discriminate|assumption|assumption]. }
      rewrite (validate_found_of_id h st Ec Hf) in Hv. discriminate Hv. }
    split; [now apply (paginate_all_pages post h normalized fuel ps st)|].
    intros k n ->. apply validate_found_falha in Hv as [X|(k' & X & Hk & _)];
      [discriminate X|]. injection X as -> ->. auto.
  - apply encontrar_pedidos_ok in He
      as [(_ & X)|[(_ & _ & X)
          |(_ & up & srt & l & _ & _ & _ & _ & X & _)]];
      try discriminate X; injection X as X; subst m;
      destruct Hm as [X|(k & n & X)]; discriminate X.
Qed.

Lemma not_found_after_all_pages_witness :
  exists normalized,
    normalize_input JNull = Ok normalized /\
    [1; 2]
    = pages_upto
        (Z.to_nat
           (page_bound
              (listar_clientes
                 (Exemplos.constante
                    (Exemplos.pagina 2 [Exemplos.cliente 7 "111" "Alfa"]))
                 (mkHints JNull (JStr "Zeta") JNull) normalized 1))) /\
    (forall k n, MsgNaoEncontrado = MsgMultiplosNomes k n ->
       n = JStr "Zeta" /\ (2 <= k)%nat).
Proof.
  apply (not_found_after_all_pages 3
           (Exemplos.constante
              (Exemplos.pagina 2 [Exemplos.cliente 7 "111" "Alfa"]))
           (mkHints JNull (JStr "Zeta") JNull) [1; 2] MsgNaoEncontrado).
  - vm_compute. reflexivity.
  - left. reflexivity.
Defined.

(** ** CustomerResolver: which hint is used *)

Section SameSearch.

(** Two searches that test the tax id alike, send the same filter, and
    agree on the hint they quote or match with. *)
Variables (h1 h2 : hints) (n1 n2 : option string).
Hypothesis same_hit : forall s, cnpj_hit n1 s = cnpj_hit n2 s.
Hypothesis same_mode : has_cnpj n1 = has_cnpj n2.
Hypothesis same_tax : has_cnpj n1 = true -> cnpj_cpf h1 = cnpj_cpf h2.
Hypothesis same_name : has_cnpj n1 = false -> nome_fantasia h1 = nome_fantasia h2.
Hypothesis same_filter : cliente_filter h1 n1 = cliente_filter h2 n2.

Lemma for_clientes_ext (l : list json) : forall st,
  for_clientes h1 n1 l st = for_clientes h2 n2 l st.
Proof.
  induction l as [|c l IH]; intros st; [reflexivity|].
  simpl. destruct (py_get c "cnpj_cpf" (JStr "")) as [v|]; [|reflexivity].
  simpl. destruct (digits_of v) as [s|]; [|reflexivity].
  simpl. destruct (py_get c "nome_fantasia" (JStr "")) as [nm|]; [|reflexivity].
  simpl. rewrite <- same_hit, <- same_mode.
  destruct (cnpj_hit n1 s) eqn:E.
  - now rewrite (same_tax (cnpj_hit_has _ _ E)).
  - destruct (has_cnpj n1) eqn:E1.
    + simpl. rewrite !andb_false_r. apply IH.
    + rewrite (same_name eq_refl).
      destruct (truthy (nome_fantasia h2)); simpl; [|apply IH].
      destruct (py_lower (nome_fantasia h2)); [|reflexivity]. simpl.
      destruct (py_lower nm); [|reflexivity]. simpl.
      destruct (PyStr.contains _ _); apply IH.
Qed.

Lemma page_step_ext (st : scan_state) (r : json) :
  page_step h1 n1 st r = page_step h2 n2 st r.
Proof.
  unfold page_step.
  destruct (py_get r "error" JNull) as [err|]; [|reflexivity]. simpl.
  destruct (truthy err); [reflexivity|].
  destruct (if current_page st =? 1 then _ else _) as [t|]; [|reflexivity].
  simpl. destruct (py_get r "clientes_cadastro" JNull) as [cl|]; [|reflexivity].
  simpl. destruct (truthy cl); [|reflexivity].
  destruct (py_iter cl) as [l|]; [|reflexivity]. simpl.
  now rewrite for_clientes_ext.
Qed.

Lemma paginate_ext (post : api) (fuel : nat) : forall st,
  paginate fuel post h1 n1 st = paginate fuel post h2 n2 st.
Proof.
  induction fuel as [|fuel IH]; intros st; [reflexivity|].
  simpl. unfold listar_clientes. rewrite same_filter, page_step_ext.
  destruct (int_le _ _) as [[|]|]; try reflexivity.
  destruct (truthy (customer_id st)); [reflexivity|].
  destruct (page_step h2 n2 st _) as [[st'|st'|m]|e]; try reflexivity.
  now rewrite IH.
Qed.

End SameSearch.

(** A search by tax id collects no name match. *)
Lemma for_clientes_tax_matches (h : hints) (normalized : option string)
    (l : list json) : forall st st',
  has_cnpj normalized = true ->
  for_clientes h normalized l st = Ok (ForDone st') ->
  possible_matches_by_name st' = possible_matches_by_name st.
Proof.
  induction l as [|c l IH]; simpl; intros st st' Hc H.
  - now injection H as <-.
  - bind_inv H. bind_inv H. bind_inv H.
    destruct (cnpj_hit normalized a0).
    + destruct (truthy (found_customer_details st)); [discriminate|].
      bind_inv H. now injection H as <-.
    + rewrite Hc in H. simpl in H. rewrite andb_false_r in H. eauto.
Qed.

Lemma page_step_tax_matches (h : hints) (normalized : option string)
    (st : scan_state) (r : json) (o : step_outcome) :
  has_cnpj normalized = true ->
  page_step h normalized st r = Ok o ->
  forall st', o = StepNext st' \/ o = StepBreak st' ->
  possible_matches_by_name st' = possible_matches_by_name st.
Proof.
  unfold page_step. intros Hc H. bind_inv H.
  destruct (truthy a).
  { bind_inv H. injection H as <-. intros st' [E|E]; discriminate E. }
  bind_inv H. bind_inv H. bind_inv H.
  destruct a2 as [st2|m]; [|injection H as <-; intros st' [E|E]; discriminate E].
  assert (Hi2 : possible_matches_by_name st2 = possible_matches_by_name st).
  { destruct (truthy a1).
    - bind_inv Ha2. now apply for_clientes_tax_matches in Ha2.
    - now injection Ha2 as <-. }
  destruct (truthy a1 && truthy (customer_id st2)).
  { injection H as <-. intros st' [E|E]; [discriminate E|].
    now injection E as <-. }
  destruct (negb _ && _ && _).
  { injection H as <-. intros st' [E|E]; discriminate E. }
  bind_inv H. injection H as <-. intros st' [E|E]; [|discriminate E].
  now injection E as <-.
Qed.

Lemma paginate_tax_matches (post : api) (h : hints)
    (normalized : option string) (fuel : nat) : forall st ps st',
  has_cnpj normalized = true ->
  paginate fuel post h normalized st = Some (ps, ScanDone st') ->
  possible_matches_by_name st' = possible_matches_by_name st.
Proof.
  induction fuel as [|fuel IH]; intros st ps st' Hc H; [discriminate|].
  simpl in H.
  destruct (int_le (current_page st) (total_pages st)) as [[|]|];
    [|now injection H as <- <-|discriminate].
  destruct (truthy (customer_id st)); [now injection H as <- <-|].
  destruct (page_step h normalized st
              (listar_clientes post h normalized (current_page st)))
    as [[st2|st2|m']|e] eqn:E; try discriminate.
  - destruct (paginate fuel post h normalized st2) as [[ps' o']|] eqn:E';
      [|discriminate].
    injection H as <- ->. rewrite (IH _ _ _ Hc E').
    eapply page_step_tax_matches; eauto.
  - injection H as <- <-. eapply page_step_tax_matches; eauto.
Qed.

Lemma validate_found_no_matches (h1 h2 : hints) (st : scan_state) :
  possible_matches_by_name st = [] ->
  validate_found h1 st = validate_found h2 st.
Proof.
  intros H. unfold validate_found, by_name. rewrite H. simpl.
  now rewrite !andb_false_r.
Qed.

Lemma has_cnpj_truthy (c : json) (normalized : option string) :
  normalize_input c = Ok normalized -> has_cnpj normalized = true ->
  truthy c = true.
Proof.
  unfold normalize_input. destruct (truthy c); [reflexivity|].
  intros H. injection H as <-. discriminate.
Qed.

Lemma cliente_filter_tax (h1 h2 : hints) (normalized : option string) :
  has_cnpj normalized = true ->
  cliente_filter h1 normalized = cliente_filter h2 normalized.
Proof.
  destruct normalized as [s|]; simpl; [|discriminate]. now intros ->.
Qed.

Lemma cliente_filter_no_tax (h : hints) (normalized : option string) :
  has_cnpj normalized = false ->
  cliente_filter h normalized = cliente_filter h None.
Proof.
  destruct normalized as [s|]; simpl; [|reflexivity]. now intros ->.
Qed.

(** X8: when the tax id hint contains a digit, the name and city hints
    play no part: the tool makes the same requests and returns the same
    result whatever they are. *)
Theorem tax_id_takes_precedence (fuel : nat) (post : api)
    (c n1 ci1 n2 ci2 : json) (normalized : option string) :
  normalize_input c = Ok normalized ->
  has_cnpj normalized = true ->
  encontrar_pedidos_cliente fuel post (mkHints c n1 ci1)
  = encontrar_pedidos_cliente fuel post (mkHints c n2 ci2).
Proof.
  intros Hn Hc. pose proof (has_cnpj_truthy c normalized Hn Hc) as Ht.
  unfold encontrar_pedidos_cliente, encontrar_id_cliente. simpl.
  rewrite Ht, Hn. simpl.
  rewrite (paginate_ext (mkHints c n1 ci1) (mkHints c n2 ci2)
             normalized normalized (fun _ => eq_refl) eq_refl
             (fun _ => eq_refl)
             ltac:(congruence)
             (cliente_filter_tax _ _ normalized Hc) post fuel scan_init).
  destruct (paginate fuel post (mkHints c n2 ci2) normalized scan_init)
    as [[ps [st|m|e]]|] eqn:E; try reflexivity.
  apply paginate_tax_matches in E; [|assumption]. simpl in E.
  now rewrite (validate_found_no_matches (mkHints c n1 ci1) (mkHints c n2 ci2) st E).
Qed.

Lemma tax_id_takes_precedence_witness :
  encontrar_pedidos_cliente 2
    (Exemplos.constante (Exemplos.pagina 1 [Exemplos.cliente 7 "111" "Alfa"]))
    (mkHints (JStr "1.1-1") (JStr "Zeta") (JStr "Lisboa"))
  = encontrar_pedidos_cliente 2
      (Exemplos.constante (Exemplos.pagina 1 [Exemplos.cliente 7 "111" "Alfa"]))
      (mkHints (JStr "1.1-1") JNull JNull).
Proof.
  exact (tax_id_takes_precedence 2
           (Exemplos.constante
              (Exemplos.pagina 1 [Exemplos.cliente 7 "111" "Alfa"]))
           (JStr "1.1-1") (JStr "Zeta") (JStr "Lisboa") JNull JNull
           (Some "111") eq_refl eq_refl).
Defined.

(** X9: without a digit in the tax id hint and with a name hint, the
    city hint plays no part: the tool makes the same requests and returns
    the same result whatever the city is. *)
Theorem name_takes_precedence_over_city (fuel : nat) (post : api)
    (c n ci1 ci2 : json) (normalized : option string) :
  normalize_input c = Ok normalized ->
  has_cnpj normalized = false ->
  truthy n = true ->
  encontrar_pedidos_cliente fuel post (mkHints c n ci1)
  = encontrar_pedidos_cliente fuel post (mkHints c n ci2).
Proof.
  intros Hn Hc Ht.
  unfold encontrar_pedidos_cliente, encontrar_id_cliente. simpl.
  rewrite Ht, orb_true_r, Hn. simpl.
  assert (Hf : cliente_filter (mkHints c n ci1) normalized
               = cliente_filter (mkHints c n ci2) normalized).
  { destruct normalized as [s|]; simpl in *; [|now rewrite Ht].
    apply negb_false_iff in Hc. now rewrite Hc, Ht. }
  rewrite (paginate_ext (mkHints c n ci1) (mkHints c n ci2)
             normalized normalized (fun _ => eq_refl) eq_refl
             (fun _ => eq_refl) (fun _ => eq_refl) Hf post fuel scan_init).
  destruct (paginate fuel post (mkHints c n ci2) normalized scan_init)
    as [[ps [st|m|e]]|]; try reflexivity.
Qed.

Lemma name_takes_precedence_over_city_witness :
  encontrar_pedidos_cliente 2
    (Exemplos.constante (Exemplos.pagina 1 [Exemplos.cliente 7 "111" "Alfa"]))
    (mkHints JNull (JStr "alfa") (JStr "Lisboa"))
  = encontrar_pedidos_cliente 2
      (Exemplos.constante (Exemplos.pagina 1 [Exemplos.cliente 7 "111" "Alfa"]))
      (mkHints JNull (JStr "alfa") JNull).
Proof.
  exact (name_takes_precedence_over_city 2
           (Exemplos.constante
              (Exemplos.pagina 1 [Exemplos.cliente 7 "111" "Alfa"]))
           JNull (JStr "alfa") (JStr "Lisboa") JNull None
           eq_refl eq_refl eq_refl).
Defined.

(** X10: a tax id hint in which no digit is left after normalization
    is ignored when a name or a city hint comes with it: the tool makes
    the same requests and returns the same result as without it. *)
Theorem tax_hint_without_digits_ignored (fuel : nat) (post : api)
    (c n ci : json) (normalized : option string) :
  normalize_input c = Ok normalized ->
  has_cnpj normalized = false ->
  truthy n || truthy ci = true ->
  encontrar_pedidos_cliente fuel post (mkHints c n ci)
  = encontrar_pedidos_cliente fuel post (mkHints JNull n ci).
Proof.
  intros Hn Hc Ht.
  unfold encontrar_pedidos_cliente, encontrar_id_cliente. simpl.
  rewrite <- orb_assoc, Ht, orb_true_r, Hn. simpl.
  assert (Hf : cliente_filter (mkHints c n ci) normalized
               = cliente_filter (mkHints JNull n ci) None).
  { now rewrite (cliente_filter_no_tax _ normalized Hc). }
  rewrite (paginate_ext (mkHints c n ci) (mkHints JNull n ci)
             normalized None
             (fun s => cnpj_hit_without normalized s Hc) Hc
             ltac:(congruence)
             (fun _ => eq_refl) Hf post fuel scan_init).
  destruct (paginate fuel post (mkHints JNull n ci) None scan_init)
    as [[ps [st|m|e]]|]; try reflexivity.
Qed.

Lemma tax_hint_without_digits_ignored_witness :
  encontrar_pedidos_cliente 2
    (Exemplos.constante (Exemplos.pagina 1 [Exemplos.cliente 7 "111" "Alfa"]))
    (mkHints (JStr "s/n") (JStr "alfa") JNull)
  = encontrar_pedidos_cliente 2
      (Exemplos.constante (Exemplos.pagina 1 [Exemplos.cliente 7 "111" "Alfa"]))
      (mkHints JNull (JStr "alfa") JNull).
Proof.
  exact (tax_hint_without_digits_ignored 2
           (Exemplos.constante
              (Exemplos.pagina 1 [Exemplos.cliente 7 "111" "Alfa"]))
           (JStr "s/n") (JStr "alfa") JNull (Some "")
           eq_refl eq_refl eq_refl).
Defined.

(** ** CustomerResolver: the two tests on a record *)

Lemma digits_nonempty (s : string) :
  PyStr.is_empty (PyStr.digits s) = false -> PyStr.is_empty s = false.
Proof. destruct s; [discriminate | reflexivity]. Qed.

(** X11: the tax id test compares digit sequences.  For a hint that
    contains a digit and a record whose tax id is a string, the record is
    taken as the customer exactly when both have the same digits in the
    same order, whatever other characters either carries; otherwise the
    loop goes on to the next record. *)
Theorem tax_id_match_compares_digits (h : hints) (s t : string) (d : dict)
    (rest : list json) (st : scan_state) :
  PyStr.is_empty (PyStr.digits s) = false ->
  dict_get "cnpj_cpf" d = Some (JStr t) ->
  truthy (found_customer_details st) = false ->
  normalize_input (JStr s) = Ok (Some (PyStr.digits s)) /\
  for_clientes h (Some (PyStr.digits s)) (JObj d :: rest) st
  = if String.eqb (PyStr.digits t) (PyStr.digits s)
    then Ok (ForDone (set_found st (JObj d) (codigo_de (JObj d))))
    else for_clientes h (Some (PyStr.digits s)) rest st.
Proof.
  intros Hs Hd Hf. split.
  - unfold normalize_input. simpl. now rewrite (digits_nonempty s Hs).
  - cbn [for_clientes py_get bind digits_of]. rewrite Hd.
    cbn [bind digits_of cnpj_hit has_cnpj]. rewrite Hs.
    cbn [negb andb]. rewrite andb_false_r.
    destruct (String.eqb (PyStr.digits t) (PyStr.digits s)); [|reflexivity].
    rewrite Hf. reflexivity.
Qed.

Lemma tax_id_match_compares_digits_witness :
  normalize_input (JStr "12.345/0001-90") = Ok (Some (PyStr.digits "12.345/0001-90")) /\
  for_clientes (mkHints (JStr "12.345/0001-90") JNull JNull)
    (Some (PyStr.digits "12.345/0001-90"))
    [JObj [("codigo_cliente_omie", JInt 7); ("cnpj_cpf", JStr "12345000190")]]
    scan_init
  = if String.eqb (PyStr.digits "12345000190") (PyStr.digits "12.345/0001-90")
    then Ok (ForDone
               (set_found scan_init
                  (JObj [("codigo_cliente_omie", JInt 7);
                         ("cnpj_cpf", JStr "12345000190")])
                  (codigo_de
                     (JObj [("codigo_cliente_omie", JInt 7);
                            ("cnpj_cpf", JStr "12345000190")]))))
    else for_clientes (mkHints (JStr "12.345/0001-90") JNull JNull)
           (Some (PyStr.digits "12.345/0001-90")) [] scan_init.
Proof.
  exact (tax_id_match_compares_digits
           (mkHints (JStr "12.345/0001-90") JNull JNull)
           "12.345/0001-90" "12345000190"
           [("codigo_cliente_omie", JInt 7); ("cnpj_cpf", JStr "12345000190")]
           [] scan_init eq_refl eq_refl eq_refl).
Defined.

Lemma prefix_iff (n : string) : forall hay,
  String.prefix n hay = true <-> exists suf, hay = n ++ suf.
Proof.
  induction n as [|a n IH]; intros hay.
  - split; [intros _; now exists hay | intros _; now destruct hay].
  - destruct hay as [|b hay].
    + split; [discriminate | intros [suf E]; discriminate E].
    + rewrite prefix_cons. destruct (ascii_dec a b) as [->|Hab].
      * rewrite IH. split; intros [suf E]; exists suf.
        -- simpl. now rewrite E.
        -- simpl in E. now injection E.
      * split; [discriminate|]. intros [suf E]. simpl in E. congruence.
Qed.

Lemma contains_iff (n : string) : forall hay,
  PyStr.contains n hay = true <-> exists pre suf, hay = pre ++ n ++ suf.
Proof.
  induction hay as [|b hay IH].
  - cbn [PyStr.contains]. rewrite orb_false_r, prefix_iff. split.
    + intros [suf E]. now exists "", suf.
    + intros (pre & suf & E). destruct pre; [now exists suf | discriminate E].
  - cbn [PyStr.contains]. rewrite orb_true_iff, prefix_iff, IH. split.
    + intros [[suf E]|(pre & suf & E)].
      * now exists "", suf.
      * exists (String b pre), suf. simpl. now rewrite E.
    + intros (pre & suf & E). destruct pre as [|c pre].
      * left. now exists suf.
      * right. simpl in E. injection E as _ E. now exists pre, suf.
Qed.

(** X12: the name test is a substring test that ignores letter case.
    In a search by name, a record of the data model is collected exactly
    when its display name, in lower case, contains the hint in lower
    case; the loop then goes on to the next record either way. *)
Theorem name_match_is_substring (h : hints) (normalized : option string)
    (a : string) (c : json) (rest : list json) (st : scan_state) :
  has_cnpj normalized = false ->
  nome_fantasia h = JStr a -> PyStr.is_empty a = false ->
  cliente_ok c = true ->
  for_clientes h normalized (c :: rest) st
  = for_clientes h normalized rest
      (if name_matches a c then add_match st c else st) /\
  (name_matches a c = true <->
   exists pre suf,
     PyStr.lower (nome_str c) = pre ++ PyStr.lower a ++ suf).
Proof.
  intros Hc Ha He Hok. split; [|apply contains_iff].
  destruct (cliente_ok_fields c Hok) as (d & s & -> & Hd & Hl).
  cbn [for_clientes py_get bind]. rewrite Hd. cbn [bind].
  rewrite (cnpj_hit_without normalized s Hc), Hc, Ha. simpl truthy.
  rewrite He. cbn [negb andb py_lower bind].
  rewrite Hl. cbn [bind]. unfold name_matches.
  now destruct (PyStr.contains _ _).
Qed.

Lemma name_match_is_substring_witness :
  name_matches "acme" (Exemplos.cliente 3 "333" "Loja ACME Sul") = true.
Proof.
  apply (proj2 (name_match_is_substring (mkHints JNull (JStr "acme") JNull)
                  None "acme" (Exemplos.cliente 3 "333" "Loja ACME Sul")
                  [] scan_init eq_refl eq_refl eq_refl eq_refl)).
  exists "loja ", " sul". reflexivity.
Defined.

(** ** CustomerResolver: a search by name, end to end *)

Section NameSearch.

Variables (post : api) (h : hints) (normalized : option string) (a : string).
Hypothesis Hn : has_cnpj normalized = false.
Hypothesis Ha : nome_fantasia h = JStr a.
Hypothesis He : PyStr.is_empty a = false.

Lemma total_ok_number :
  total_ok (listar_clientes post h normalized 1) = true ->
  good_page (listar_clientes post h normalized 1) = true ->
  exists q,
    as_number (total_de_paginas (listar_clientes post h normalized 1)) = Some q.
Proof.
  intros Ht G. unfold total_ok in Ht. unfold good_page in G.
  apply andb_true_iff in G as [G _]. apply negb_true_iff in G.
  rewrite G in Ht. simpl in Ht. destruct (as_number _); [eauto | discriminate].
Qed.

Lemma page_bound_pos : 1 <= page_bound (listar_clientes post h normalized 1).
Proof. unfold page_bound. destruct (as_number _); lia. Qed.

(** What the loop leaves when every page is good. *)
Lemma name_search_collects (fuel : nat) :
  let n := Z.to_nat (page_bound (listar_clientes post h normalized 1)) in
  total_ok (listar_clientes post h normalized 1) = true ->
  (forall i, 1 <= i <= page_bound (listar_clientes post h normalized 1) ->
     good_page (listar_clientes post h normalized i) = true) ->
  (records (listar_clientes post h normalized 1) = [] ->
   py_eq (total_de_paginas (listar_clientes post h normalized 1)) (JInt 1)
   = false) ->
  (n < fuel)%nat ->
  paginate fuel post h normalized scan_init
  = Some (pages_upto n,
          ScanDone
            (mkScan (Z.of_nat n + 1)
               (total_de_paginas (listar_clientes post h normalized 1))
               JNull JNull
               (directory_matches (listar_clientes post h normalized) a n))).
Proof.
  intros n Ht Hg H1 Hf. pose proof page_bound_pos as Hb.
  destruct (total_ok_number Ht (Hg 1 ltac:(lia))) as [q Hq].
  exact (paginate_names post h normalized a q fuel Hn Ha He Hq Hg H1 Hf).
Qed.

Lemma one_page_no_records :
  records (listar_clientes post h normalized 1) = [] ->
  py_eq (total_de_paginas (listar_clientes post h normalized 1)) (JInt 1)
  = true ->
  directory_matches (listar_clientes post h normalized) a
    (Z.to_nat (page_bound (listar_clientes post h normalized 1))) = [].
Proof.
  intros Hr E.
  assert (En : Z.to_nat (page_bound (listar_clientes post h normalized 1))
               = 1%nat).
  { unfold page_bound.
    destruct (as_number
                (total_de_paginas (listar_clientes post h normalized 1)))
      as [q|] eqn:Hq; [|reflexivity].
    rewrite (py_eq_one _ q Hq) in E. apply Qeq_bool_iff in E. rewrite E.
    change 1%Q with (inject_Z 1). now rewrite Qfloor_Z. }
  rewrite En. unfold directory_matches.
  change (pages_upto 1) with [1]. cbn [flat_map]. rewrite Hr. reflexivity.
Qed.

End NameSearch.

(** X13: a search by name over a directory of the data model in which
    exactly one record matches resolves to that record, after every
    announced page has been requested, provided its customer id is
    truthy. *)
Theorem single_name_match_resolves (fuel : nat) (post : api) (h : hints)
    (normalized : option string) (a : string) (c : json) :
  normalize_input (cnpj_cpf h) = Ok normalized ->
  has_cnpj normalized = false ->
  nome_fantasia h = JStr a -> PyStr.is_empty a = false ->
  let page := listar_clientes post h normalized in
  let n := Z.to_nat (page_bound (page 1)) in
  total_ok (page 1) = true ->
  (forall i, 1 <= i <= page_bound (page 1) -> good_page (page i) = true) ->
  directory_matches page a n = [c] ->
  truthy (codigo_de c) = true ->
  (n < fuel)%nat ->
  encontrar_id_cliente fuel post h
  = Some (pages_upto n, Ok (Resolvido (codigo_de c) c)).
Proof.
  intros Hno Hn Ha He page n Ht Hg Hm Hid Hf.
  assert (H1 : records (page 1) = [] ->
               py_eq (total_de_paginas (page 1)) (JInt 1) = false).
  { intros Hr. destruct (py_eq _ _) eqn:E; [|reflexivity]. exfalso.
    pose proof (one_page_no_records post h normalized a Hr E) as X.
    fold page in X. fold n in X. rewrite Hm in X. discriminate X. }
  pose proof (name_search_collects post h normalized a Hn Ha He fuel Ht Hg H1 Hf)
    as Hp. fold page in Hp. fold n in Hp.
  unfold encontrar_id_cliente. rewrite Hno, Hp, Hm.
  unfold validate_found, by_name. cbn [customer_id possible_matches_by_name
    truthy negb List.length Nat.eqb andb].
  assert (Hc : exists d, c = JObj d /\ d <> []).
  { destruct c; try discriminate Hid. exists d. split; [reflexivity|].
    intros ->. discriminate Hid. }
  destruct Hc as (d & -> & Hd).
  cbn [py_get bind set_found customer_id found_customer_details].
  unfold codigo_de in Hid |- *. cbn [py_get] in Hid |- *. rewrite Hid.
  destruct d; [congruence|]. reflexivity.
Qed.

Lemma single_name_match_resolves_witness :
  let h := mkHints JNull (JStr "sul") JNull in
  let post :=
    Exemplos.servir
      [Exemplos.pagina 2 [Exemplos.cliente 1 "111" "ACME Norte";
                          Exemplos.cliente 2 "222" "Outra"];
       Exemplos.pagina 2 [Exemplos.cliente 3 "333" "Acme Sul"]]
      (JObj []) in
  encontrar_id_cliente 5 post h
  = Some ([1; 2], Ok (Resolvido (JInt 3) (Exemplos.cliente 3 "333" "Acme Sul"))).
Proof.
  intros h post.
  apply (single_name_match_resolves 5 post h None "sul"
           (Exemplos.cliente 3 "333" "Acme Sul")).
  - reflexivity.
  - reflexivity.
  - reflexivity.
  - reflexivity.
  - reflexivity.
  - intros i Hi. change (page_bound (listar_clientes post h None 1)) with 2 in Hi.
    assert (E : i = 1 \/ i = 2) by lia. destruct E as [E|E]; rewrite E; reflexivity.
  - reflexivity.
  - reflexivity.
  - vm_compute. repeat constructor.
Defined.

(** X14: a search by name over a directory of the data model in which
    no record matches answers that the customer was not found, after
    every announced page has been requested (the first page holding a
    record, or announcing a page count other than 1). *)
Theorem no_name_match_not_found (fuel : nat) (post : api) (h : hints)
    (normalized : option string) (a : string) :
  normalize_input (cnpj_cpf h) = Ok normalized ->
  has_cnpj normalized = false ->
  nome_fantasia h = JStr a -> PyStr.is_empty a = false ->
  let page := listar_clientes post h normalized in
  let n := Z.to_nat (page_bound (page 1)) in
  total_ok (page 1) = true ->
  (forall i, 1 <= i <= page_bound (page 1) -> good_page (page i) = true) ->
  (records (page 1) = [] -> py_eq (total_de_paginas (page 1)) (JInt 1) = false) ->
  directory_matches page a n = [] ->
  (n < fuel)%nat ->
  encontrar_pedidos_cliente fuel post h
  = Some (pages_upto n, Ok (Mensagem MsgNaoEncontrado)).
Proof.
  intros Hno Hn Ha He page n Ht Hg H1 Hm Hf.
  pose proof (name_search_collects post h normalized a Hn Ha He fuel Ht Hg H1 Hf)
    as Hp. fold page in Hp. fold n in Hp.
  unfold encontrar_pedidos_cliente, encontrar_id_cliente.
  rewrite Ha. simpl truthy. rewrite He. cbn [negb]. rewrite orb_true_r.
  cbn [orb negb]. rewrite Hno, Hp, Hm. reflexivity.
Qed.

Lemma no_name_match_not_found_witness :
  let h := mkHints JNull (JStr "zeta") JNull in
  let post :=
    Exemplos.servir
      [Exemplos.pagina 2 [Exemplos.cliente 1 "111" "ACME Norte";
                          Exemplos.cliente 2 "222" "Outra"];
       Exemplos.pagina 2 [Exemplos.cliente 3 "333" "Acme Sul"]]
      (JObj []) in
  encontrar_pedidos_cliente 5 post h
  = Some ([1; 2], Ok (Mensagem MsgNaoEncontrado)).
Proof.
  intros h post.
  apply (no_name_match_not_found 5 post h None "zeta").
  - reflexivity.
  - reflexivity.
  - reflexivity.
  - reflexivity.
  - reflexivity.
  - intros i Hi. change (page_bound (listar_clientes post h None 1)) with 2 in Hi.
    assert (E : i = 1 \/ i = 2) by lia. destruct E as [E|E]; rewrite E; reflexivity.
  - discriminate.
  - reflexivity.
  - vm_compute. repeat constructor.
Defined.

(** ** CustomerResolver: a search by tax id that finds nothing *)

Lemma page_step_passes (h : hints) (normalized : option string)
    (p : Z) (t cid fnd : json) (ms : list json) (r : json) (q : Q) :
  has_cnpj normalized = true ->
  miss_page normalized r = true ->
  truthy cid = false ->
  let t' := if p =? 1 then total_de_paginas r else t in
  as_number t' = Some q ->
  (p = 1 -> records r = [] -> py_eq t' (JInt 1) = false) ->
  page_step h normalized (mkScan p t cid fnd ms) r
  = Ok (StepNext (mkScan (p + 1) t' cid fnd ms)).
Proof.
  intros Hn Hm Hc t' Hq H1. unfold miss_page, is_error, clientes_de in Hm.
  unfold records, clientes_de in H1.
  apply andb_true_iff in Hm as [He Hl]. apply negb_true_iff in He.
  destruct r; try discriminate Hl. unfold page_step. simpl in *.
  rewrite He. simpl.
  assert (Et : (if p =? 1
                then Ok match dict_get "total_de_paginas" d with
                        | Some x => x | None => JInt 1 end
                else Ok t) = Ok t').
  { subst t'. unfold total_de_paginas. simpl. destruct (p =? 1); reflexivity. }
  rewrite Et. simpl.
  set (cl := match dict_get "clientes_cadastro" d with
             | Some x => x | None => JNull end) in *.
  assert (Ef : (if truthy cl
                then l <- py_iter cl ;;
                     for_clientes h normalized l (set_total (mkScan p t cid fnd ms) t')
                else Ok (ForDone (set_total (mkScan p t cid fnd ms) t')))
               = Ok (ForDone (mkScan p t' cid fnd ms))).
  { destruct cl; try discriminate Hl; try reflexivity.
    destruct l as [|x l]; [reflexivity|]. simpl truthy. cbv iota.
    simpl py_iter. cbn [bind].
    rewrite <- (app_nil_r (x :: l)), for_clientes_misses by assumption.
    reflexivity. }
  rewrite Ef. simpl. rewrite Hc, andb_false_r.
  assert (E1 : negb (truthy cl) && (p =? 1) && py_eq t' (JInt 1) = false).
  { destruct (p =? 1) eqn:Ep; [|now rewrite andb_false_r].
    apply Z.eqb_eq in Ep.
    destruct cl; try discriminate Hl.
    - now rewrite (H1 Ep eq_refl).
    - destruct l; [now rewrite (H1 Ep eq_refl) | reflexivity]. }
  rewrite E1. unfold int_gt. simpl. rewrite Hq. reflexivity.
Qed.

Lemma paginate_misses_from (post : api) (h : hints)
    (normalized : option string) (t : json) (q : Q) (ms : list json)
    (n : nat) : forall p fuel,
  has_cnpj normalized = true ->
  1 < p -> as_number t = Some q ->
  p + Z.of_nat n = Z.max p (Qfloor q + 1) ->
  (forall i, p <= i <= Qfloor q ->
     miss_page normalized (listar_clientes post h normalized i) = true) ->
  (n < fuel)%nat ->
  paginate fuel post h normalized (mkScan p t JNull JNull ms)
  = Some (List.map (fun i => p + Z.of_nat i) (seq 0 n),
          ScanDone (mkScan (p + Z.of_nat n) t JNull JNull ms)).
Proof.
  induction n as [|n IH]; intros p fuel Hn Hp Hq Hpn Hg Hf;
    (destruct fuel as [|fuel]; [lia|]); cbn [paginate];
    unfold int_le; cbn [current_page total_pages customer_id]; rewrite Hq.
  - replace (Qle_bool (inject_Z p) q) with false
      by (symmetry; apply Qle_bool_floor_false; lia).
    cbn [seq List.map Z.of_nat]. now rewrite Z.add_0_r.
  - replace (Qle_bool (inject_Z p) q) with true
      by (symmetry; apply Qle_bool_floor; lia).
    cbn [truthy].
    pose proof (page_step_passes h normalized p t JNull JNull ms
                  (listar_clientes post h normalized p) q Hn
                  (Hg p ltac:(lia)) eq_refl) as X.
    cbv zeta in X.
    replace (p =? 1) with false in X by (symmetry; apply Z.eqb_neq; lia).
    rewrite (X Hq ltac:(lia)).
    rewrite (IH (p + 1) fuel Hn ltac:(lia) Hq ltac:(lia)); try lia.
    + rewrite pages_from_cons.
      now replace (p + 1 + Z.of_nat n) with (p + Z.of_nat (S n)) by lia.
    + intros i Hi. apply Hg. lia.
Qed.

(** X15: a search by tax id over a directory in which no record of any
    announced page has that tax id answers that the customer was not
    found, after every announced page has been requested (the first page
    holding a record, or announcing a page count other than 1). *)
Theorem absent_tax_id_not_found (fuel : nat) (post : api) (h : hints)
    (normalized : option string) (q : Q) :
  normalize_input (cnpj_cpf h) = Ok normalized ->
  has_cnpj normalized = true ->
  let page := listar_clientes post h normalized in
  let n := Z.to_nat (page_bound (page 1)) in
  as_number (total_de_paginas (page 1)) = Some q ->
  (forall i, 1 <= i <= page_bound (page 1) ->
     miss_page normalized (page i) = true) ->
  (records (page 1) = [] -> py_eq (total_de_paginas (page 1)) (JInt 1) = false) ->
  (n < fuel)%nat ->
  encontrar_pedidos_cliente fuel post h
  = Some (pages_upto n, Ok (Mensagem MsgNaoEncontrado)).
Proof.
  intros Hno Hn page n Hq Hg H1 Hf. subst page.
  assert (Hb : page_bound (listar_clientes post h normalized 1)
               = Z.max 1 (Qfloor q))
    by (unfold page_bound; now rewrite Hq).
  assert (Hp : paginate fuel post h normalized scan_init
               = Some (pages_upto n,
                       ScanDone (mkScan (Z.of_nat n + 1)
                                   (total_de_paginas
                                      (listar_clientes post h normalized 1))
                                   JNull JNull []))).
  { destruct fuel as [|fuel]; [lia|]. cbn [paginate].
    change (int_le (current_page scan_init) (total_pages scan_init))
      with (@Ok bool true). cbn iota. cbn [customer_id scan_init truthy].
    change (current_page scan_init) with 1. unfold scan_init.
    pose proof (page_step_passes h normalized 1 (JInt 1) JNull JNull []
                  (listar_clientes post h normalized 1) q Hn
                  (Hg 1 ltac:(lia)) eq_refl) as X.
    cbv zeta in X. cbn [Z.eqb Pos.eqb] in X.
    rewrite (X Hq (fun _ => H1)). cbn [Z.add Pos.add].
    rewrite (paginate_misses_from post h normalized _ q [] (n - 1) 2 fuel
               Hn ltac:(lia) Hq); try lia.
    - assert (En : n = S (n - 1)) by lia.
      rewrite <- pages_upto_consecutive.
      rewrite En at 3. rewrite <- (pages_from_cons 1 (n - 1)).
      change (1 + 1) with 2.
      replace (2 + Z.of_nat (n - 1)) with (Z.of_nat n + 1) by lia.
      reflexivity.
    - intros i Hi. apply Hg. lia. }
  pose proof (has_cnpj_truthy _ _ Hno Hn) as Ht.
  unfold encontrar_pedidos_cliente, encontrar_id_cliente.
  rewrite Ht. cbn [orb negb]. rewrite Hno, Hp. reflexivity.
Qed.

Lemma absent_tax_id_not_found_witness :
  let h := mkHints (JStr "999") JNull JNull in
  let post :=
    Exemplos.servir
      [Exemplos.pagina 2 [Exemplos.cliente 1 "111" "ACME Norte";
                          Exemplos.cliente 2 "222" "Outra"];
       Exemplos.pagina 2 [Exemplos.cliente 3 "333" "Acme Sul"]]
      (JObj []) in
  encontrar_pedidos_cliente 5 post h
  = Some ([1; 2], Ok (Mensagem MsgNaoEncontrado)).
Proof.
  intros h post.
  apply (absent_tax_id_not_found 5 post h (Some "999") (inject_Z 2)).
  - reflexivity.
  - reflexivity.
  - reflexivity.
  - intros i Hi.
    change (page_bound (listar_clientes post h (Some "999") 1)) with 2 in Hi.
    assert (E : i = 1 \/ i = 2) by lia. destruct E as [E|E]; rewrite E; reflexivity.
  - discriminate.
  - vm_compute. repeat constructor.
Defined.

(** ** OrderRetriever: orders of the data model *)

Lemma formatar_item_model (item_detail : json) :
  item_ok item_detail = true ->
  formatar_item item_detail = Ok (item_formatado item_detail).
Proof.
  destruct item_detail as [| | | | | |d]; try discriminate.
  unfold item_ok, is_obj_or_absent, formatar_item, item_formatado, campo.
  cbn [py_get bind].
  destruct (dict_get "produto" d) as [[]|]; try discriminate; reflexivity.
Qed.

Lemma mapM_map {A B : Type} (f : A -> result B) (g : A -> B) (l : list A) :
  (forall x, In x l -> f x = Ok (g x)) -> mapM f l = Ok (List.map g l).
Proof.
  induction l as [|x l IH]; intros H; [reflexivity|].
  cbn [mapM List.map]. rewrite (H x (or_introl eq_refl)). cbn [bind].
  rewrite IH; [reflexivity|]. intros y Hy. apply H. now right.
Qed.

Lemma formatar_pedido_model (order : json) :
  pedido_ok order = true ->
  formatar_pedido order = Ok (pedido_formatado order).
Proof.
  destruct order as [| | | | | |d]; try discriminate.
  unfold pedido_ok, is_obj_or_absent. intros H.
  apply andb_true_iff in H as [H Hd]. apply andb_true_iff in H as [Hc Ht].
  assert (Hi : exists l, match dict_get "det" d with
                         | Some x => x | None => JArr [] end = JArr l /\
                         forallb item_ok l = true).
  { destruct (dict_get "det" d) as [[]|]; try discriminate Hd; eauto. }
  destruct Hi as (l & El & Hl).
  unfold formatar_pedido, pedido_formatado, campo, det_de. cbn [py_get bind].
  rewrite El. cbn [py_iter bind].
  rewrite (mapM_map formatar_item item_formatado l).
  - cbn [bind].
    destruct (dict_get "cabecalho" d) as [[]|]; try discriminate Hc;
      destruct (dict_get "total_pedido" d) as [[]|]; try discriminate Ht;
      reflexivity.
  - intros x Hx. apply formatar_item_model.
    now apply (proj1 (forallb_forall item_ok l) Hl).
Qed.

Lemma in_firstn {A : Type} (n : nat) : forall (l : list A) (x : A),
  In x (firstn n l) -> In x l.
Proof.
  induction n as [|n IH]; intros [|y l] x H; try contradiction.
  destruct H as [->|H]; [now left | right; now apply IH].
Qed.

(** X16: a non-empty list of orders of the data model is never refused:
    the orders are put in some order, the first three are kept, and each
    is returned with its number, forecast date, stage, total and items,
    a field that is absent being replaced by its default. *)
Theorem data_model_orders_are_formatted (customer_id : json) (up : list json) :
  up <> [] ->
  forallb pedido_ok up = true ->
  exists srt,
    pedidos_ordenados (JArr up) = JArr srt /\ Permutation up srt /\
    processar_pedidos customer_id (JArr up)
    = Ok (Pedidos (List.map pedido_formatado (firstn 3 srt))).
Proof.
  intros Hne Hok.
  assert (Hs : exists srt, pedidos_ordenados (JArr up) = JArr srt /\
                           Permutation up srt).
  { unfold pedidos_ordenados.
    destruct (sorted_by_numero_pedido (JArr up)) as [l'|e] eqn:E.
    - exists l'. split; [reflexivity|]. now apply sorted_by_numero_pedido_perm.
    - exists up. split; [reflexivity|]. apply Permutation_refl. }
  destruct Hs as (srt & Es & Hp). exists srt. repeat split; try assumption.
  unfold processar_pedidos. rewrite Es. cbn [py_slice3 py_iter bind].
  rewrite (mapM_map formatar_pedido pedido_formatado (firstn 3 srt)).
  - cbn [bind]. destruct srt as [|x srt].
    + apply Permutation_sym, Permutation_nil in Hp. contradiction.
    + reflexivity.
  - intros x Hx. apply formatar_pedido_model.
    apply (proj1 (forallb_forall pedido_ok up) Hok).
    apply (Permutation_in x (Permutation_sym Hp)).
    now apply (in_firstn 3).
Qed.

Lemma data_model_orders_are_formatted_witness :
  exists srt,
    pedidos_ordenados
      (JArr [Exemplos.pedido "1"; Exemplos.pedido "4"; Exemplos.pedido "2";
             Exemplos.pedido "3"]) = JArr srt /\
    Permutation
      [Exemplos.pedido "1"; Exemplos.pedido "4"; Exemplos.pedido "2";
       Exemplos.pedido "3"] srt /\
    processar_pedidos (JInt 7)
      (JArr [Exemplos.pedido "1"; Exemplos.pedido "4"; Exemplos.pedido "2";
             Exemplos.pedido "3"])
    = Ok (Pedidos (List.map pedido_formatado (firstn 3 srt))).
Proof.
  apply (data_model_orders_are_formatted (JInt 7)
           [Exemplos.pedido "1"; Exemplos.pedido "4"; Exemplos.pedido "2";
            Exemplos.pedido "3"]).
  - discriminate.
  - reflexivity.
Defined.

(** ** The second tool: where each reply comes from *)

Lemma returned_orders_length (fuel : nat) (post : api) (h : hints)
    (ps : list Z) (l : list json) :
  encontrar_pedidos_cliente fuel post h = Some (ps, Ok (Pedidos l)) ->
  (1 <= List.length l <= 3)%nat.
Proof.
  intros H. apply encontrar_pedidos_cliente_cases in H
    as [(_ & _ & X)|(_ & normalized & Hn & [(m & Hm & E)
          |(st & _ & [(m & Hv & E)|(id & rec & Hv & He)])])];
    try discriminate.
  apply encontrar_pedidos_ok in He
    as [(_ & X)|[(_ & _ & X)|(_ & up & srt & l' & _ & _ & _ & _ & X & _ & E6)]];
    try discriminate X.
  now injection X as ->.
Qed.

Lemma sem_parametro_no_hint (fuel : nat) (post : api) (h : hints)
    (ps : list Z) :
  encontrar_pedidos_cliente fuel post h
  = Some (ps, Ok (Mensagem MsgSemParametro)) ->
  no_hint h = true.
Proof.
  intros H. apply encontrar_pedidos_cliente_cases in H
    as [(Hn & Hp & _)|(_ & normalized & _ & [(m & Hm & E)
          |(st & _ & [(m & Hv & E)|(id & rec & _ & He)])])].
  - assumption.
  - injection E as <-. apply paginate_returns in Hm as (_ & [(_ & X)|[(_ & X & _)|(_ & X & _)]]);
      discriminate X.
  - injection E as <-. apply validate_found_falha in Hv as [X|(k & X & _)];
      discriminate X.
  - apply encontrar_pedidos_ok in He
      as [(_ & X)|[(_ & _ & X)
          |(_ & up & srt & l & _ & _ & _ & _ & X & _)]];
      discriminate X.
Qed.

Lemma responder_com_dados_hints (fuel : nat) (post : api) (m : ia)
    (pergunta : string) (dados : json) (r : resposta) :
  responder_com_dados fuel post m pergunta dados = Some (Ok r) ->
  exists d, dados = JObj d.
Proof.
  unfold responder_com_dados. destruct dados; try discriminate. eauto.
Qed.

(** The replies of the second tool once the analysis is decoded. *)
Lemma responder_com_dados_cases (fuel : nat) (post : api) (m : ia)
    (pergunta : string) (dados : json) (r : resposta) :
  responder_com_dados fuel post m pergunta dados = Some (Ok r) ->
  let sobre := match py_get dados "sobre_pedidos" JNull with
               | Ok v => v | Raise _ => JNull end in
  let pe := match py_get dados "pergunta_especifica" JNull with
            | Ok v => v | Raise _ => JNull end in
  (truthy sobre = false /\ r = RespForaDeEscopo) \/
  (truthy sobre = true /\ no_hint (hints_de dados) = true /\
   r = RespFaltaIdentificador) \/
  (truthy sobre = true /\ no_hint (hints_de dados) = false /\
   exists ps,
     (exists msg,
        encontrar_pedidos_cliente fuel post (hints_de dados)
        = Some (ps, Ok (Mensagem msg)) /\ r = RespNaoConsegui msg) \/
     (exists pedidos,
        encontrar_pedidos_cliente fuel post (hints_de dados)
        = Some (ps, Ok (Pedidos pedidos)) /\ pedidos <> [] /\
        match generate_content m (PromptResposta pergunta pe pedidos) with
        | Some t => r = RespTexto t
        | None => r = RespErroRespostaFinal
        end)).
Proof.
  intros H. destruct (responder_com_dados_hints _ _ _ _ _ _ H) as [d ->].
  unfold responder_com_dados in H. unfold hints_de. cbn [py_get bind] in *.
  cbv zeta.
  destruct (truthy match dict_get "sobre_pedidos" d with
                   | Some x => x | None => JNull end).
  2:{ injection H as <-. auto. }
  right. cbn [negb] in H.
  set (hh := mkHints _ _ _) in *.
  fold (no_hint hh) in H. destruct (no_hint hh) eqn:En.
  { injection H as <-. auto. }
  right. repeat split.
  destruct (encontrar_pedidos_cliente fuel post hh) as [[ps [[l|msg]|e]]|] eqn:E;
    try discriminate; exists ps.
  - right. exists l. split; [reflexivity|].
    assert (Hl : l <> []).
    { intros ->. apply returned_orders_length in E. simpl in E. lia. }
    split; [assumption|]. destruct l; [congruence|].
    destruct (generate_content m _); now injection H as <-.
  - left. exists msg. injection H as <-. auto.
Qed.


(** X17: the replies given before the customer search (no model, no
    analysis, analysis not decoded, question out of scope, no hint in the
    analysis) do not depend on the records API: the tool gives the same
    reply whatever the API would answer. *)
Theorem early_replies_need_no_records (json_loads : string -> option json)
    (fuel : nat) (post : api) (m : ia) (pergunta : string) (r : resposta) :
  responder_pergunta_sobre_pedidos json_loads fuel post m pergunta
  = Some (Ok r) ->
  sem_consulta r = true ->
  forall fuel' post',
    responder_pergunta_sobre_pedidos json_loads fuel' post' m pergunta
    = Some (Ok r).
Proof.
  unfold responder_pergunta_sobre_pedidos, dados_interpretados.
  intros H Hs fuel' post'.
  destruct (model_ok m); [|exact H]. cbn [negb] in *.
  destruct (generate_content m (PromptAnalise pergunta)) as [raw|]; [|exact H].
  destruct (json_loads (json_text raw)) as [dados|]; [|exact H].
  destruct (responder_com_dados_cases _ _ _ _ _ _ H)
    as [(Ht & ->)|[(Ht & Hn & ->)|(_ & _ & ps & [(msg & _ & ->)|(l & _ & _ & Hg)])]];
    try discriminate Hs.
  - destruct (responder_com_dados_hints _ _ _ _ _ _ H) as [d ->].
    unfold responder_com_dados. cbn [py_get] in *. now rewrite Ht.
  - destruct (responder_com_dados_hints _ _ _ _ _ _ H) as [d ->].
    unfold responder_com_dados. unfold hints_de in Hn. cbn [py_get bind] in *.
    rewrite Ht. cbn [negb].
    fold (no_hint (mkHints
      match dict_get "cnpj_cpf" d with Some x => x | None => JNull end
      match dict_get "nome_fantasia" d with Some x => x | None => JNull end
      match dict_get "cidade" d with Some x => x | None => JNull end)).
    now rewrite Hn.
  - destruct (generate_content m _); subst r; discriminate Hs.
Qed.

Lemma early_replies_need_no_records_witness :
  responder_pergunta_sobre_pedidos Exemplos.decodificar 3
    (Exemplos.constante (Exemplos.pagina 1 [Exemplos.cliente 7 "111" "Alfa"]))
    (Exemplos.responde "{}") "Qual a capital do Peru?"
  = Some (Ok RespForaDeEscopo).
Proof.
  apply (early_replies_need_no_records Exemplos.decodificar 0
           (Exemplos.fora_do_ar "sem rede") (Exemplos.responde "{}")
           "Qual a capital do Peru?" RespForaDeEscopo).
  - reflexivity.
  - reflexivity.
Defined.

(** X18: the second tool never answers that it found no orders (the
    test of line 372 cannot succeed); the failure it passes on is a
    message of the first tool other than the missing-parameter one; and
    the final answer is the model's reply to a prompt that carries
    between one and three orders returned by the first tool for the
    hints of the analysis. *)
Theorem later_replies_come_from_first_tool
    (json_loads : string -> option json) (fuel : nat) (post : api) (m : ia)
    (pergunta : string) (r : resposta) :
  responder_pergunta_sobre_pedidos json_loads fuel post m pergunta
  = Some (Ok r) ->
  sem_consulta r = false ->
  exists raw dados ps,
    generate_content m (PromptAnalise pergunta) = Some raw /\
    json_loads (json_text raw) = Some dados /\
    no_hint (hints_de dados) = false /\
    match r with
    | RespNaoConsegui msg =>
        encontrar_pedidos_cliente fuel post (hints_de dados)
        = Some (ps, Ok (Mensagem msg)) /\ msg <> MsgSemParametro
    | RespTexto t =>
        exists pe pedidos,
          encontrar_pedidos_cliente fuel post (hints_de dados)
          = Some (ps, Ok (Pedidos pedidos)) /\
          (1 <= List.length pedidos <= 3)%nat /\
          generate_content m (PromptResposta pergunta pe pedidos) = Some t
    | RespErroRespostaFinal =>
        exists pe pedidos,
          encontrar_pedidos_cliente fuel post (hints_de dados)
          = Some (ps, Ok (Pedidos pedidos)) /\
          (1 <= List.length pedidos <= 3)%nat /\
          generate_content m (PromptResposta pergunta pe pedidos) = None
    | _ => False
    end.
Proof.
  unfold responder_pergunta_sobre_pedidos, dados_interpretados.
  intros H Hs.
  destruct (model_ok m);
    [|injection H as <-; discriminate Hs]. cbn [negb] in *.
  destruct (generate_content m (PromptAnalise pergunta)) as [raw|] eqn:Er;
    [|injection H as <-; discriminate Hs].
  destruct (json_loads (json_text raw)) as [dados|] eqn:Ed;
    [|injection H as <-; discriminate Hs].
  destruct (responder_com_dados_cases _ _ _ _ _ _ H)
    as [(Ht & ->)|[(Ht & Hn & ->)|(_ & Hn & ps & [(msg & E & ->)|(l & E & _ & Hg)])]];
    try discriminate Hs; exists raw, dados, ps;
    (split; [reflexivity|]); (split; [assumption|]); (split; [assumption|]).
  - split; [assumption|]. intros ->. apply sem_parametro_no_hint in E.
    congruence.
  - pose proof (returned_orders_length _ _ _ _ _ E) as Hl.
    destruct (generate_content m (PromptResposta pergunta _ l)) as [t|] eqn:Eg;
      subst r; eexists; exists l; (split; [eassumption|]); split;
      solve [assumption | eassumption].
Qed.

Lemma later_replies_come_from_first_tool_witness :
  let dados := JObj [("sobre_pedidos", JBool true); ("cnpj_cpf", JStr "111")] in
  let post :=
    Exemplos.servir [Exemplos.pagina 1 [Exemplos.cliente 7 "111" "Alfa"]]
      (Exemplos.pedidos [Exemplos.pedido "1"; Exemplos.pedido "2"]) in
  exists raw dados' ps,
    generate_content (Exemplos.responde "Dois pedidos.")
      (PromptAnalise "Quantos pedidos tem o cliente 111?") = Some raw /\
    Exemplos.sempre dados (json_text raw) = Some dados' /\
    no_hint (hints_de dados') = false /\
    exists pe pedidos,
      encontrar_pedidos_cliente 3 post (hints_de dados')
      = Some (ps, Ok (Pedidos pedidos)) /\
      (1 <= List.length pedidos <= 3)%nat /\
      generate_content (Exemplos.responde "Dois pedidos.")
        (PromptResposta "Quantos pedidos tem o cliente 111?" pe pedidos)
      = Some "Dois pedidos.".
Proof.
  intros dados post.
  apply (later_replies_come_from_first_tool (Exemplos.sempre dados) 3 post
           (Exemplos.responde "Dois pedidos.")
           "Quantos pedidos tem o cliente 111?" (RespTexto "Dois pedidos.")).
  - vm_compute. reflexivity.
  - reflexivity.
Defined.

(** ** The text handed to the decoder *)

Lemma rstrip_idem (s : string) : PyStr.rstrip (PyStr.rstrip s) = PyStr.rstrip s.
Proof.
  induction s as [|c s IH]; [reflexivity|].
  cbn [PyStr.rstrip]. destruct (PyStr.rstrip s) as [|d r] eqn:E.
  - destruct (PyStr.isspace c) eqn:Ec; [reflexivity|].
    cbn [PyStr.rstrip]. now rewrite Ec.
  - cbn [PyStr.rstrip] in *. now rewrite IH.
Qed.

Lemma lstrip_head (s : string) :
  PyStr.lstrip s = "" \/
  exists c r, PyStr.lstrip s = String c r /\ PyStr.isspace c = false.
Proof.
  induction s as [|c s IH]; [now left|].
  cbn [PyStr.lstrip]. destruct (PyStr.isspace c) eqn:Ec; [exact IH|].
  right. now exists c, s.
Qed.

Lemma rstrip_head (c : ascii) (r : string) :
  PyStr.isspace c = false -> exists r', PyStr.rstrip (String c r) = String c r'.
Proof.
  intros Ec. cbn [PyStr.rstrip]. destruct (PyStr.rstrip r).
  - rewrite Ec. eauto.
  - eauto.
Qed.

Lemma lstrip_strip (s : string) : PyStr.lstrip (PyStr.strip s) = PyStr.strip s.
Proof.
  unfold PyStr.strip. destruct (lstrip_head s) as [->|(c & r & -> & Ec)];
    [reflexivity|].
  destruct (rstrip_head c r Ec) as [r' ->]. cbn [PyStr.lstrip]. now rewrite Ec.
Qed.

Lemma rstrip_strip (s : string) : PyStr.rstrip (PyStr.strip s) = PyStr.strip s.
Proof. unfold PyStr.strip. apply rstrip_idem. Qed.

(** X19: whatever the model replied, the text handed to [json.loads]
    has no white space at either end. *)
Theorem json_text_stripped (raw_response_text : string) :
  PyStr.lstrip (json_text raw_response_text) = json_text raw_response_text /\
  PyStr.rstrip (json_text raw_response_text) = json_text raw_response_text.
Proof.
  unfold json_text. cbv zeta.
  destruct (PyStr.startswith "```json" (PyStr.strip raw_response_text));
    [|destruct (PyStr.startswith "```" (PyStr.strip raw_response_text))];
    split; first [apply lstrip_strip | apply rstrip_strip].
Qed.

(** X20: the closing fence is not looked at.  A reply that opens with
    the labelled fence loses its last three characters, whatever they
    are: what is decoded is the text between the opening fence and those
    three characters, stripped. *)
Theorem closing_fence_not_checked (body tail : string) :
  String.length tail = 3%nat ->
  PyStr.rstrip tail = tail ->
  json_text ("```json" ++ body ++ tail) = PyStr.strip body.
Proof.
  intros Hl Hr. unfold json_text. cbv zeta.
  assert (Hne : PyStr.rstrip tail <> "").
  { rewrite Hr. destruct tail; [discriminate Hl | discriminate]. }
  assert (Es : PyStr.strip ("```json" ++ body ++ tail)
               = ("```json" ++ body ++ tail)%string).
  { unfold PyStr.strip.
    change (PyStr.lstrip ("```json" ++ body ++ tail))
      with ("```json" ++ body ++ tail)%string.
    rewrite <- append_assoc, (rstrip_keeps _ _ Hne), Hr.
    reflexivity. }
  rewrite Es. unfold PyStr.startswith at 1. rewrite prefix_app.
  change 7%nat with (String.length "```json"). rewrite <- Hl.
  now rewrite slice_middle.
Qed.

Lemma closing_fence_not_checked_witness :
  json_text ("```json" ++ "[1, 2, 3" ++ "45]") = PyStr.strip "[1, 2, 3".
Proof.
  exact (closing_fence_not_checked "[1, 2, 3" "45]" eq_refl eq_refl).
Defined.

(** ** Data of the data model is never refused *)

Lemma for_clientes_total_any (h : hints) (normalized : option string)
    (l : list json) : forall st,
  nome_hint_ok h = true ->
  forallb cliente_ok l = true ->
  exists o, for_clientes h normalized l st = Ok o.
Proof.
  induction l as [|c l IH]; simpl; intros st Hh Hl; [eauto|].
  apply andb_true_iff in Hl as [Hc Hl].
  destruct c; try discriminate Hc. simpl in Hc.
  apply andb_true_iff in Hc as [Hc1 Hc2]. unfold is_str_or_absent in *.
  simpl.
  assert (Hd : exists s, digits_of (match dict_get "cnpj_cpf" d with
                                     | Some x => x | None => JStr "" end) = Ok s).
  { destruct (dict_get "cnpj_cpf" d) as [[]|]; try discriminate Hc1; simpl; eauto. }
  destruct Hd as [s ->]. simpl.
  destruct (cnpj_hit normalized s).
  { destruct (truthy (found_customer_details st)); eauto. }
  destruct (truthy (nome_fantasia h) && negb (has_cnpj normalized)) eqn:Ht;
    [|now apply IH].
  apply andb_true_iff in Ht as [Ht _].
  pose proof Hh as Hh'. unfold nome_hint_ok in Hh'.
  destruct (nome_fantasia h); try discriminate Hh'; try discriminate Ht. simpl.
  assert (Hb : exists b, py_lower (match dict_get "nome_fantasia" d with
                                   | Some x => x | None => JStr "" end) = Ok b).
  { destruct (dict_get "nome_fantasia" d) as [[]|]; try discriminate Hc2; simpl; eauto. }
  destruct Hb as [b ->]. simpl.
  destruct (PyStr.contains _ b); now apply IH.
Qed.

Lemma page_step_total_any (h : hints) (normalized : option string)
    (st : scan_state) (r : json) :
  nome_hint_ok h = true ->
  pagina_ok r = true ->
  (if current_page st =? 1 then total_ok r = true
   else exists q, as_number (total_pages st) = Some q) ->
  exists o, page_step h normalized st r = Ok o.
Proof.
  intros Hh Hp Ht. destruct (pagina_ok_obj r Hp) as [d ->].
  unfold page_step, pagina_ok, total_ok, is_error, clientes_de, total_de_paginas in *.
  simpl in *.
  destruct (truthy match dict_get "error" d with Some x => x | None => JNull end);
    simpl; [eauto|]. simpl in Hp.
  set (t := if current_page st =? 1 then _ else _).
  assert (Et : exists v q, t = Ok v /\ as_number v = Some q).
  { subst t. destruct (current_page st =? 1).
    - destruct (as_number _) eqn:E in Ht; [eauto | discriminate].
    - destruct Ht as [q Hq]. eauto. }
  destruct Et as (v & q & -> & Hq). simpl.
  set (cl := match dict_get "clientes_cadastro" d with Some x => x | None => JNull end) in *.
  assert (Ef : exists o, (if truthy cl
                          then l <- py_iter cl ;; for_clientes h normalized l (set_total st v)
                          else Ok (ForDone (set_total st v))) = Ok o
               /\ forall st2, o = ForDone st2 -> total_pages st2 = v).
  { destruct (truthy cl) eqn:Ecl.
    - destruct cl; try discriminate Hp; try discriminate Ecl. simpl.
      destruct (for_clientes_total_any h normalized l (set_total st v) Hh Hp)
        as [o Ho].
      exists o. split; [assumption|]. intros st2 ->.
      now apply for_clientes_pages in Ho.
    - eexists. split; [reflexivity|]. intros st2 E. now injection E as <-. }
  destruct Ef as (o & -> & Ho). simpl. destruct o as [st2|m]; [|eauto].
  destruct (truthy cl && truthy (customer_id st2)); [eauto|].
  destruct (_ && _ && _); [eauto|].
  unfold int_gt. simpl total_pages. rewrite (Ho st2 eq_refl), Hq. simpl. eauto.
Qed.

Lemma paginate_no_raise_from_any (post : api) (h : hints)
    (normalized : option string) (fuel : nat) : forall st ps o,
  nome_hint_ok h = true ->
  (forall p, pagina_ok (listar_clientes post h normalized p) = true) ->
  1 < current_page st ->
  (exists q, as_number (total_pages st) = Some q) ->
  paginate fuel post h normalized st = Some (ps, o) ->
  forall e, o <> ScanRaise e.
Proof.
  induction fuel as [|fuel IH]; intros st ps o Hh Hp Hcur Hq H; [discriminate|].
  simpl in H. pose proof Hq as [q Hq']. unfold int_le in H. rewrite Hq' in H.
  destruct (Qle_bool _ q); [|injection H as <- <-; discriminate].
  destruct (truthy (customer_id st)); [injection H as <- <-; discriminate|].
  assert (Ht : if current_page st =? 1
               then total_ok (listar_clientes post h normalized (current_page st)) = true
               else exists q, as_number (total_pages st) = Some q).
  { replace (current_page st =? 1) with false
      by (symmetry; apply Z.eqb_neq; lia). assumption. }
  destruct (page_step_total_any h normalized st _ Hh (Hp (current_page st)) Ht)
    as [so Hso].
  rewrite Hso in H. destruct so as [st'|st'|m];
    try (injection H as <- <-; discriminate).
  destruct (paginate fuel post h normalized st') as [[ps' o']|] eqn:E';
    [|discriminate].
  injection H as <- <-. apply page_step_next in Hso as (Hc & Hts & Hq2).
  apply (IH st' ps' o' Hh Hp ltac:(lia) Hq2 E').
Qed.

Lemma paginate_no_raise_any (post : api) (h : hints)
    (normalized : option string) (fuel : nat) (ps : list Z) (o : scan_outcome) :
  nome_hint_ok h = true ->
  (forall p, pagina_ok (listar_clientes post h normalized p) = true) ->
  total_ok (listar_clientes post h normalized 1) = true ->
  paginate fuel post h normalized scan_init = Some (ps, o) ->
  forall e, o <> ScanRaise e.
Proof.
  intros Hh Hp Ht. destruct fuel as [|fuel]; [discriminate|]. simpl.
  destruct (page_step_total_any h normalized scan_init _ Hh (Hp 1) Ht)
    as [so Hso].
  simpl in Hso. rewrite Hso. destruct so as [st'|st'|m];
    try (intros H; injection H as <- <-; discriminate).
  destruct (paginate fuel post h normalized st') as [[ps' o']|] eqn:E';
    [|discriminate].
  intros H. injection H as <- <-.
  apply page_step_next in Hso as (Hc & Hts & Hq2). simpl in Hc.
  apply (paginate_no_raise_from_any post h normalized fuel st' ps' o' Hh Hp
           ltac:(lia) Hq2 E').
Qed.

Lemma named_object (c : json) : named c -> is_object c.
Proof. intros [s Hs]. exact (py_get_ok _ _ _ _ Hs). Qed.

Lemma kv_set_objects (k v : json) (acc : list (json * json)) :
  is_object v -> Forall is_object (List.map snd acc) ->
  Forall is_object (List.map snd (kv_set k v acc)).
Proof.
  intros Hv. induction acc as [|[k' v'] acc IH]; simpl; intros Ha.
  - now constructor.
  - inversion Ha as [|? ? H1 H2]; subst.
    destruct (py_eq k k'); simpl; constructor; auto.
Qed.

Lemma unique_names_objects (l : list json) : forall acc u,
  Forall is_object (List.map snd acc) -> Forall is_object l ->
  unique_names_from acc l = Ok u ->
  Forall is_object (List.map snd u).
Proof.
  induction l as [|m l IH]; simpl; intros acc u Ha Hl H.
  - now injection H as <-.
  - inversion Hl as [|? ? H1 H2]; subst. bind_inv H.
    destruct (hashable a); [|discriminate].
    apply (IH _ _ (kv_set_objects a m acc H1 Ha) H2 H).
Qed.

(** The steps after the loop do not raise on collected records of the
    data model. *)
Lemma validate_found_total (h : hints) (st : scan_state) :
  Forall named (possible_matches_by_name st) ->
  exists r, validate_found h st = Ok r.
Proof.
  intros Hm. unfold validate_found, by_name.
  assert (Ho : Forall is_object (possible_matches_by_name st)).
  { eapply Forall_impl; [|exact Hm]. apply named_object. }
  destruct (truthy (customer_id st)) eqn:Ec; cbn [negb andb bind].
  { destruct (_ || _); eauto. }
  destruct (possible_matches_by_name st) as [|m1 [|m2 ms]] eqn:Em;
    cbn [List.length Nat.eqb negb bind].
  - rewrite Ec. cbn [negb orb]. eauto.
  - inversion Ho as [|? ? [d ->] _]; subst. cbn [py_get bind].
    destruct (_ || _); eauto.
  - destruct (unique_names_count _ Hm) as (u & Eu & _). rewrite Eu.
    cbn [bind].
    pose proof (unique_names_objects _ [] u (Forall_nil _) Ho Eu) as Hu.
    destruct u as [|[k v] [|kv u]]; cbn [bind]; eauto.
    inversion Hu as [|? ? Hv _]; subst. simpl in Hv. destruct Hv as [d ->].
    cbn [py_get bind]. destruct (_ || _); eauto.
Qed.

Lemma data_model_orders_total (customer_id : json) (up : list json) :
  up <> [] -> forallb pedido_ok up = true ->
  exists r, processar_pedidos customer_id (JArr up) = Ok r.
Proof.
  intros Hne Hok. unfold processar_pedidos.
  assert (Hs : exists srt, pedidos_ordenados (JArr up) = JArr srt /\
                           forallb pedido_ok (firstn 3 srt) = true).
  { unfold pedidos_ordenados.
    destruct (sorted_by_numero_pedido (JArr up)) as [l'|e] eqn:E.
    - exists l'. split; [reflexivity|]. apply forallb_forall. intros x Hx.
      apply (proj1 (forallb_forall pedido_ok up) Hok).
      apply sorted_by_numero_pedido_perm in E.
      apply (Permutation_in x (Permutation_sym E)). now apply (in_firstn 3).
    - exists up. split; [reflexivity|]. apply forallb_forall. intros x Hx.
      apply (proj1 (forallb_forall pedido_ok up) Hok). now apply (in_firstn 3). }
  destruct Hs as (srt & -> & Hf). cbn [py_slice3 py_iter bind].
  rewrite (mapM_map formatar_pedido pedido_formatado (firstn 3 srt)).
  - cbn [bind]. destruct (List.map _ _); eauto.
  - intros x Hx. apply formatar_pedido_model.
    now apply (proj1 (forallb_forall pedido_ok _) Hf).
Qed.

Lemma encontrar_pedidos_total (post : api) (customer_id : json) :
  pedidos_ok (listar_pedidos post customer_id) = true ->
  exists r, encontrar_pedidos post customer_id = Ok r.
Proof.
  unfold encontrar_pedidos, pedidos_ok, listar_pedidos. cbv zeta.
  destruct (call_omie_api_dict post "/produtos/pedido/" "ListarPedidos"
              (listar_pedidos_params customer_id)) as [d ->].
  unfold is_error, pedido_venda_produto_de. cbn [py_get bind].
  destruct (truthy match dict_get "error" d with
                   | Some x => x | None => JNull end); [eauto|].
  destruct (truthy match dict_get "pedido_venda_produto" d with
                   | Some x => x | None => JNull end) eqn:Et;
    [|intros _; cbn [negb]; eauto].
  cbn [negb orb]. intros H.
  destruct (match dict_get "pedido_venda_produto" d with
            | Some x => x | None => JNull end) as [| | | | |up|]; try discriminate H.
  assert (Hne : up <> []) by (intros ->; discriminate Et).
  exact (data_model_orders_total customer_id up Hne H).
Qed.

(** X22: on data of the data model the first tool never raises.  When
    the tax id hint is usable, the name hint is absent or a string, every
    page of the directory is an error object or holds records whose tax
    id and display name are strings or absent, the first page announces a
    number of pages, and every response to the orders request is an error
    object, empty, or a list of well-formed orders: whatever the call
    returns is an order list or a message, and it does return one once
    the turns allowed exceed the page count the first page announces. *)
Theorem data_model_is_never_refused (post : api) (h : hints)
    (normalized : option string) :
  normalize_input (cnpj_cpf h) = Ok normalized ->
  nome_hint_ok h = true ->
  (forall p, pagina_ok (listar_clientes post h normalized p) = true) ->
  total_ok (listar_clientes post h normalized 1) = true ->
  (forall id, pedidos_ok (listar_pedidos post id) = true) ->
  (forall fuel ps res,
     encontrar_pedidos_cliente fuel post h = Some (ps, res) ->
     exists r, res = Ok r) /\
  (forall fuel,
     (Z.to_nat (page_bound (listar_clientes post h normalized 1)) < fuel)%nat ->
     exists ps r, encontrar_pedidos_cliente fuel post h = Some (ps, Ok r)).
Proof.
  intros Hno Hh Hp Ht Hped.
  assert (Hok : forall fuel ps res,
            encontrar_pedidos_cliente fuel post h = Some (ps, res) ->
            exists r, res = Ok r).
  { intros fuel ps res H.
    unfold encontrar_pedidos_cliente, encontrar_id_cliente in H.
    destruct (negb _); [injection H as _ <-; eauto|].
    rewrite Hno in H.
    destruct (paginate fuel post h normalized scan_init) as [[ps' o]|] eqn:E;
      [|discriminate H].
    pose proof (paginate_no_raise_any post h normalized fuel ps' o Hh Hp Ht E)
      as Hnr.
    destruct o as [st|m|e]; [|injection H as _ <-; eauto|now destruct (Hnr e)].
    assert (Hm : Forall named (possible_matches_by_name st)).
    { destruct (has_cnpj normalized) eqn:Hc.
      - rewrite (paginate_tax_matches post h normalized fuel scan_init ps' st Hc E).
        constructor.
      - now destruct (paginate_collects post h normalized fuel scan_init ps'
                        (ScanDone st) Hc eq_refl (Forall_nil _) E)
          as (_ & _ & Hm & _). }
    destruct (validate_found_total h st Hm) as [[id rec|m] Ev]; rewrite Ev in H.
    - injection H as _ <-. apply encontrar_pedidos_total, Hped.
    - injection H as _ <-. eauto. }
  split; [exact Hok|].
  intros fuel Hf.
  destruct (paginate_ends post h normalized fuel Hf) as [[ps o] E].
  assert (Hsome : exists ps' res,
            encontrar_pedidos_cliente fuel post h = Some (ps', res)).
  { unfold encontrar_pedidos_cliente, encontrar_id_cliente.
    destruct (negb _); [eauto|]. rewrite Hno, E.
    destruct o as [st|m|e]; [|eauto|eauto].
    destruct (validate_found h st) as [[id rec|m]|e]; eauto. }
  destruct Hsome as (ps' & res & Hres).
  destruct (Hok fuel ps' res Hres) as [r ->]. eauto.
Qed.

Lemma data_model_is_never_refused_witness :
  let h := mkHints (JStr "333") JNull JNull in
  let post :=
    Exemplos.servir
      [Exemplos.pagina 2 [Exemplos.cliente 1 "111" "ACME Norte";
                          Exemplos.cliente 2 "222" "Outra"];
       Exemplos.pagina 2 [Exemplos.cliente 3 "333" "Acme Sul"]]
      (Exemplos.pedidos [Exemplos.pedido "1"; Exemplos.pedido "2"]) in
  exists ps r, encontrar_pedidos_cliente 3 post h = Some (ps, Ok r).
Proof.
  intros h post.
  assert (Hp : forall p, pagina_ok (listar_clientes post h (Some "333") p) = true).
  { intros p. unfold listar_clientes, call_omie_api, post, Exemplos.servir.
    cbn [String.eqb Ascii.eqb Bool.eqb].
    destruct (nth_error _ _) as [pg|] eqn:E; [|reflexivity].
    destruct (Z.to_nat _) as [|[|[|n]]]; simpl in E;
      try (injection E as <-; reflexivity); try discriminate E. }
  apply (proj2 (data_model_is_never_refused post h (Some "333")
                  eq_refl eq_refl Hp eq_refl (fun id => eq_refl)) 3%nat).
  vm_compute. repeat constructor.
Defined.

(** X23: the two messages of the orders step are given only once a
    customer is resolved with a truthy id and a truthy record.  The error
    message quotes the [message] of the error object the orders request
    returned; the no-orders message names the resolved id and is given
    when the response is not an error and its [pedido_venda_produto] is
    absent, null or empty. *)
Theorem orders_messages_follow_resolution (fuel : nat) (post : api)
    (h : hints) (ps : list Z) (m : message) :
  encontrar_pedidos_cliente fuel post h = Some (ps, Ok (Mensagem m)) ->
  (exists msg, m = MsgErroBuscarPedidos msg) \/
  (exists id, m = MsgNenhumPedido id) ->
  exists id rec,
    encontrar_id_cliente fuel post h = Some (ps, Ok (Resolvido id rec)) /\
    truthy id = true /\ truthy rec = true /\
    ((is_error (listar_pedidos post id) = true /\
      m = MsgErroBuscarPedidos (message_de (listar_pedidos post id))) \/
     (is_error (listar_pedidos post id) = false /\
      truthy (pedido_venda_produto_de (listar_pedidos post id)) = false /\
      m = MsgNenhumPedido id)).
Proof.
  intros H Hm. apply encontrar_pedidos_cliente_cases in H
    as [(_ & _ & X)|(_ & normalized & Hn & [(m' & Hp & E)
          |(st & Hp & [(m' & Hv & E)|(id & rec & Hv & He)])])].
  - injection X as X. subst m.
    destruct Hm as [(msg & X)|(id & X)]; discriminate X.
  - injection E as E. subst m'.
    apply paginate_returns in Hp as (_ & [(_ & X)|[(_ & X & _)|(_ & X & _)]]);
      subst m; destruct Hm as [(msg & X)|(id & X)]; discriminate X.
  - injection E as E. subst m'.
    apply validate_found_falha in Hv as [X|(k & X & _)];
      subst m; destruct Hm as [(msg & X)|(id & X)]; discriminate X.
  - exists id, rec.
    split; [unfold encontrar_id_cliente; now rewrite Hn, Hp, Hv|].
    destruct (validate_found_resolvido _ _ _ _ Hv) as [Hid Hrec].
    split; [assumption|]. split; [assumption|].
    apply encontrar_pedidos_ok in He
      as [(E1 & X)|[(E1 & E2 & X)|(_ & up & srt & l & _ & _ & _ & _ & X & _)]];
      try discriminate X; injection X as X; subst m; auto.
Qed.

Lemma orders_messages_follow_resolution_witness :
  let h := mkHints (JStr "111") JNull JNull in
  let post :=
    Exemplos.servir [Exemplos.pagina 1 [Exemplos.cliente 7 "111" "Alfa"]]
      (JObj []) in
  exists id rec,
    encontrar_id_cliente 2 post h = Some ([1], Ok (Resolvido id rec)) /\
    truthy id = true /\ truthy rec = true /\
    ((is_error (listar_pedidos post id) = true /\
      MsgNenhumPedido (JInt 7)
      = MsgErroBuscarPedidos (message_de (listar_pedidos post id))) \/
     (is_error (listar_pedidos post id) = false /\
      truthy (pedido_venda_produto_de (listar_pedidos post id)) = false /\
      MsgNenhumPedido (JInt 7) = MsgNenhumPedido id)).
Proof.
  intros h post.
  apply (orders_messages_follow_resolution 2 post h [1] (MsgNenhumPedido (JInt 7))).
  - vm_compute. reflexivity.
  - right. now exists (JInt 7).
Defined.

(** ** CustomerResolver: a second record with the tax id *)

Lemma for_clientes_second_hit (h : hints) (normalized : option string)
    (l : list json) (c : json) (st : scan_state) :
  has_cnpj normalized = true ->
  find_hit normalized l = Some c ->
  truthy (found_customer_details st) = true ->
  for_clientes h normalized l st
  = Ok (ForReturn (MsgMultiplosCnpj (cnpj_cpf h))).
Proof.
  intros Hn Hf Hfd.
  destruct (find_hit_split normalized l c Hf) as (l1 & l2 & s & -> & H1 & H2 & H3).
  rewrite for_clientes_misses by assumption.
  destruct (api_cnpj_cpf_obj c s H2) as (d & -> & Hd).
  simpl. rewrite Hd. simpl. rewrite H3, Hfd. reflexivity.
Qed.

(** A page that holds a match, met when a record is already kept. *)
Lemma page_step_second_hit (h : hints) (normalized : option string)
    (p : Z) (t cid fnd : json) (ms : list json) (r c : json) :
  has_cnpj normalized = true ->
  is_error r = false ->
  first_hit normalized r = Some c ->
  truthy fnd = true ->
  page_step h normalized (mkScan p t cid fnd ms) r
  = Ok (StepReturn (MsgMultiplosCnpj (cnpj_cpf h))).
Proof.
  intros Hn He Hf Hfd. unfold first_hit, is_error, clientes_de in *.
  destruct r; try discriminate Hf. unfold page_step. simpl in *.
  rewrite He. simpl.
  set (t' := if p =? 1 then total_de_paginas (JObj d) else t).
  assert (Et : (if p =? 1
                then Ok match dict_get "total_de_paginas" d with
                        | Some x => x | None => JInt 1 end
                else Ok t) = Ok t').
  { subst t'. unfold total_de_paginas. simpl. destruct (p =? 1); reflexivity. }
  rewrite Et. simpl.
  set (cl := match dict_get "clientes_cadastro" d with
             | Some x => x | None => JNull end) in *.
  destruct cl; try discriminate Hf.
  destruct l as [|x l]; [discriminate Hf|]. simpl truthy. cbv iota.
  simpl py_iter. cbn [bind].
  rewrite (for_clientes_second_hit h normalized (x :: l) c
             (set_total (mkScan p t cid fnd ms) t') Hn Hf Hfd).
  reflexivity.
Qed.

(** A page that holds the first match, when the matching record has no
    usable customer id: the record is kept and the loop goes on. *)
Lemma page_step_hit_without_id (h : hints) (normalized : option string)
    (p : Z) (t cid fnd : json) (ms : list json) (r c : json) (q : Q) :
  has_cnpj normalized = true ->
  is_error r = false ->
  first_hit normalized r = Some c ->
  truthy fnd = false ->
  truthy (codigo_de c) = false ->
  let t' := if p =? 1 then total_de_paginas r else t in
  as_number t' = Some q ->
  page_step h normalized (mkScan p t cid fnd ms) r
  = Ok (StepNext (mkScan (p + 1) t' (codigo_de c) c ms)).
Proof.
  intros Hn He Hf Hfd Hid t' Hq. unfold first_hit, is_error, clientes_de in *.
  destruct r; try discriminate Hf. unfold page_step. simpl in *.
  rewrite He. simpl.
  assert (Et : (if p =? 1
                then Ok match dict_get "total_de_paginas" d with
                        | Some x => x | None => JInt 1 end
                else Ok t) = Ok t').
  { subst t'. unfold total_de_paginas. simpl. destruct (p =? 1); reflexivity. }
  rewrite Et. simpl.
  set (cl := match dict_get "clientes_cadastro" d with
             | Some x => x | None => JNull end) in *.
  destruct cl; try discriminate Hf.
  destruct l as [|x l]; [discriminate Hf|]. simpl truthy. cbv iota.
  simpl py_iter. cbn [bind].
  rewrite (for_clientes_hit h normalized (x :: l) c
             (set_total (mkScan p t cid fnd ms) t') Hn Hf Hfd).
  simpl. rewrite Hid. simpl. unfold int_gt. simpl. rewrite Hq. reflexivity.
Qed.

(** Pages without a match, then a page with one, a record being kept. *)
Lemma paginate_misses_then_second_hit (post : api) (h : hints)
    (normalized : option string) (c : json) (t cid fnd : json) (q : Q)
    (ms : list json) (n : nat) : forall p fuel,
  has_cnpj normalized = true ->
  truthy cid = false -> truthy fnd = true ->
  1 < p -> as_number t = Some q ->
  p + Z.of_nat n <= Qfloor q ->
  (forall i, p <= i < p + Z.of_nat n ->
     miss_page normalized (listar_clientes post h normalized i) = true) ->
  is_error (listar_clientes post h normalized (p + Z.of_nat n)) = false ->
  first_hit normalized (listar_clientes post h normalized (p + Z.of_nat n))
    = Some c ->
  (n < fuel)%nat ->
  paginate fuel post h normalized (mkScan p t cid fnd ms)
  = Some (List.map (fun i => p + Z.of_nat i) (seq 0 (S n)),
          ScanReturn (MsgMultiplosCnpj (cnpj_cpf h))).
Proof.
  induction n as [|n IH]; intros p fuel Hn Hc Hfd Hp Hq Hle Hm He Hf Hfuel;
    (destruct fuel as [|fuel]; [lia|]); cbn [paginate];
    unfold int_le; cbn [current_page total_pages customer_id]; rewrite Hq;
    (replace (Qle_bool (inject_Z p) q) with true
       by (symmetry; apply Qle_bool_floor; lia)); rewrite Hc.
  - rewrite Z.add_0_r in *.
    rewrite (page_step_second_hit h normalized p t cid fnd ms _ c Hn He Hf Hfd).
    cbn [seq List.map Z.of_nat]. now rewrite Z.add_0_r.
  - assert (Hstep : page_step h normalized (mkScan p t cid fnd ms)
                      (listar_clientes post h normalized p)
                    = Ok (StepNext (mkScan (p + 1) t cid fnd ms))).
    { pose proof (page_step_miss h normalized p t cid fnd ms
                    (listar_clientes post h normalized p) q Hn
                    (Hm p ltac:(lia)) Hc) as X.
      cbv zeta in X.
      replace (p =? 1) with false in X by (symmetry; apply Z.eqb_neq; lia).
      apply X; [assumption | lia]. }
    rewrite Hstep.
    rewrite (IH (p + 1) fuel Hn Hc Hfd ltac:(lia) Hq ltac:(lia)); try lia.
    + now rewrite pages_from_cons.
    + intros i Hi. apply Hm. lia.
    + replace (p + 1 + Z.of_nat n) with (p + Z.of_nat (S n)) by lia. assumption.
    + replace (p + 1 + Z.of_nat n) with (p + Z.of_nat (S n)) by lia. assumption.
Qed.

(** Pages without a match, a page whose match has no usable id, pages
    without a match, then a page with a match. *)
Lemma paginate_two_hits (post : api) (h : hints)
    (normalized : option string) (c1 c2 : json) (t : json) (q : Q)
    (ms : list json) (m : nat) (n : nat) : forall p fuel,
  has_cnpj normalized = true ->
  1 < p -> as_number t = Some q ->
  p + Z.of_nat n + 1 + Z.of_nat m <= Qfloor q ->
  (forall i, p <= i < p + Z.of_nat n + 1 + Z.of_nat m ->
     i <> p + Z.of_nat n ->
     miss_page normalized (listar_clientes post h normalized i) = true) ->
  is_error (listar_clientes post h normalized (p + Z.of_nat n)) = false ->
  first_hit normalized (listar_clientes post h normalized (p + Z.of_nat n))
    = Some c1 ->
  truthy c1 = true ->
  truthy (codigo_de c1) = false ->
  is_error (listar_clientes post h normalized
              (p + Z.of_nat n + 1 + Z.of_nat m)) = false ->
  first_hit normalized
    (listar_clientes post h normalized (p + Z.of_nat n + 1 + Z.of_nat m))
    = Some c2 ->
  (n + 1 + m < fuel)%nat ->
  paginate fuel post h normalized (mkScan p t JNull JNull ms)
  = Some (List.map (fun i => p + Z.of_nat i) (seq 0 (S (n + 1 + m))),
          ScanReturn (MsgMultiplosCnpj (cnpj_cpf h))).
Proof.
  induction n as [|n IH]; intros p fuel Hn Hp Hq Hle Hm He1 Hf1 Hc1 Hid He2 Hf2
    Hfuel;
    (destruct fuel as [|fuel]; [lia|]); cbn [paginate];
    unfold int_le; cbn [current_page total_pages customer_id]; rewrite Hq;
    (replace (Qle_bool (inject_Z p) q) with true
       by (symmetry; apply Qle_bool_floor; lia)); cbn [truthy].
  - rewrite Z.add_0_r in *.
    pose proof (page_step_hit_without_id h normalized p t JNull JNull ms
                  (listar_clientes post h normalized p) c1 q Hn He1 Hf1
                  eq_refl Hid) as X.
    cbv zeta in X.
    replace (p =? 1) with false in X by (symmetry; apply Z.eqb_neq; lia).
    rewrite (X Hq).
    rewrite (paginate_misses_then_second_hit post h normalized c2 t
               (codigo_de c1) c1 q ms m (p + 1) fuel Hn Hid Hc1
               ltac:(lia) Hq ltac:(lia)); try assumption; try lia.
    + now rewrite pages_from_cons.
    + intros i Hi. apply Hm; lia.
  - assert (Hstep : page_step h normalized (mkScan p t JNull JNull ms)
                      (listar_clientes post h normalized p)
                    = Ok (StepNext (mkScan (p + 1) t JNull JNull ms))).
    { pose proof (page_step_miss h normalized p t JNull JNull ms
                    (listar_clientes post h normalized p) q Hn
                    (Hm p ltac:(lia) ltac:(lia)) eq_refl) as X.
      cbv zeta in X.
      replace (p =? 1) with false in X by (symmetry; apply Z.eqb_neq; lia).
      apply X; [assumption | lia]. }
    rewrite Hstep.
    assert (E : p + 1 + Z.of_nat n = p + Z.of_nat (S n)) by lia.
    rewrite (IH (p + 1) fuel Hn ltac:(lia) Hq); try lia;
      rewrite ?E; try assumption.
    + now rewrite pages_from_cons.
    + intros i Hi Hne. apply Hm; lia.
Qed.

Lemma second_match_is_reported (fuel : nat) (post : api) (h : hints)
    (normalized : option string) (k j : nat) (c1 c2 : json) :
  normalize_input (cnpj_cpf h) = Ok normalized ->
  has_cnpj normalized = true ->
  (1 <= k < j)%nat ->
  (forall p, 1 <= p < Z.of_nat j -> p <> Z.of_nat k ->
     miss_page normalized (listar_clientes post h normalized p) = true) ->
  is_error (listar_clientes post h normalized (Z.of_nat k)) = false ->
  first_hit normalized (listar_clientes post h normalized (Z.of_nat k))
    = Some c1 ->
  truthy (codigo_de c1) = false ->
  is_error (listar_clientes post h normalized (Z.of_nat j)) = false ->
  first_hit normalized (listar_clientes post h normalized (Z.of_nat j))
    = Some c2 ->
  Z.of_nat j <= page_bound (listar_clientes post h normalized 1) ->
  (j <= fuel)%nat ->
  encontrar_pedidos_cliente fuel post h
  = Some (pages_upto j, Ok (Mensagem (MsgMultiplosCnpj (cnpj_cpf h)))).
Proof.
  intros Hno Hn Hkj Hm He1 Hf1 Hid He2 Hf2 Hb Hfuel.
  assert (Hc1 : truthy c1 = true).
  { unfold first_hit in Hf1. destruct (clientes_de _) as [l|]; [|discriminate].
    destruct (find_hit_split normalized l c1 Hf1) as (_ & _ & s & _ & _ & H1 & H2).
    exact (hit_record_truthy normalized c1 s H1 H2). }
  assert (Hq : exists q, as_number (total_de_paginas
                                      (listar_clientes post h normalized 1))
                         = Some q /\ Z.of_nat j <= Qfloor q).
  { unfold page_bound in Hb. destruct (as_number _) as [q|]; [|lia].
    exists q. split; [reflexivity | lia]. }
  destruct Hq as (q & Hq & Hfl).
  pose proof (has_cnpj_truthy _ _ Hno Hn) as Ht.
  unfold encontrar_pedidos_cliente, encontrar_id_cliente.
  rewrite Ht. cbn [orb negb]. rewrite Hno.
  destruct fuel as [|fuel]; [lia|].
  cbn [paginate]. change (int_le (current_page scan_init) (total_pages scan_init))
    with (@Ok bool true). cbn iota. cbn [customer_id scan_init truthy].
  change (current_page scan_init) with 1. unfold scan_init.
  destruct k as [|[|k]]; [lia| |].
  - change (Z.of_nat 1) with 1 in *.
    pose proof (page_step_hit_without_id h normalized 1 (JInt 1) JNull JNull []
                  (listar_clientes post h normalized 1) c1 q Hn He1 Hf1
                  eq_refl Hid) as X.
    cbv zeta in X. cbn [Z.eqb Pos.eqb] in X. rewrite (X Hq).
    cbn [Z.add Pos.add].
    rewrite (paginate_misses_then_second_hit post h normalized c2 _
               (codigo_de c1) c1 q [] (j - 2) 2 fuel Hn Hid Hc1
               ltac:(lia) Hq ltac:(lia)); try lia.
    + replace (S (j - 2)) with (j - 1)%nat by lia.
      change 2 with (1 + 1). rewrite pages_from_cons.
      replace (S (j - 1)) with j by lia.
      now rewrite pages_upto_consecutive.
    + intros i Hi. apply Hm; lia.
    + replace (2 + Z.of_nat (j - 2)) with (Z.of_nat j) by lia. assumption.
    + replace (2 + Z.of_nat (j - 2)) with (Z.of_nat j) by lia. assumption.
  - pose proof (page_step_miss h normalized 1 (JInt 1) JNull JNull []
                  (listar_clientes post h normalized 1) q Hn
                  (Hm 1 ltac:(lia) ltac:(lia)) eq_refl) as X.
    cbv zeta in X. cbn [Z.eqb Pos.eqb] in X.
    rewrite (X Hq ltac:(lia)). cbn [Z.add Pos.add].
    assert (Ek : 2 + Z.of_nat k = Z.of_nat (S (S k))) by lia.
    assert (Ej : 2 + Z.of_nat k + 1 + Z.of_nat (j - S (S k) - 1) = Z.of_nat j)
      by lia.
    rewrite (paginate_two_hits post h normalized c1 c2 _ q []
               (j - S (S k) - 1) k 2 fuel Hn ltac:(lia) Hq); try lia;
      rewrite ?Ej, ?Ek; try assumption.
    + replace (S (k + 1 + (j - S (S k) - 1))) with (j - 1)%nat by lia.
      change 2 with (1 + 1). rewrite pages_from_cons.
      replace (S (j - 1)) with j by lia.
      now rewrite pages_upto_consecutive.
    + intros i Hi Hne. apply Hm; lia.
Qed.

(** What the loop over a page leaves of the record it keeps. *)
Lemma for_clientes_keeps (h : hints) (normalized : option string)
    (l : list json) : forall st st',
  for_clientes h normalized l st = Ok (ForDone st') ->
  (found_customer_details st' = found_customer_details st /\
   customer_id st' = customer_id st) \/
  (find_hit normalized l = Some (found_customer_details st') /\
   customer_id st' = codigo_de (found_customer_details st')).
Proof.
  induction l as [|c l IH]; simpl; intros st st' H.
  - injection H as <-. auto.
  - bind_inv H. bind_inv H. bind_inv H.
    assert (Ea : api_cnpj_cpf c = Ok a0) by (unfold api_cnpj_cpf; now rewrite Ha).
    rewrite Ea.
    destruct (cnpj_hit normalized a0) eqn:Eh.
    + destruct (truthy (found_customer_details st)); [discriminate|].
      bind_inv H. injection H as <-. right. simpl.
      unfold codigo_de. now rewrite Ha2.
    + assert (IH' : forall st0, for_clientes h normalized l st0 = Ok (ForDone st') ->
                      found_customer_details st0 = found_customer_details st ->
                      customer_id st0 = customer_id st ->
                      (found_customer_details st' = found_customer_details st /\
                       customer_id st' = customer_id st) \/
                      (find_hit normalized l = Some (found_customer_details st') /\
                       customer_id st' = codigo_de (found_customer_details st'))).
      { intros st0 H0 E1 E2. destruct (IH st0 st' H0) as [[X1 X2]|X]; [|auto].
        left. now rewrite X1, X2. }
      destruct (truthy (nome_fantasia h) && negb (has_cnpj normalized)).
      * bind_inv H. bind_inv H.
        destruct (PyStr.contains a2 a3); eapply IH'; eauto.
      * eapply IH'; eauto.
Qed.

Lemma for_clientes_reports (h : hints) (normalized : option string)
    (l : list json) : forall st m,
  for_clientes h normalized l st = Ok (ForReturn m) ->
  truthy (found_customer_details st) = true /\
  exists c, find_hit normalized l = Some c.
Proof.
  induction l as [|c l IH]; simpl; intros st m H; [discriminate|].
  bind_inv H. bind_inv H. bind_inv H.
  assert (Ea : api_cnpj_cpf c = Ok a0) by (unfold api_cnpj_cpf; now rewrite Ha).
  rewrite Ea.
  destruct (cnpj_hit normalized a0) eqn:Eh.
  - destruct (truthy (found_customer_details st)) eqn:Ef.
    + split; [reflexivity | eauto].
    + bind_inv H. discriminate.
  - destruct (truthy (nome_fantasia h) && negb (has_cnpj normalized)).
    + bind_inv H. bind_inv H.
      destruct (PyStr.contains a2 a3); apply IH in H; exact H.
    + now apply IH in H.
Qed.

(** The records of a page in which a match is found are a list. *)
Lemma py_iter_hit (normalized : option string) (cl : json) (l : list json)
    (c : json) :
  py_iter cl = Ok l -> find_hit normalized l = Some c -> cl = JArr l.
Proof.
  destruct cl as [| | | |s|l'|d]; simpl; try discriminate.
  - intros H. injection H as <-. destruct s; discriminate.
  - intros H. now injection H as <-.
  - intros H. injection H as <-. destruct d as [|[k v] d]; discriminate.
Qed.

Lemma page_step_keeps (h : hints) (normalized : option string)
    (st : scan_state) (r : json) (o : step_outcome) :
  page_step h normalized st r = Ok o ->
  match o with
  | StepNext st' | StepBreak st' =>
      (found_customer_details st' = found_customer_details st /\
       customer_id st' = customer_id st) \/
      (first_hit normalized r = Some (found_customer_details st') /\
       customer_id st' = codigo_de (found_customer_details st'))
  | StepReturn m =>
      forall x, m = MsgMultiplosCnpj x ->
      truthy (found_customer_details st) = true /\
      exists c, first_hit normalized r = Some c
  end.
Proof.
  unfold page_step. intros H. bind_inv H.
  destruct r as [| | | | | |d]; try discriminate Ha.
  unfold first_hit, clientes_de. cbn [py_get bind] in *.
  destruct (truthy a).
  { injection H as <-. intros x X. discriminate X. }
  bind_inv H. bind_inv H.
  set (cl := match dict_get "clientes_cadastro" d with
             | Some x => x | None => JNull end) in *.
  destruct a1 as [st2|m].
  - assert (K : (found_customer_details st2 = found_customer_details st /\
                 customer_id st2 = customer_id st) \/
                (match match cl with
                       | JArr l => Some l
                       | JNull => Some []
                       | _ => None
                       end with
                 | Some l => find_hit normalized l
                 | None => None
                 end = Some (found_customer_details st2) /\
                 customer_id st2 = codigo_de (found_customer_details st2))).
    { destruct (truthy cl) eqn:Ecl.
      - bind_inv Ha1.
        destruct (for_clientes_keeps _ _ _ _ _ Ha1) as [X|[X1 X2]].
        + left. exact X.
        + right. rewrite (py_iter_hit normalized cl a1 _ Ha2 X1). auto.
      - injection Ha1 as <-. left. auto. }
    destruct (truthy cl && truthy (customer_id st2)).
    { injection H as <-. exact K. }
    destruct (negb _ && _ && _).
    { injection H as <-. intros x X. discriminate X. }
    bind_inv H. injection H as <-. exact K.
  - injection H as <-. intros x _.
    destruct (truthy cl) eqn:Ecl; [|discriminate Ha1].
    bind_inv Ha1.
    destruct (for_clientes_reports _ _ _ _ _ Ha1) as (Hf & c & Hc).
    split; [exact Hf|]. exists c.
    now rewrite (py_iter_hit normalized cl a1 c Ha2 Hc).
Qed.

(** When the message about several records is returned, a record with
    the tax id was kept on an earlier page without a usable customer id,
    and the page the message comes from holds a match too. *)
Lemma paginate_reports (post : api) (h : hints) (normalized : option string)
    (fuel : nat) : forall st ps x,
  1 <= current_page st ->
  (truthy (found_customer_details st) = true ->
   exists k, 1 <= k < current_page st /\
     first_hit normalized (listar_clientes post h normalized k)
     = Some (found_customer_details st) /\
     customer_id st = codigo_de (found_customer_details st)) ->
  paginate fuel post h normalized st
  = Some (ps, ScanReturn (MsgMultiplosCnpj x)) ->
  exists k c1 c2,
    1 <= k < last ps 0 /\
    first_hit normalized (listar_clientes post h normalized k) = Some c1 /\
    truthy (codigo_de c1) = false /\
    first_hit normalized (listar_clientes post h normalized (last ps 0))
    = Some c2.
Proof.
  induction fuel as [|fuel IH]; intros st ps x Hp Hi H; [discriminate|].
  simpl in H.
  destruct (int_le (current_page st) (total_pages st)) as [[|]|]; try discriminate.
  destruct (truthy (customer_id st)) eqn:Ec; [discriminate|].
  destruct (page_step h normalized st
              (listar_clientes post h normalized (current_page st)))
    as [[st'|st'|m']|e] eqn:E; try discriminate.
  - destruct (paginate fuel post h normalized st') as [[ps' o']|] eqn:E';
      [|discriminate].
    injection H as <- ->.
    pose proof (paginate_returns _ _ _ _ _ _ _ E') as (Hne & _).
    rewrite (last_nonempty _ _ _ Hne).
    pose proof (page_step_keeps _ _ _ _ _ E) as K. cbv beta iota in K.
    apply page_step_next in E as (Hc & _).
    apply (IH st' ps' x); [lia| |exact E'].
    intros Hf. destruct K as [[K1 K2]|[K1 K2]].
    + rewrite K1, K2 in *. destruct (Hi Hf) as (k & Hk & R). exists k.
      split; [lia | exact R].
    + exists (current_page st). split; [lia | auto].
  - injection H as Hps Hm. subst ps m'.
    pose proof (page_step_keeps _ _ _ _ _ E) as K. cbv beta iota in K.
    destruct (K x eq_refl) as (Hf & c2 & Hc2).
    destruct (Hi Hf) as (k & Hk & R1 & R2).
    exists k, (found_customer_details st), c2. cbn [last].
    repeat split; try assumption; try lia. now rewrite <- R2.
Qed.

Lemma reported_second_match (fuel : nat) (post : api) (h : hints)
    (ps : list Z) (x : json) :
  encontrar_pedidos_cliente fuel post h
  = Some (ps, Ok (Mensagem (MsgMultiplosCnpj x))) ->
  exists normalized k j c1 c2,
    normalize_input (cnpj_cpf h) = Ok normalized /\
    has_cnpj normalized = true /\ x = cnpj_cpf h /\
    1 <= k < Z.of_nat j /\ ps = pages_upto j /\
    first_hit normalized (listar_clientes post h normalized k) = Some c1 /\
    truthy (codigo_de c1) = false /\
    first_hit normalized (listar_clientes post h normalized (Z.of_nat j))
    = Some c2.
Proof.
  intros H. apply encontrar_pedidos_cliente_cases in H
    as [(_ & _ & X)|(_ & normalized & Hn & [(m & Hm & E)
                                            |(st & _ & [(m & Hv & E)
                                                       |(id & rec & _ & He)])])].
  - discriminate X.
  - injection E as E. subst m. exists normalized.
    destruct (paginate_pages _ _ _ _ _ _ Hm) as (n & Ep & _).
    pose proof (paginate_reports post h normalized fuel scan_init ps x
                  ltac:(simpl; lia) ltac:(discriminate) Hm)
      as (k & c1 & c2 & Hk & H1 & H2 & H3).
    apply paginate_returns in Hm as (_ & Hm). cbv zeta in Hm.
    subst ps. rewrite last_pages_upto in *.
    destruct Hm as [(_ & X)|[(_ & X & Hc)|(_ & X & _)]]; try discriminate X.
    injection X as ->.
    exists k, (S n), c1, c2. repeat split; try assumption; lia.
  - injection E as E. subst m. apply validate_found_falha in Hv as [X|(k & X & _)];
      discriminate X.
  - apply encontrar_pedidos_ok in He
      as [(_ & X)|[(_ & _ & X)
                  |(_ & up & srt & l & _ & _ & _ & _ & X & _)]];
      discriminate X.
Qed.

(** C2, as amended: the scan stops at the first record with the tax id
    looked for, and a second one is reported when it is reached.  With a
    tax id hint that contains a digit, the message about several records
    is returned when the first match, on page [k], has no usable
    customer id and a later page [j] within the announced page count
    holds a match, the other pages up to [j] arriving without error and
    without a match; and it is returned in that case only. *)
Theorem second_match_reported_after_match_without_id (post : api) (h : hints) :
  (forall (fuel : nat) (normalized : option string) (k j : nat) (c1 c2 : json),
     normalize_input (cnpj_cpf h) = Ok normalized ->
     has_cnpj normalized = true ->
     (1 <= k < j)%nat ->
     (forall p, 1 <= p < Z.of_nat j -> p <> Z.of_nat k ->
        miss_page normalized (listar_clientes post h normalized p) = true) ->
     is_error (listar_clientes post h normalized (Z.of_nat k)) = false ->
     first_hit normalized (listar_clientes post h normalized (Z.of_nat k))
       = Some c1 ->
     truthy (codigo_de c1) = false ->
     is_error (listar_clientes post h normalized (Z.of_nat j)) = false ->
     first_hit normalized (listar_clientes post h normalized (Z.of_nat j))
       = Some c2 ->
     Z.of_nat j <= page_bound (listar_clientes post h normalized 1) ->
     (j <= fuel)%nat ->
     encontrar_pedidos_cliente fuel post h
     = Some (pages_upto j, Ok (Mensagem (MsgMultiplosCnpj (cnpj_cpf h))))) /\
  (forall (fuel : nat) (ps : list Z) (x : json),
     encontrar_pedidos_cliente fuel post h
     = Some (ps, Ok (Mensagem (MsgMultiplosCnpj x))) ->
     exists normalized k j c1 c2,
       normalize_input (cnpj_cpf h) = Ok normalized /\
       has_cnpj normalized = true /\ x = cnpj_cpf h /\
       1 <= k < Z.of_nat j /\ ps = pages_upto j /\
       first_hit normalized (listar_clientes post h normalized k) = Some c1 /\
       truthy (codigo_de c1) = false /\
       first_hit normalized (listar_clientes post h normalized (Z.of_nat j))
       = Some c2).
Proof.
  split.
  - intros fuel normalized k j c1 c2. apply second_match_is_reported.
  - intros fuel ps x. apply reported_second_match.
Qed.

Lemma second_match_reported_after_match_without_id_witness :
  let h := mkHints (JStr "12.345.678/0001-90") JNull JNull in
  let a := JObj [("cnpj_cpf", JStr "12.345.678/0001-90");
                 ("nome_fantasia", JStr "Alfa")] in
  let b := Exemplos.cliente 2 "12345678000190" "Beta" in
  let post :=
    Exemplos.servir [Exemplos.pagina 2 [a]; Exemplos.pagina 2 [b]] (JObj []) in
  encontrar_pedidos_cliente 2 post h
  = Some ([1; 2], Ok (Mensagem (MsgMultiplosCnpj (JStr "12.345.678/0001-90")))).
Proof.
  intros h a b post.
  apply (proj1 (second_match_reported_after_match_without_id post h)
           2%nat (Some "12345678000190") 1%nat 2%nat a b).
  - reflexivity.
  - reflexivity.
  - lia.
  - intros p Hp Hne. lia.
  - reflexivity.
  - reflexivity.
  - reflexivity.
  - reflexivity.
  - reflexivity.
  - vm_compute. discriminate.
  - lia.
Defined.
